(** * KataGo [python/train.py]: the training-loop orchestration, embedded

    A shallow embedding of the control logic of [train.py]: the export cycle
    counter, the train bucket, the data-reload check, checkpoint saving and
    loading, the export step, the metrics aggregation with its output stream
    and the file selection of a sub-epoch; then the same pieces over whole
    runs (the bucket, the export schedule, the reload loop, the checkpoint
    files, the running metrics, the selection loop, the counters of the
    training state) and the start of the program (the directories, the
    number of batches per epoch, the model config, the optimizer's groups).

    Conventions of the embedding.
    - Python [int] is [Z] (unbounded).  Python [float] is idealised as an
      exact rational [Q]: no rounding is modelled.  The module [Binary64] at
      the end evaluates the float expressions of the concrete examples in
      IEEE binary64, where they give the same values.
    - A [dict] keyed by strings is a [gmap string _]; [defaultdict(float)]
      reads a missing key as [0].  The iteration order of a dict is
      abstracted: each loop over a dict below visits every key once and
      updates that key's entry only (in [log_metrics] two metrics named
      ["x_sum"] and ["x"] print under the same name; which one the record
      keeps depends on the order, and nothing below rests on it).
    - An exception is a value of [Py.exn]; fallible code returns
      [Py.result], and code that writes to the file system threads the file
      system through and returns it together with the result, so the state
      left behind by a raised exception is visible.
    - [random.random()] is an explicit argument (the value drawn).
    - [time.sleep(n)] is recorded in the outcome of the step that sleeps.
    - A loop that may not end takes fuel, or the list of what it observes
      pass by pass, and returns [None] when that is used up. *)

From Stdlib Require Import ZArith QArith Qround Lia Lqa.
From Stdlib Require Floats.
From stdpp Require Import base option list strings gmap pretty.

(* ===================================================================== *)
(** * Python values, exceptions, comparisons *)
(* ===================================================================== *)

Module Py.

(** The exceptions the embedded code can raise; the payload names the key
    or the path as Python's message does. *)
Inductive exn :=
| KeyError (key : string)
| TypeError
| AssertionError
| ZeroDivisionError
| FileNotFoundError (p : string)
| FileExistsError (p : string)
| IsADirectoryError (p : string)
| NotADirectoryError (p : string)
| OSError (p : string).

Inductive result (A : Type) :=
| Ok (a : A)
| Raise (e : exn).

Arguments Ok {A} a.
Arguments Raise {A} e.

Definition bind {A B} (r : result A) (k : A -> result B) : result B :=
  match r with
  | Ok a => k a
  | Raise e => Raise e
  end.

Definition is_ok {A} (r : result A) : bool :=
  match r with Ok _ => true | Raise _ => false end.

(** [x > y], [x >= y] and [x != y] on numbers. *)
Definition gt (x y : Q) : bool := negb (Qle_bool x y).
Definition ge (x y : Q) : bool := Qle_bool y x.
Definition ne (x y : Q) : bool := negb (Qeq_bool x y).

(** [max(a, b)]: the first argument unless the second is greater. *)
Definition max (a b : Q) : Q := if gt b a then b else a.

(** [a / b] on floats. *)
Definition div (a b : Q) : result Q :=
  if Qeq_bool b 0 then Raise ZeroDivisionError else Ok (a / b)%Q.

(** [s.endswith(suffix)] and [s[:-n]]. *)
Definition endswith (s suffix : string) : bool :=
  (String.length suffix <=? String.length s)%nat
  && String.eqb (String.substring (String.length s - String.length suffix)
                                  (String.length suffix) s) suffix.

Definition drop_last (n : nat) (s : string) : string :=
  String.substring 0 (String.length s - n) s.

Lemma gt_true (x y : Q) : gt x y = true <-> (y < x)%Q.
Proof.
  unfold gt. rewrite negb_true_iff.
  destruct (Qle_bool x y) eqn:E.
  - apply Qle_bool_iff in E. split; [discriminate|]. intros H. exfalso. lra.
  - split; [intros _|reflexivity].
    destruct (Qlt_le_dec y x) as [H|H]; [exact H|].
    apply Qle_bool_iff in H. congruence.
Qed.

Lemma gt_false (x y : Q) : gt x y = false <-> (x <= y)%Q.
Proof. unfold gt. rewrite negb_false_iff. apply Qle_bool_iff. Qed.

Lemma ge_true (x y : Q) : ge x y = true <-> (y <= x)%Q.
Proof. unfold ge. apply Qle_bool_iff. Qed.

Lemma ge_false (x y : Q) : ge x y = false <-> (x < y)%Q.
Proof.
  unfold ge. destruct (Qle_bool y x) eqn:E.
  - apply Qle_bool_iff in E. split; [discriminate|]. intros H. exfalso. lra.
  - split; [intros _|reflexivity].
    destruct (Qlt_le_dec x y) as [H|H]; [exact H|].
    apply Qle_bool_iff in H. congruence.
Qed.

Lemma ne_true (x y : Q) : ~ (x == y)%Q -> ne x y = true.
Proof.
  intros H. unfold ne. apply negb_true_iff.
  destruct (Qeq_bool x y) eqn:E; [|reflexivity].
  apply Qeq_bool_iff in E. contradiction.
Qed.

Lemma div_nonzero (a b : Q) : ~ (b == 0)%Q -> div a b = Ok (a / b)%Q.
Proof.
  intros H. unfold div.
  destruct (Qeq_bool b 0) eqn:E; [|reflexivity].
  apply Qeq_bool_iff in E. contradiction.
Qed.

End Py.

(** [Py.result] is a monad in stdpp's sense: [x ← c; k] runs [c] and stops
    at the first exception. *)
#[global] Instance result_ret : MRet Py.result := @Py.Ok.
#[global] Instance result_bind : MBind Py.result :=
  fun A B k r => Py.bind r k.

(* ===================================================================== *)
(** * The persistent training state and the arguments *)
(* ===================================================================== *)

(** [train_state]: the dict saved in every checkpoint.  After the
    initialisation at the top of [main] the keys [global_step_samples],
    [train_steps_since_last_reload] and [export_cycle_counter] are always
    present; the two bucket keys may be absent. *)
Record train_state := mk_train_state {
  global_step_samples : Z;
  train_bucket_level : option Q;
  train_bucket_level_at_row : option Z;
  train_steps_since_last_reload : Z;
  export_cycle_counter : Z
}.

Definition set_train_bucket_level (v : Q) (ts : train_state) : train_state :=
  mk_train_state (global_step_samples ts) (Some v)
    (train_bucket_level_at_row ts) (train_steps_since_last_reload ts)
    (export_cycle_counter ts).

Definition set_train_bucket_level_at_row (v : Z) (ts : train_state) : train_state :=
  mk_train_state (global_step_samples ts) (train_bucket_level ts)
    (Some v) (train_steps_since_last_reload ts) (export_cycle_counter ts).

Definition set_train_steps_since_last_reload (v : Z) (ts : train_state) : train_state :=
  mk_train_state (global_step_samples ts) (train_bucket_level ts)
    (train_bucket_level_at_row ts) v (export_cycle_counter ts).

Definition set_export_cycle_counter (v : Z) (ts : train_state) : train_state :=
  mk_train_state (global_step_samples ts) (train_bucket_level ts)
    (train_bucket_level_at_row ts) (train_steps_since_last_reload ts) v.

(** The command-line arguments the orchestration reads, after the defaults
    of [main] are filled in. *)
Record args := mk_args {
  samples_per_epoch : Z;
  sub_epochs : Z;
  epochs_per_export : Z;
  export_prob : option Q;
  no_export : bool;
  max_train_bucket_per_new_data : option Q;
  max_train_bucket_size : Q;
  max_train_steps_since_last_reload : option Q
}.

(** The keys filled in right after [load()] (lines 343-350), from what the
    checkpoint held. *)
Definition init_train_state (a : args) (loaded_level : option Q)
    (loaded_at_row : option Z) (gss steps counter : option Z) : train_state :=
  mk_train_state
    (default 0%Z gss)
    (match max_train_bucket_per_new_data a, loaded_level with
     | Some _, None => Some (inject_Z (samples_per_epoch a))
     | _, l => l
     end)
    loaded_at_row
    (default 0%Z steps)
    (default 0%Z counter).

(** With bucket limiting enabled the level is present from the start. *)
Lemma init_train_state_level (a : args) (loaded_level : option Q)
    (loaded_at_row : option Z) (gss steps counter : option Z) (fill : Q) :
  max_train_bucket_per_new_data a = Some fill ->
  train_bucket_level
    (init_train_state a loaded_level loaded_at_row gss steps counter)
  = Some (default (inject_Z (samples_per_epoch a)) loaded_level).
Proof.
  intros H. unfold init_train_state. simpl. rewrite H.
  destruct loaded_level; reflexivity.
Qed.

(* ===================================================================== *)
(** * The export cycle counter (end of each epoch) *)
(* ===================================================================== *)

Module ExportCycle.

Local Open Scope Z_scope.

(** The block under [if rank == 0:] after the checkpoint save (lines
    672-690, up to the decision to export).  [draw] is
    the value of [random.random()], read only when [export_prob] is set.
    Returns the new state and whether the export branch is entered. *)
Definition on_epoch_complete (rank : Z) (a : args) (draw : Q)
    (ts : train_state) : train_state * bool :=
  if rank =? 0 then
    let ts := set_export_cycle_counter (export_cycle_counter ts + 1) ts in
    let is_time_to_export := false in
    let '(ts, is_time_to_export) :=
      if epochs_per_export a <=? export_cycle_counter ts then
        if no_export a then
          (set_export_cycle_counter (epochs_per_export a) ts, is_time_to_export)
        else
          (set_export_cycle_counter 0 ts, true)
      else (ts, is_time_to_export) in
    let skip_export_this_time :=
      match export_prob a with
      | Some p => if Py.gt draw p then true else false
      | None => false
      end in
    (ts, negb (no_export a) && is_time_to_export && negb skip_export_this_time)
  else (ts, false).

(** Several epochs in a row, one draw per epoch; the decisions are listed
    oldest first. *)
Fixpoint run_epochs (rank : Z) (a : args) (draws : list Q)
    (ts : train_state) : train_state * list bool :=
  match draws with
  | [] => (ts, [])
  | d :: rest =>
      let '(ts1, e) := on_epoch_complete rank a d ts in
      let '(ts2, es) := run_epochs rank a rest ts1 in
      (ts2, e :: es)
  end.

(** Period 3 with exports disabled, as in the example of the claim. *)
Definition disabled_period3 (prob : option Q) : args :=
  mk_args 100 1 3 prob true None 0 None.

Definition fresh_state : train_state := mk_train_state 0 None None 0 0.

Lemma counter_step (a : args) (draw : Q) (ts : train_state) :
  export_cycle_counter (fst (on_epoch_complete 0 a draw ts)) =
    if epochs_per_export a <=? export_cycle_counter ts + 1
    then (if no_export a then epochs_per_export a else 0)
    else export_cycle_counter ts + 1.
Proof.
  unfold on_epoch_complete. simpl.
  destruct (epochs_per_export a <=? export_cycle_counter ts + 1);
    [destruct (no_export a)|]; reflexivity.
Qed.

Lemma counter_other_rank (rank : Z) (a : args) (draw : Q) (ts : train_state) :
  rank <> 0 -> on_epoch_complete rank a draw ts = (ts, false).
Proof.
  intros H. unfold on_epoch_complete.
  destruct (Z.eqb_spec rank 0); [contradiction|reflexivity].
Qed.

Lemma decision_step (rank : Z) (a : args) (draw : Q) (ts : train_state) :
  snd (on_epoch_complete rank a draw ts) = true ->
  rank = 0 /\ no_export a = false /\
  epochs_per_export a <= export_cycle_counter ts + 1 /\
  export_cycle_counter (fst (on_epoch_complete rank a draw ts)) = 0.
Proof.
  unfold on_epoch_complete.
  destruct (Z.eqb_spec rank 0) as [->|]; [|discriminate]. simpl.
  destruct (Z.leb_spec (epochs_per_export a) (export_cycle_counter ts + 1));
    destruct (no_export a); simpl; try discriminate.
  intros _. repeat split; assumption.
Qed.

Lemma counter_stays_in_range (rank : Z) (a : args) (draw : Q)
    (ts : train_state) :
  0 <= epochs_per_export a ->
  0 <= export_cycle_counter ts <= epochs_per_export a ->
  0 <= export_cycle_counter (fst (on_epoch_complete rank a draw ts))
    <= epochs_per_export a.
Proof.
  intros HE Hc. destruct (Z.eq_dec rank 0) as [->|Hr].
  - rewrite counter_step.
    destruct (Z.leb_spec (epochs_per_export a) (export_cycle_counter ts + 1));
      [destruct (no_export a)|]; lia.
  - rewrite (counter_other_rank rank a draw ts Hr). exact Hc.
Qed.

Lemma run_epochs_in_range (rank : Z) (a : args) (draws : list Q)
    (ts : train_state) :
  0 <= epochs_per_export a ->
  0 <= export_cycle_counter ts <= epochs_per_export a ->
  0 <= export_cycle_counter (fst (run_epochs rank a draws ts))
    <= epochs_per_export a.
Proof.
  intros HE. revert ts.
  induction draws as [|d rest IH]; intros ts Hc; [exact Hc|].
  simpl.
  pose proof (counter_stays_in_range rank a d ts HE Hc) as H1.
  destruct (on_epoch_complete rank a d ts) as [ts1 e].
  specialize (IH ts1 H1).
  destruct (run_epochs rank a rest ts1) as [ts2 es]. exact IH.
Qed.

Lemma disabled_never_exports (rank : Z) (a : args) (draws : list Q)
    (ts : train_state) :
  no_export a = true ->
  snd (run_epochs rank a draws ts) = map (fun _ => false) draws.
Proof.
  intros Hno. revert ts.
  induction draws as [|d rest IH]; intros ts; [reflexivity|]. simpl.
  destruct (on_epoch_complete rank a d ts) as [ts1 e] eqn:E1.
  specialize (IH ts1).
  destruct (run_epochs rank a rest ts1) as [ts2 es]. simpl in *.
  rewrite IH. f_equal.
  destruct e; [|reflexivity].
  pose proof (decision_step rank a d ts) as H. rewrite E1 in H.
  destruct (H eq_refl) as (_ & Hc & _). congruence.
Qed.

(** C8.  With a non-negative period, a counter in [0, epochs_per_export]
    stays there after the end-of-epoch block and after any number of
    epochs, on every rank and for every draw.  On the leader it advances by
    one below the period, and at the period it is reset to 0 (exports
    enabled) or clamped to the period (exports disabled); the export branch
    is entered only with the counter reset to 0, and never with exports
    disabled.  With period 3 and exports disabled, five epochs from a fresh
    state leave the counter at exactly 3 and no epoch exports. *)
Theorem export_cycle_counter_in_range (rank : Z) (a : args) (draw : Q)
    (ts : train_state) :
  0 <= epochs_per_export a ->
  0 <= export_cycle_counter ts <= epochs_per_export a ->
  let r := on_epoch_complete rank a draw ts in
  0 <= export_cycle_counter (fst r) <= epochs_per_export a
  /\ (forall draws,
        0 <= export_cycle_counter (fst (run_epochs rank a draws ts))
          <= epochs_per_export a)
  /\ (rank = 0 -> export_cycle_counter ts + 1 < epochs_per_export a ->
        export_cycle_counter (fst r) = export_cycle_counter ts + 1
        /\ snd r = false)
  /\ (rank = 0 -> epochs_per_export a <= export_cycle_counter ts + 1 ->
        export_cycle_counter (fst r) =
          if no_export a then epochs_per_export a else 0)
  /\ (snd r = true -> export_cycle_counter (fst r) = 0 /\ no_export a = false)
  /\ (forall prob d1 d2 d3 d4 d5,
        let r5 := run_epochs 0 (disabled_period3 prob) [d1; d2; d3; d4; d5]
                    fresh_state in
        export_cycle_counter (fst r5) = 3
        /\ snd r5 = [false; false; false; false; false]).
Proof.
  intros HE Hc r. subst r.
  split; [exact (counter_stays_in_range rank a draw ts HE Hc)|].
  split; [intros draws; exact (run_epochs_in_range rank a draws ts HE Hc)|].
  split; [|split; [|split]].
  - intros -> Hlt. split.
    + rewrite counter_step.
      destruct (Z.leb_spec (epochs_per_export a) (export_cycle_counter ts + 1));
        [lia|reflexivity].
    + destruct (snd (on_epoch_complete 0 a draw ts)) eqn:E; [|reflexivity].
      destruct (decision_step 0 a draw ts E) as (_ & _ & Hle & _). lia.
  - intros -> Hle. rewrite counter_step.
    destruct (Z.leb_spec (epochs_per_export a) (export_cycle_counter ts + 1));
      [reflexivity|lia].
  - intros E. destruct (decision_step rank a draw ts E) as (_ & Hno & _ & H0).
    split; assumption.
  - intros prob d1 d2 d3 d4 d5 r5. subst r5.
    split; [destruct prob; reflexivity|].
    apply (disabled_never_exports 0 (disabled_period3 prob)
             [d1; d2; d3; d4; d5] fresh_state eq_refl).
Qed.

(** The theorem at period 3, exports enabled, counter 2: the third epoch
    resets the counter and exports. *)
Lemma export_cycle_counter_in_range_witness :
  let a := mk_args 100 1 3 None false None 0 None in
  let ts := mk_train_state 0 None None 0 2 in
  on_epoch_complete 0 a 0 ts = (mk_train_state 0 None None 0 0, true)
  /\ 0 <= export_cycle_counter (fst (on_epoch_complete 0 a 0 ts)) <= 3.
Proof.
  split; [reflexivity|].
  apply (export_cycle_counter_in_range 0
           (mk_args 100 1 3 None false None 0 None) 0
           (mk_train_state 0 None None 0 2)); simpl; lia.
Defined.

End ExportCycle.

(* ===================================================================== *)
(** * The train bucket *)
(* ===================================================================== *)

Module TrainBucket.

Local Open Scope Q_scope.

(** What the driver does after the bucket check: run the epoch, or
    [time.sleep(seconds)] and [continue] the outer loop. *)
Inductive admission :=
| Proceed (ts : train_state)
| SleepAndRetry (seconds : Z) (ts : train_state).

(** The block [if max_train_bucket_per_new_data is not None:] at the top of
    the epoch loop (lines 571-583). *)
Definition consume_train_bucket (a : args) (ts : train_state)
    : Py.result admission :=
  match max_train_bucket_per_new_data a with
  | None => Py.Ok (Proceed ts)
  | Some _ =>
      match train_bucket_level ts with
      | None => Py.Raise (Py.KeyError "train_bucket_level")
      | Some level =>
          if Py.gt level (0.99 * inject_Z (samples_per_epoch a)) then
            Py.Ok (Proceed (set_train_bucket_level
                              (level - inject_Z (samples_per_epoch a)) ts))
          else
            Py.Ok (SleepAndRetry 300 ts)
      end
  end.

(** The bucket lines of the new-directory branch of
    [maybe_reload_training_data] (lines 446-461).  [has_row_key] is the
    value of
    ["train_bucket_level_at_row" in trainhistory]. *)
Definition advance_train_bucket (a : args) (has_row_key : bool)
    (last_datainfo_row : Z) (ts : train_state) : Py.result train_state :=
  match max_train_bucket_per_new_data a with
  | None => Py.Ok ts
  | Some fill =>
      let ts := if negb has_row_key
                then set_train_bucket_level_at_row last_datainfo_row ts
                else ts in
      match train_bucket_level_at_row ts with
      | None => Py.Raise (Py.KeyError "train_bucket_level_at_row")
      | Some at_row =>
          if (at_row <? last_datainfo_row)%Z then
            let new_row_count := (last_datainfo_row - at_row)%Z in
            let ts := set_train_bucket_level_at_row last_datainfo_row ts in
            match train_bucket_level ts with
            | None => Py.Raise (Py.KeyError "train_bucket_level")
            | Some level =>
                let level := level + inject_Z new_row_count * fill in
                let cap := Py.max (max_train_bucket_size a)
                                  (inject_Z (samples_per_epoch a)) in
                let level := if Py.gt level cap then cap else level in
                Py.Ok (set_train_bucket_level level ts)
            end
          else Py.Ok ts
      end
  end.

(** fill_rate 2.0, cap 1000, samples_per_epoch 100. *)
Definition example_args : args :=
  mk_args 100 1 1 None false (Some 2) 1000 None.

Definition state_with_level (level : Q) (at_row : Z) : train_state :=
  mk_train_state 0 (Some level) (Some at_row) 0 0.

(** When the membership test finds no key, the row is overwritten first and
    the comparison that follows cannot hold: the level is not touched. *)
Lemma advance_without_row_key (a : args) (row : Z) (ts : train_state)
    (fill : Q) :
  max_train_bucket_per_new_data a = Some fill ->
  advance_train_bucket a false row ts =
    Py.Ok (set_train_bucket_level_at_row row ts).
Proof.
  intros H. unfold advance_train_bucket. rewrite H. simpl.
  rewrite Z.ltb_irrefl. reflexivity.
Qed.

(** The lines after the membership test do advance and clamp the level. *)
Lemma advance_with_row_key (a : args) (row at_row : Z) (ts : train_state)
    (fill level : Q) :
  max_train_bucket_per_new_data a = Some fill ->
  train_bucket_level ts = Some level ->
  train_bucket_level_at_row ts = Some at_row ->
  (at_row < row)%Z ->
  let cap := Py.max (max_train_bucket_size a) (inject_Z (samples_per_epoch a)) in
  let raised := level + inject_Z (row - at_row) * fill in
  advance_train_bucket a true row ts =
    Py.Ok (set_train_bucket_level (if Py.gt raised cap then cap else raised)
             (set_train_bucket_level_at_row row ts)).
Proof.
  intros Hfill Hlevel Hrow Hlt. unfold advance_train_bucket.
  rewrite Hfill. simpl. rewrite Hrow.
  destruct (Z.ltb_spec at_row row); [|lia]. simpl. rewrite Hlevel.
  reflexivity.
Qed.

(** C6, as the code has it.  With bucket limiting enabled and a level
    present: when the level is strictly above 0.99 * samples_per_epoch,
    exactly samples_per_epoch is debited and the epoch proceeds; when it is
    at or below that threshold (equality included), the state is left
    unchanged and the driver sleeps 300 seconds and retries. *)
Theorem consume_train_bucket_strict (a : args) (ts : train_state)
    (fill level : Q) :
  max_train_bucket_per_new_data a = Some fill ->
  train_bucket_level ts = Some level ->
  (0.99 * inject_Z (samples_per_epoch a) < level ->
     consume_train_bucket a ts =
       Py.Ok (Proceed (set_train_bucket_level
                         (level - inject_Z (samples_per_epoch a)) ts)))
  /\ (level <= 0.99 * inject_Z (samples_per_epoch a) ->
     consume_train_bucket a ts = Py.Ok (SleepAndRetry 300 ts)).
Proof.
  intros Hfill Hlevel. unfold consume_train_bucket.
  rewrite Hfill, Hlevel. split; intros H.
  - apply Py.gt_true in H. rewrite H. reflexivity.
  - apply Py.gt_false in H. rewrite H. reflexivity.
Qed.

Lemma consume_train_bucket_strict_witness :
  consume_train_bucket example_args (state_with_level 150 0) =
    Py.Ok (Proceed (set_train_bucket_level (150 - inject_Z 100)
                      (state_with_level 150 0)))
  /\ consume_train_bucket example_args (state_with_level 40 0) =
    Py.Ok (SleepAndRetry 300 (state_with_level 40 0)).
Proof.
  split.
  - apply (consume_train_bucket_strict example_args (state_with_level 150 0)
             2 150 eq_refl eq_refl).
    vm_compute. reflexivity.
  - apply (consume_train_bucket_strict example_args (state_with_level 40 0)
             2 40 eq_refl eq_refl).
    vm_compute. discriminate.
Defined.

(** C6 as stated fails at the threshold itself: with samples_per_epoch =
    100 and level = 99 = 0.99 * 100 the claim's condition [level >= 0.99 *
    samples_per_epoch] holds, yet nothing is debited and the driver waits. *)
Lemma consume_at_threshold_waits :
  0.99 * inject_Z (samples_per_epoch example_args) <= 99
  /\ consume_train_bucket example_args (state_with_level 99 0) =
       Py.Ok (SleepAndRetry 300 (state_with_level 99 0))
  /\ consume_train_bucket example_args (state_with_level 99 0) <>
       Py.Ok (Proceed (set_train_bucket_level
                         (99 - inject_Z (samples_per_epoch example_args))
                         (state_with_level 99 0))).
Proof.
  split; [vm_compute; discriminate|].
  split; [reflexivity|discriminate].
Qed.

End TrainBucket.

(* ===================================================================== *)
(** * The data-reload check ([maybe_reload_training_data]) *)
(* ===================================================================== *)

Module DataReload.

Local Open Scope Z_scope.

(** [trainhistory]: a dict with the list ["history"] and, once
    [save_history] has run, the copies ["train_state"] and
    ["extra_stats"]; it is read back from [trainhistory.json] at start. *)
Inductive event :=
| Started (now : string)
| NewData (global_step_samples : Z) (range : Z * Z).

Inductive th_value :=
| History (events : list event)
| TrainStateCopy (ts : train_state)
| ExtraStatsCopy (sums weights : gmap string Q)
| OtherJson.

(** What one pass of the [while True] loop observes outside the process. *)
Record data_env := mk_data_env {
  realpath : string;                        (* os.path.realpath(datadir) *)
  dir_exists : bool;                        (* os.path.exists(curdatadir) *)
  train_json : option (Z * Z);              (* datainfo["range"], when train.json exists *)
  train_listing : option (list string)      (* os.listdir(tdatadir), when it exists *)
}.

(** The [nonlocal] variables of the function. *)
Record watcher := mk_watcher {
  last_curdatadir : option string;
  last_datainfo_row : Z;
  train_files : list string;
  num_train_files : nat;
  vdatadir : option string
}.

Record reload_state := mk_reload_state {
  rs_watcher : watcher;
  rs_train_state : train_state;
  rs_trainhistory : gmap string th_value
}.

Inductive pass_outcome :=
| Reloaded
| Unchanged
| SleepAndRetry (seconds : Z).

Definition path_join (d f : string) : string := d +:+ "/" +:+ f.

(** [trainhistory["history"].append(e)]. *)
Definition history_append (e : event) (th : gmap string th_value)
    : Py.result (gmap string th_value) :=
  match th !! "history" with
  | None => Py.Raise (Py.KeyError "history")
  | Some (History l) => Py.Ok (<["history" := History (l ++ [e])]> th)
  | Some _ => Py.Raise Py.TypeError
  end.

(** The dict part of [save_history]: the two copies are (re)written. *)
Definition snapshot_history (ts : train_state) (sums weights : gmap string Q)
    (th : gmap string th_value) : gmap string th_value :=
  <["extra_stats" := ExtraStatsCopy sums weights]>
    (<["train_state" := TrainStateCopy ts]> th).

(** The history a process starts from: [{"history": []}] or the loaded
    file, then the ["started"] event. *)
Definition initial_history (loaded : option (gmap string th_value))
    (now : string) : Py.result (gmap string th_value) :=
  history_append (Started now)
    (default {["history" := History []]} loaded).

(** One pass of the body of [while True] (lines 424-496). *)
Definition reload_pass (a : args) (env : data_env) (st : reload_state)
    : Py.result (pass_outcome * reload_state) :=
  let w := rs_watcher st in
  let curdatadir := realpath env in
  if bool_decide (Some curdatadir <> last_curdatadir w) then
    if negb (dir_exists env) then Py.Ok (SleepAndRetry 30, st)
    else
      match train_json env with
      | None => Py.Ok (SleepAndRetry 30, st)
      | Some range =>
          let last_datainfo_row := snd range in
          ts ← TrainBucket.advance_train_bucket a
                 (bool_decide (is_Some
                    (rs_trainhistory st !! "train_bucket_level_at_row")))
                 last_datainfo_row (rs_train_state st);
          let ts := set_train_steps_since_last_reload 0 ts in
          th ← history_append (NewData (global_step_samples ts) range)
                 (rs_trainhistory st);
          let tdatadir := path_join curdatadir "train" in
          match train_listing env with
          | None => Py.Raise (Py.FileNotFoundError tdatadir)
          | Some names =>
              let train_files :=
                map (path_join tdatadir)
                    (filter (fun fname => Py.endswith fname ".npz" = true) names) in
              Py.Ok (Reloaded,
                     mk_reload_state
                       (mk_watcher (Some curdatadir) last_datainfo_row
                          train_files (length train_files)
                          (Some (path_join curdatadir "val")))
                       ts th)
          end
      end
  else
    match max_train_steps_since_last_reload a with
    | Some ceiling =>
        per_sub ← Py.div (0.99 * inject_Z (samples_per_epoch a))%Q
                         (inject_Z (sub_epochs a));
        if Py.gt (inject_Z (train_steps_since_last_reload (rs_train_state st))
                  + per_sub)%Q ceiling
        then Py.Ok (SleepAndRetry 300, st)
        else Py.Ok (Unchanged, st)
    | None => Py.Ok (Unchanged, st)
    end.

(** The loop against the successive observations of the outside world, one
    per pass; [None] when it is still waiting after the last one. *)
Fixpoint reload_loop (a : args) (envs : list data_env) (st : reload_state)
    : Py.result (option reload_state) :=
  match envs with
  | [] => Py.Ok None
  | env :: rest =>
      r ← reload_pass a env st;
      match r with
      | (SleepAndRetry _, st') => reload_loop a rest st'
      | (_, st') => Py.Ok (Some st')
      end
  end.

Definition maybe_reload_training_data (rank : Z) (a : args)
    (envs : list data_env) (st : reload_state)
    : Py.result (option reload_state) :=
  if negb (rank =? 0) then Py.Raise Py.AssertionError
  else reload_loop a envs st.

(** A new directory that is ready: it differs from the last one seen,
    exists, and has a manifest and a [train] subdirectory. *)
Definition new_ready_dir (env : data_env) (st : reload_state)
    (range : Z * Z) (names : list string) : Prop :=
  Some (realpath env) <> last_curdatadir (rs_watcher st)
  /\ dir_exists env = true
  /\ train_json env = Some range
  /\ train_listing env = Some names.

(** The scenario of the claim: fill 2.0, cap 1000, samples_per_epoch 100, a
    state with an empty bucket accounted up to row 0, then two new
    directories of 50 new rows each. *)
Definition scenario_args : args := TrainBucket.example_args.

Definition scenario_history : gmap string th_value :=
  {["history" := History [Started "t0"]]}.

Definition scenario_start : reload_state :=
  mk_reload_state (mk_watcher None 0 [] 0 None)
    (TrainBucket.state_with_level 0 0) scenario_history.

Definition scenario_envs : list data_env :=
  [ mk_data_env "/data/shuffle1" true (Some (0, 50)) (Some ["a.npz"]);
    mk_data_env "/data/shuffle2" true (Some (0, 100)) (Some ["a.npz"; "b.npz"]) ].

Definition after_two_reloads : Py.result (option reload_state) :=
  st1 ← maybe_reload_training_data 0 scenario_args (take 1 scenario_envs)
          scenario_start;
  match st1 with
  | Some st1 => maybe_reload_training_data 0 scenario_args
                  (drop 1 scenario_envs) st1
  | None => Py.Ok None
  end.

(** The histories this program itself builds never have the top-level key
    the bucket code tests for. *)
Lemma initial_history_lacks_row_key (now : string) (th : gmap string th_value) :
  initial_history None now = Py.Ok th ->
  th !! "train_bucket_level_at_row" = None.
Proof.
  unfold initial_history, history_append. simpl.
  rewrite lookup_singleton_eq. intros [= <-].
  rewrite lookup_insert_ne by discriminate.
  apply lookup_singleton_ne. discriminate.
Qed.

Lemma history_append_lacks_row_key (e : event) (th th' : gmap string th_value) :
  th !! "train_bucket_level_at_row" = None ->
  history_append e th = Py.Ok th' ->
  th' !! "train_bucket_level_at_row" = None.
Proof.
  intros Hth. unfold history_append.
  destruct (th !! "history") as [[l| | |]|]; try discriminate.
  intros [= <-]. rewrite lookup_insert_ne by discriminate. exact Hth.
Qed.

Lemma snapshot_history_lacks_row_key (ts : train_state)
    (sums weights : gmap string Q) (th : gmap string th_value) :
  th !! "train_bucket_level_at_row" = None ->
  snapshot_history ts sums weights th !! "train_bucket_level_at_row" = None.
Proof.
  intros Hth. unfold snapshot_history.
  rewrite !lookup_insert_ne by discriminate. exact Hth.
Qed.

(** C1 on the code.  Whenever the history has no top-level key
    ["train_bucket_level_at_row"] (as every history built by this program
    has not), a reload of a new, ready directory whose end row exceeds the
    last accounted row completes, moves [train_bucket_level_at_row] to the
    end row and leaves the bucket level exactly as it was: nothing is added
    for the new rows.  In the scenario the two reloads leave the level at 0
    and the very first consume waits. *)
Theorem reload_does_not_advance_bucket (a : args) (env : data_env)
    (st : reload_state) (range : Z * Z) (names : list string)
    (fill level : Q) (at_row : Z) (events : list event) :
  max_train_bucket_per_new_data a = Some fill ->
  new_ready_dir env st range names ->
  rs_trainhistory st !! "train_bucket_level_at_row" = None ->
  rs_trainhistory st !! "history" = Some (History events) ->
  train_bucket_level (rs_train_state st) = Some level ->
  train_bucket_level_at_row (rs_train_state st) = Some at_row ->
  at_row < snd range ->
  (exists st',
      reload_pass a env st = Py.Ok (Reloaded, st')
      /\ train_bucket_level (rs_train_state st') = Some level
      /\ train_bucket_level_at_row (rs_train_state st') = Some (snd range)
      /\ rs_trainhistory st' !! "train_bucket_level_at_row" = None)
  /\ (exists st2,
      after_two_reloads = Py.Ok (Some st2)
      /\ train_bucket_level (rs_train_state st2) = Some 0%Q
      /\ train_bucket_level_at_row (rs_train_state st2) = Some 100
      /\ TrainBucket.consume_train_bucket scenario_args (rs_train_state st2) =
           Py.Ok (TrainBucket.SleepAndRetry 300 (rs_train_state st2))).
Proof.
  intros Hfill (Hnew & Hex & Hjson & Hlist) Hkey Hhist Hlevel Hrow Hlt.
  split.
  - unfold reload_pass.
    rewrite bool_decide_eq_true_2 by exact Hnew.
    rewrite Hex, Hjson, Hlist. simpl negb. cbv iota.
    rewrite Hkey.
    rewrite bool_decide_eq_false_2 by (intros [? ?]; discriminate).
    rewrite (TrainBucket.advance_without_row_key a _ _ fill Hfill).
    cbn [mbind result_bind Py.bind].
    unfold history_append. rewrite Hhist.
    cbn [mbind result_bind Py.bind].
    eexists. split; [reflexivity|]. simpl.
    repeat split; try assumption.
    rewrite lookup_insert_ne by discriminate. exact Hkey.
  - eexists. split; [vm_compute; reflexivity|].
    repeat split.
Qed.

Lemma reload_does_not_advance_bucket_witness :
  exists st',
    reload_pass scenario_args
      (mk_data_env "/data/shuffle1" true (Some (0, 50)) (Some ["a.npz"]))
      scenario_start = Py.Ok (Reloaded, st')
    /\ train_bucket_level (rs_train_state st') = Some 0%Q
    /\ train_bucket_level_at_row (rs_train_state st') = Some 50.
Proof.
  destruct (reload_does_not_advance_bucket scenario_args
              (mk_data_env "/data/shuffle1" true (Some (0, 50)) (Some ["a.npz"]))
              scenario_start (0, 50) ["a.npz"] 2 0 0 [Started "t0"])
    as [(st' & H1 & H2 & H3 & _) _].
  - reflexivity.
  - repeat split. discriminate.
  - reflexivity.
  - reflexivity.
  - reflexivity.
  - reflexivity.
  - reflexivity.
  - exists st'. repeat split; assumption.
Defined.

End DataReload.

(* ===================================================================== *)
(** * The file system the trainer writes to *)
(* ===================================================================== *)

Module Fs.

(** A path is its list of components; [os.path.join(d, name)] adds one
    component (every joined name in [train.py] is a single component as
    long as the export prefix holds no separator). *)
Definition path := list string.

(** What a file holds: an opaque serialisation ([torch.save], [json.dump])
    tagged by what was serialised, or newline-delimited JSON records. *)
Inductive data :=
| Blob (what : string)
| Lines (records : list (gmap string Q)).

Inductive node :=
| Dir
| File (d : data).

Definition show (p : path) : string := String.concat "/" p.

Definition join (d : path) (name : string) : path := d ++ [name].

Definition parent (p : path) : path := removelast p.

(** [p + suffix] on the path string: the suffix extends the last
    component. *)
Fixpoint with_suffix (p : path) (suffix : string) : path :=
  match p with
  | [] => [suffix]
  | [name] => [name +:+ suffix]
  | d :: rest => d :: with_suffix rest suffix
  end.

(** The empty path is the root, which always exists. *)
Definition lookup_node (p : path) (m : gmap path node) : option node :=
  match p with
  | [] => Some Dir
  | _ => m !! p
  end.

(** Every entry lies in a directory that exists. *)
Definition wf (m : gmap path node) : Prop :=
  forall p n, m !! p = Some n -> p <> [] /\ lookup_node (parent p) m = Some Dir.

(** Code that touches the file system: the file system is threaded through
    and returned with the result, also when an exception is raised. *)
Definition io (A : Type) : Type := gmap path node -> Py.result A * gmap path node.

Definition io_ret {A} (a : A) : io A := fun m => (Py.Ok a, m).

Definition io_bind {A B} (c : io A) (k : A -> io B) : io B :=
  fun m =>
    match c m with
    | (Py.Ok a, m') => k a m'
    | (Py.Raise e, m') => (Py.Raise e, m')
    end.

(** [os.path.exists(p)] *)
Definition exists_ (p : path) : io bool :=
  fun m => (Py.Ok (bool_decide (is_Some (lookup_node p m))), m).

(** The directory a new entry [p] goes into must exist. *)
Definition check_parent (p : path) (m : gmap path node) : Py.result unit :=
  match lookup_node (parent p) m with
  | None => Py.Raise (Py.FileNotFoundError (show p))
  | Some (File _) => Py.Raise (Py.NotADirectoryError (show p))
  | Some Dir => Py.Ok tt
  end.

(** [open(p, "w")] followed by the writes and the close; also
    [torch.save(obj, p)]: the file is created or truncated and then holds
    [d]. *)
Definition write_file (p : path) (d : data) : io unit :=
  fun m =>
    match check_parent p m with
    | Py.Raise e => (Py.Raise e, m)
    | Py.Ok _ =>
        match lookup_node p m with
        | Some Dir => (Py.Raise (Py.IsADirectoryError (show p)), m)
        | _ => (Py.Ok tt, <[p := File d]> m)
        end
    end.

(** [os.mkdir(p)] *)
Definition mkdir (p : path) : io unit :=
  fun m =>
    match lookup_node p m with
    | Some _ => (Py.Raise (Py.FileExistsError (show p)), m)
    | None =>
        match check_parent p m with
        | Py.Raise e => (Py.Raise e, m)
        | Py.Ok _ => (Py.Ok tt, <[p := Dir]> m)
        end
    end.

(** The entries strictly below [d]. *)
Definition below (d : path) (m : gmap path node) : gmap path node :=
  filter (fun pn : path * node => d `prefix_of` pn.1 /\ pn.1 <> d) m.

(** A directory and everything below it, moved to [dst]. *)
Definition move_tree (src dst : path) (m : gmap path node) : gmap path node :=
  list_to_map
    (map (fun pn : path * node => (dst ++ drop (length src) pn.1, pn.2))
         (map_to_list (filter (fun pn : path * node => src `prefix_of` pn.1) m)))
  ∪ filter (fun pn : path * node => ~ src `prefix_of` pn.1) m.

(** [os.replace(src, dst)] and [os.rename(src, dst)] (POSIX [rename]). *)
Definition rename (src dst : path) : io unit :=
  fun m =>
    match lookup_node src m with
    | None => (Py.Raise (Py.FileNotFoundError (show src)), m)
    | Some (File d) =>
        match check_parent dst m with
        | Py.Raise e => (Py.Raise e, m)
        | Py.Ok _ =>
            match lookup_node dst m with
            | Some Dir => (Py.Raise (Py.IsADirectoryError (show dst)), m)
            | _ => (Py.Ok tt, <[dst := File d]> (delete src m))
            end
        end
    | Some Dir =>
        match check_parent dst m with
        | Py.Raise e => (Py.Raise e, m)
        | Py.Ok _ =>
            match lookup_node dst m with
            | Some (File _) => (Py.Raise (Py.NotADirectoryError (show dst)), m)
            | Some Dir =>
                if bool_decide (below dst m = ∅)
                   && negb (bool_decide (src `prefix_of` dst))
                then (Py.Ok tt, move_tree src dst (delete dst m))
                else (Py.Raise (Py.OSError (show dst)), m)
            | None =>
                if bool_decide (src `prefix_of` dst)
                then (Py.Raise (Py.OSError (show dst)), m)
                else (Py.Ok tt, move_tree src dst m)
            end
        end
    end.

(** [shutil.copy(src, dst)] *)
Definition copy (src dst : path) : io unit :=
  fun m =>
    match lookup_node src m with
    | None => (Py.Raise (Py.FileNotFoundError (show src)), m)
    | Some Dir => (Py.Raise (Py.IsADirectoryError (show src)), m)
    | Some (File d) =>
        match lookup_node dst m with
        | Some Dir => write_file (join dst (List.last src "")) d m
        | _ => write_file dst d m
        end
    end.

(** ** Paths *)

Lemma lookup_node_join (d : path) (name : string) (m : gmap path node) :
  lookup_node (join d name) m = m !! join d name.
Proof. unfold join. destruct d; reflexivity. Qed.

Lemma parent_join (d : path) (name : string) : parent (join d name) = d.
Proof. unfold parent, join. apply removelast_last. Qed.

Lemma join_inj (d : path) (name1 name2 : string) :
  join d name1 = join d name2 -> name1 = name2.
Proof. unfold join. intros H%app_inv_head. congruence. Qed.

Lemma join_neq_self (d : path) (name : string) : join d name <> d.
Proof.
  unfold join. intros H%(f_equal length). rewrite length_app in H.
  simpl in H. lia.
Qed.

Lemma with_suffix_join (d : path) (name suffix : string) :
  with_suffix (join d name) suffix = join d (name +:+ suffix).
Proof.
  unfold join. induction d as [|c d IH]; [reflexivity|].
  simpl. rewrite IH. destruct (d ++ [name]) eqn:E; [|reflexivity].
  destruct d; discriminate.
Qed.

Lemma length_append (s t : string) :
  String.length (s +:+ t) = (String.length s + String.length t)%nat.
Proof.
  induction s as [|c s IH]; simpl; [reflexivity|]. rewrite IH. reflexivity.
Qed.

Lemma tmp_name_neq (name : string) : name +:+ ".tmp" <> name.
Proof.
  intros H%(f_equal String.length). rewrite length_append in H.
  simpl in H. lia.
Qed.

Lemma wf_child_absent (m : gmap path node) (d : path) (name : string) :
  wf m -> lookup_node d m = None -> m !! join d name = None.
Proof.
  intros Hwf Hd. destruct (m !! join d name) as [n|] eqn:E; [|reflexivity].
  apply Hwf in E as [_ E]. rewrite parent_join in E. congruence.
Qed.

(** ** The operations when their conditions are known *)

Lemma exists_none (p : path) (m : gmap path node) :
  lookup_node p m = None -> exists_ p m = (Py.Ok false, m).
Proof.
  intros H. unfold exists_. rewrite H.
  rewrite bool_decide_eq_false_2 by (intros [? ?]; discriminate).
  reflexivity.
Qed.

Lemma exists_some (p : path) (n : node) (m : gmap path node) :
  lookup_node p m = Some n -> exists_ p m = (Py.Ok true, m).
Proof.
  intros H. unfold exists_. rewrite H.
  rewrite bool_decide_eq_true_2 by eauto. reflexivity.
Qed.

Lemma mkdir_ok (p : path) (m : gmap path node) :
  lookup_node p m = None -> lookup_node (parent p) m = Some Dir ->
  mkdir p m = (Py.Ok tt, <[p := Dir]> m).
Proof.
  intros H1 H2. unfold mkdir, check_parent. rewrite H1, H2. reflexivity.
Qed.

Lemma mkdir_present (p : path) (n : node) (m : gmap path node) :
  lookup_node p m = Some n ->
  mkdir p m = (Py.Raise (Py.FileExistsError (show p)), m).
Proof. intros H. unfold mkdir. rewrite H. reflexivity. Qed.

Lemma write_file_ok (p : path) (d : data) (m : gmap path node) :
  lookup_node (parent p) m = Some Dir -> lookup_node p m <> Some Dir ->
  write_file p d m = (Py.Ok tt, <[p := File d]> m).
Proof.
  intros H1 H2. unfold write_file, check_parent. rewrite H1.
  destruct (lookup_node p m) as [[|d']|]; [contradiction|reflexivity..].
Qed.

Lemma write_file_no_parent (p : path) (d : data) (m : gmap path node) :
  lookup_node (parent p) m = None ->
  write_file p d m = (Py.Raise (Py.FileNotFoundError (show p)), m).
Proof. intros H. unfold write_file, check_parent. rewrite H. reflexivity. Qed.

Lemma rename_file_ok (src dst : path) (d : data) (m : gmap path node) :
  lookup_node src m = Some (File d) ->
  lookup_node (parent dst) m = Some Dir -> lookup_node dst m <> Some Dir ->
  rename src dst m = (Py.Ok tt, <[dst := File d]> (delete src m)).
Proof.
  intros H1 H2 H3. unfold rename, check_parent. rewrite H1, H2.
  destruct (lookup_node dst m) as [[|d']|]; [contradiction|reflexivity..].
Qed.

(** Side conditions on paths: a hypothesis, different lengths, or the same
    directory and different names. *)
Ltac path_neq :=
  let H := fresh in
  first
    [ assumption
    | solve [ intros H; apply (f_equal length) in H; unfold join in H;
              rewrite ?length_app in H; simpl in H; lia ]
    | solve [ intros H; apply join_inj in H; discriminate H ] ].

(** Lookups in a file system built by inserts and deletes. *)
Ltac fs_lookup :=
  rewrite ?parent_join, ?lookup_node_join;
  repeat first
    [ rewrite lookup_insert_eq
    | rewrite lookup_delete_eq
    | rewrite lookup_insert_ne by path_neq
    | rewrite lookup_delete_ne by path_neq ].

End Fs.

#[global] Instance io_ret_inst : MRet Fs.io := @Fs.io_ret.
#[global] Instance io_bind_inst : MBind Fs.io := fun A B k c => Fs.io_bind c k.

(* ===================================================================== *)
(** * Checkpoints: [save], [save_history], and the key loop of [load] *)
(* ===================================================================== *)

Module Checkpoint.

Import Fs.

Definition get_checkpoint_path (traindir : path) : path :=
  join traindir "checkpoint.ckpt".

Definition get_checkpoint_prev_path (traindir : path) (i : nat) : path :=
  join traindir ("checkpoint_prev" +:+ pretty i +:+ ".ckpt").

Definition NUM_SHORTTERM_CHECKPOINTS_TO_KEEP : nat := 4.

(** [for x in l: body(x)] *)
Fixpoint for_each {A} (l : list A) (body : A -> io unit) : io unit :=
  match l with
  | [] => mret tt
  | x :: rest => body x ;; for_each rest body
  end.

(** The body of the rotation loop. *)
Definition rotate_prev (traindir : path) (i : nat) : io unit :=
  found ← exists_ (get_checkpoint_prev_path traindir i);
  if found : bool
  then rename (get_checkpoint_prev_path traindir i)
              (get_checkpoint_prev_path traindir (i + 1))
  else mret tt.

(** [save(..., path=target)] (lines 191-214); [state_dict] is what
    [torch.save] writes. *)
Definition save (rank : Z) (traindir : path) (state_dict : data)
    (target : option path) : io unit :=
  if (rank =? 0)%Z then
    match target with
    | Some p =>
        write_file (with_suffix p ".tmp") state_dict ;;
        rename (with_suffix p ".tmp") p
    | None =>
        for_each (rev (seq 0 (NUM_SHORTTERM_CHECKPOINTS_TO_KEEP - 1)))
                 (rotate_prev traindir) ;;
        copy (get_checkpoint_path traindir) (get_checkpoint_prev_path traindir 0) ;;
        write_file (with_suffix (get_checkpoint_path traindir) ".tmp") state_dict ;;
        rename (with_suffix (get_checkpoint_path traindir) ".tmp")
               (get_checkpoint_path traindir)
    end
  else mret tt.

(** The file part of [save_history] (lines 402-410). *)
Definition save_history (rank : Z) (traindir : path) (trainhistory : data)
    : io unit :=
  if (rank =? 0)%Z then
    write_file (join traindir "trainhistory.json.tmp") trainhistory ;;
    rename (join traindir "trainhistory.json.tmp")
           (join traindir "trainhistory.json")
  else mret tt.

(** The two calls that end every epoch (lines 667-668). *)
Definition end_of_epoch_save (rank : Z) (traindir : path)
    (trainhistory state_dict : data) : io unit :=
  save_history rank traindir trainhistory ;;
  save rank traindir state_dict None.

(** A training directory without a checkpoint and without rotated ones. *)
Definition fresh_training_dir (traindir : path) (m : gmap path node) : Prop :=
  m !! get_checkpoint_path traindir = None
  /\ forall i, (i < NUM_SHORTTERM_CHECKPOINTS_TO_KEEP)%nat ->
       m !! get_checkpoint_prev_path traindir i = None.

(** The key loop of [load] (lines 297-298):
    [while key.startswith("module."): key = key[:7]], with [fuel] bounding
    the number of tests of the loop condition; [None] means the loop is
    still running when the fuel is spent. *)
Fixpoint strip_module_prefix (fuel : nat) (key : string) : option string :=
  match fuel with
  | O => None
  | S fuel =>
      if String.prefix "module." key
      then strip_module_prefix fuel (String.substring 0 7 key)
      else Some key
  end.

(** One iteration of that loop as a step relation, and its exit test. *)
Inductive strip_step : string -> string -> Prop :=
| strip_iter key :
    String.prefix "module." key = true ->
    strip_step key (String.substring 0 7 key).

Definition strip_exit (key : string) : Prop :=
  String.prefix "module." key = false.

(** [for key in state_dict["model"]: ...; model_state_dict[key] = ...]
    (lines 294-299) over the entries of the saved (ordered) state dict. *)
Fixpoint build_model_state_dict {T} (fuel : nat) (entries : list (string * T))
    (model_state_dict : gmap string T) : option (gmap string T) :=
  match entries with
  | [] => Some model_state_dict
  | (old_key, tensor) :: rest =>
      key ← strip_module_prefix fuel old_key;
      build_model_state_dict fuel rest (<[key := tensor]> model_state_dict)
  end.

Definition example_traindir : path := ["train"; "b6c96"].

(** A new run: the directories made by [make_dirs] and the model config. *)
Definition example_fresh_fs : gmap path node :=
  {[ ["train"] := Dir;
     ["train"; "b6c96"] := Dir;
     ["train"; "b6c96"; "longterm_checkpoints"] := Dir;
     ["train"; "b6c96"; "model.config.json"] := File (Blob "model_config") ]}.

(** ** The key loop *)

Lemma module_prefix_slice (key : string) :
  String.prefix "module." key = true -> String.substring 0 7 key = "module.".
Proof. intros H. apply String.prefix_correct in H. exact H. Qed.

Lemma strip_module_prefix_stuck (fuel : nat) :
  strip_module_prefix fuel "module." = None.
Proof. induction fuel as [|fuel IH]; [reflexivity|]. simpl. exact IH. Qed.

Lemma strip_module_prefix_diverges (fuel : nat) (key : string) :
  String.prefix "module." key = true -> strip_module_prefix fuel key = None.
Proof.
  intros H. destruct fuel as [|fuel]; [reflexivity|].
  cbn [strip_module_prefix]. rewrite H, (module_prefix_slice key H).
  apply strip_module_prefix_stuck.
Qed.

Lemma strip_module_prefix_plain (fuel : nat) (key : string) :
  String.prefix "module." key = false ->
  strip_module_prefix (S fuel) key = Some key.
Proof. intros H. cbn [strip_module_prefix]. rewrite H. reflexivity. Qed.

Lemma strip_step_keeps_prefix (key key' : string) :
  String.prefix "module." key = true ->
  rtc strip_step key key' -> String.prefix "module." key' = true.
Proof.
  intros H Hsteps. induction Hsteps as [|k1 k2 k3 Hstep _ IH]; [exact H|].
  apply IH. destruct Hstep as [k Hk].
  rewrite (module_prefix_slice k Hk). reflexivity.
Qed.

(** C2 on the code.  For a checkpoint one of whose parameter names starts
    with ["module."], the key loop of [load] never ends: the slice [key[:7]]
    keeps the prefix instead of dropping it, so every state the loop reaches
    still starts with ["module."] and the exit test never holds; whatever
    the fuel, no model state dict is produced. *)
Theorem load_loops_on_module_prefix {T} (entries : list (string * T))
    (old_key : string) (tensor : T) :
  (old_key, tensor) ∈ entries ->
  String.prefix "module." old_key = true ->
  (forall fuel, build_model_state_dict fuel entries ∅ = None)
  /\ (forall key', rtc strip_step old_key key' -> ~ strip_exit key')
  /\ String.substring 0 7 "module.conv1.weight" = "module.".
Proof.
  intros Hin Hpre. split; [|split; [|reflexivity]].
  - intros fuel. generalize (∅ : gmap string T).
    induction entries as [|[k t] rest IH]; intros acc.
    + apply elem_of_nil in Hin. contradiction.
    + cbn [build_model_state_dict].
      apply elem_of_cons in Hin as [[= <- <-]|Hin].
      * rewrite (strip_module_prefix_diverges fuel _ Hpre). reflexivity.
      * destruct (strip_module_prefix fuel k); [|reflexivity].
        simpl. apply IH. exact Hin.
  - intros key' Hsteps Hexit. unfold strip_exit in Hexit.
    rewrite (strip_step_keeps_prefix old_key key' Hpre Hsteps) in Hexit.
    discriminate.
Qed.

Lemma load_loops_on_module_prefix_witness :
  build_model_state_dict 1000
    [("conv0.weight", 1%Z); ("module.conv1.weight", 2%Z)] ∅ = None.
Proof.
  apply (proj1 (load_loops_on_module_prefix
                  [("conv0.weight", 1%Z); ("module.conv1.weight", 2%Z)]
                  "module.conv1.weight" 2%Z
                  (list_elem_of_further _ _ _ (list_elem_of_here _ _))
                  eq_refl)).
Defined.

(** A checkpoint without such a name loads with its names unchanged. *)
Lemma build_model_state_dict_plain {T} (fuel : nat)
    (entries : list (string * T)) (acc : gmap string T) :
  Forall (fun e => String.prefix "module." e.1 = false) entries ->
  build_model_state_dict (S fuel) entries acc =
    Some (foldl (fun m e => <[e.1 := e.2]> m) acc entries).
Proof.
  intros H. revert acc.
  induction H as [|[k t] rest Hk _ IH]; intros acc; [reflexivity|].
  cbn [build_model_state_dict]. simpl in Hk.
  rewrite (strip_module_prefix_plain fuel k Hk). simpl. apply IH.
Qed.

(** ** The default save on a fresh directory *)

Lemma rotate_prev_absent (traindir : path) (i : nat) (m : gmap path node) :
  m !! get_checkpoint_prev_path traindir i = None ->
  rotate_prev traindir i m = (Py.Ok tt, m).
Proof.
  intros H. unfold rotate_prev, mbind, io_bind_inst, io_bind.
  rewrite exists_none; [reflexivity|].
  unfold get_checkpoint_prev_path in *. rewrite lookup_node_join. exact H.
Qed.

Lemma save_default_on_fresh (traindir : path) (state_dict : data)
    (m : gmap path node) :
  fresh_training_dir traindir m ->
  save 0 traindir state_dict None m =
    (Py.Raise (Py.FileNotFoundError (show (get_checkpoint_path traindir))), m).
Proof.
  intros [Hckpt Hprev]. unfold save. simpl.
  unfold mbind, io_bind_inst, io_bind.
  rewrite !rotate_prev_absent
    by (apply Hprev; unfold NUM_SHORTTERM_CHECKPOINTS_TO_KEEP; lia).
  simpl. unfold copy, get_checkpoint_path in *.
  rewrite lookup_node_join, Hckpt. reflexivity.
Qed.

(** Writing or removing other files of the training directory leaves it
    fresh. *)
Lemma fresh_insert_other (traindir : path) (name : string) (n : node)
    (m : gmap path node) :
  name <> "checkpoint.ckpt" ->
  (forall i : nat, name <> "checkpoint_prev" +:+ pretty i +:+ ".ckpt") ->
  fresh_training_dir traindir m ->
  fresh_training_dir traindir (<[join traindir name := n]> m).
Proof.
  intros H1 H2 [Hckpt Hprev]. split.
  - rewrite lookup_insert_ne; [exact Hckpt|].
    intros H%join_inj. contradiction.
  - intros i Hi. rewrite lookup_insert_ne; [apply Hprev, Hi|].
    intros H%join_inj. apply (H2 i). exact H.
Qed.

Lemma fresh_delete (traindir : path) (p : path) (m : gmap path node) :
  fresh_training_dir traindir m ->
  fresh_training_dir traindir (delete p m).
Proof.
  intros [Hckpt Hprev]. split.
  - apply lookup_delete_None. right. exact Hckpt.
  - intros i Hi. apply lookup_delete_None. right. apply Hprev, Hi.
Qed.

Lemma save_history_keeps_fresh (rank : Z) (traindir : path)
    (trainhistory : data) (m : gmap path node) :
  fresh_training_dir traindir m ->
  fresh_training_dir traindir (save_history rank traindir trainhistory m).2.
Proof.
  intros Hfresh. unfold save_history.
  destruct (rank =? 0)%Z; [|exact Hfresh].
  unfold mbind, io_bind_inst, io_bind, write_file.
  destruct (check_parent _ m); [|exact Hfresh].
  rewrite lookup_node_join.
  destruct (m !! join traindir "trainhistory.json.tmp") as [[|d]|] eqn:E;
    [exact Hfresh| |].
  all: unfold rename; rewrite lookup_node_join, lookup_insert_eq.
  all: assert (fresh_training_dir traindir
                 (<[join traindir "trainhistory.json.tmp" := File trainhistory]> m))
         as Hfresh1
         by (apply fresh_insert_other;
             [discriminate | intros i H; cbv in H; discriminate | exact Hfresh]).
  all: destruct (check_parent _ _); [|exact Hfresh1].
  all: rewrite lookup_node_join.
  all: destruct (_ !! join traindir "trainhistory.json") as [[|d']|];
         [exact Hfresh1| |].
  all: simpl; apply fresh_insert_other;
         [discriminate | intros i H; cbv in H; discriminate
         | apply fresh_delete; exact Hfresh1].
Qed.

Lemma example_fresh_fs_is_fresh :
  fresh_training_dir example_traindir example_fresh_fs.
Proof.
  split; [reflexivity|].
  intros i Hi. unfold NUM_SHORTTERM_CHECKPOINTS_TO_KEEP in Hi.
  destruct i as [|[|[|[|i]]]]; [reflexivity..|lia].
Qed.

(** C5.  On the leader, in a training directory that has neither
    [checkpoint.ckpt] nor a rotated [checkpoint_prev{i}.ckpt], the default
    save raises [FileNotFoundError] at the copy of the current checkpoint
    into [checkpoint_prev0.ckpt] and writes nothing; so do the two calls
    that end the epoch ([save_history] then [save]), whatever the rest of
    the directory holds, and the directory is as fresh afterwards as it was:
    no rotating checkpoint is ever committed. *)
Theorem first_default_save_raises (rank : Z) (traindir : path)
    (trainhistory state_dict : data) (m : gmap path node) :
  rank = 0%Z ->
  fresh_training_dir traindir m ->
  save rank traindir state_dict None m =
    (Py.Raise (Py.FileNotFoundError (show (get_checkpoint_path traindir))), m)
  /\ Py.is_ok (end_of_epoch_save rank traindir trainhistory state_dict m).1
       = false
  /\ fresh_training_dir traindir
       (end_of_epoch_save rank traindir trainhistory state_dict m).2.
Proof.
  intros -> Hfresh. split; [apply save_default_on_fresh, Hfresh|].
  unfold end_of_epoch_save, mbind, io_bind_inst, io_bind.
  pose proof (save_history_keeps_fresh 0 traindir trainhistory m Hfresh) as H.
  destruct (save_history 0 traindir trainhistory m) as [[[]|e] m1]; simpl in H.
  - rewrite (save_default_on_fresh traindir state_dict m1 H).
    split; [reflexivity|exact H].
  - split; [reflexivity|exact H].
Qed.

Lemma first_default_save_raises_witness :
  save 0 example_traindir (Blob "state_dict") None example_fresh_fs =
    (Py.Raise (Py.FileNotFoundError "train/b6c96/checkpoint.ckpt"),
     example_fresh_fs)
  /\ Py.is_ok (end_of_epoch_save 0 example_traindir (Blob "trainhistory")
                 (Blob "state_dict") example_fresh_fs).1 = false.
Proof.
  destruct (first_default_save_raises 0 example_traindir (Blob "trainhistory")
              (Blob "state_dict") example_fresh_fs eq_refl
              example_fresh_fs_is_fresh) as (H1 & H2 & _).
  split; [exact H1|exact H2].
Defined.

End Checkpoint.

(* ===================================================================== *)
(** * The export step *)
(* ===================================================================== *)

Module ExportStep.

Import Fs.

(** ["%s-s%d-d%d" % (exportprefix, global_step_samples, last_datainfo_row)] *)
Definition modelname (exportprefix : string) (ts : train_state)
    (last_datainfo_row : Z) : string :=
  exportprefix +:+ "-s" +:+ pretty (global_step_samples ts)
               +:+ "-d" +:+ pretty last_datainfo_row.

(** The export branch at the end of an epoch (lines 691-715; entered on
    rank 0 only, when the export cycle decides to export).  The three [data] arguments are
    what [torch.save] and the [json.dump] calls write; the [time.sleep(2)]
    before the rename is left out. *)
Definition export_model (exportdir : path) (exportprefix : string)
    (ts : train_state) (last_datainfo_row : Z)
    (state_dict trainhistory model_config : data) : io unit :=
  let modelname := modelname exportprefix ts last_datainfo_row in
  let savepath := join exportdir modelname in
  let savepathtmp := join exportdir (modelname +:+ ".tmp") in
  found ← exists_ savepath;
  if found : bool then mret tt
  else
    mkdir savepathtmp ;;
    Checkpoint.save 0 [] state_dict (Some (join savepathtmp "model.ckpt")) ;;
    write_file (join savepathtmp "trainhistory.json") trainhistory ;;
    write_file (join savepathtmp "model.config.json") model_config ;;
    write_file (join (join savepathtmp "saved_model") "model.config.json")
               model_config ;;
    write_file (join (join savepathtmp "non_swa_saved_model") "model.config.json")
               model_config ;;
    rename savepathtmp savepath.

(** The file system a failing run of the export leaves: everything up to
    the write into the missing [saved_model] directory has happened, under
    the temporary name. *)
Definition after_failed_export (savepathtmp : path)
    (state_dict trainhistory model_config : data) (m : gmap path node)
    : gmap path node :=
  <[join savepathtmp "model.config.json" := File model_config]>
    (<[join savepathtmp "trainhistory.json" := File trainhistory]>
       (<[join savepathtmp "model.ckpt" := File state_dict]>
          (delete (join savepathtmp "model.ckpt.tmp")
             (<[join savepathtmp "model.ckpt.tmp" := File state_dict]>
                (<[savepathtmp := Dir]> m))))).

Definition example_exportdir : path := ["models"].

Definition example_state : train_state := mk_train_state 25600 None None 25600 0.

Definition example_fs : gmap path node := {[ ["models"] := Dir ]}.

Lemma export_model_first_run (exportdir : path) (exportprefix : string)
    (ts : train_state) (row : Z) (sd th cfg : data) (m : gmap path node) :
  let name := modelname exportprefix ts row in
  let savepath := join exportdir name in
  let savepathtmp := join exportdir (name +:+ ".tmp") in
  wf m ->
  m !! savepath = None ->
  m !! savepathtmp = None ->
  lookup_node exportdir m = Some Dir ->
  export_model exportdir exportprefix ts row sd th cfg m =
    (Py.Raise (Py.FileNotFoundError
                 (show (join (join savepathtmp "saved_model") "model.config.json"))),
     after_failed_export savepathtmp sd th cfg m).
Proof.
  intros name savepath savepathtmp Hwf Hsave Htmp Hdir.
  assert (forall x, m !! join savepathtmp x = None) as Hchild.
  { intros x. apply wf_child_absent; [exact Hwf|].
    unfold savepathtmp. rewrite lookup_node_join. exact Htmp. }
  unfold export_model. fold name. fold savepath. fold savepathtmp.
  unfold Checkpoint.save. simpl Z.eqb. cbv iota.
  rewrite with_suffix_join.
  change ("model.ckpt" +:+ ".tmp") with "model.ckpt.tmp".
  unfold after_failed_export.
  unfold mbind, io_bind_inst, io_bind.
  assert (forall m' : gmap path node,
             lookup_node savepathtmp m' = m' !! savepathtmp) as Hroot
    by (intros m'; apply lookup_node_join).
  rewrite exists_none
    by (unfold savepath; rewrite lookup_node_join; exact Hsave).
  rewrite mkdir_ok;
    [|rewrite Hroot; exact Htmp
     |unfold savepathtmp; rewrite parent_join; exact Hdir].
  clearbody savepathtmp.
  rewrite write_file_ok;
    [|fs_lookup; rewrite Hroot; fs_lookup; reflexivity
     |fs_lookup; rewrite Hchild; discriminate].
  rewrite (rename_file_ok _ _ sd);
    [|fs_lookup; reflexivity
     |fs_lookup; rewrite Hroot; fs_lookup; reflexivity
     |fs_lookup; rewrite Hchild; discriminate].
  rewrite write_file_ok;
    [|fs_lookup; rewrite Hroot; fs_lookup; reflexivity
     |fs_lookup; rewrite Hchild; discriminate].
  rewrite write_file_ok;
    [|fs_lookup; rewrite Hroot; fs_lookup; reflexivity
     |fs_lookup; rewrite Hchild; discriminate].
  rewrite write_file_no_parent; [reflexivity|].
  fs_lookup. apply Hchild.
Qed.

Lemma export_model_second_run (exportdir : path) (exportprefix : string)
    (ts : train_state) (row : Z) (sd th cfg : data) (m : gmap path node) :
  let name := modelname exportprefix ts row in
  let savepath := join exportdir name in
  let savepathtmp := join exportdir (name +:+ ".tmp") in
  m !! savepath = None ->
  let m1 := after_failed_export savepathtmp sd th cfg m in
  m1 !! savepath = None
  /\ export_model exportdir exportprefix ts row sd th cfg m1 =
       (Py.Raise (Py.FileExistsError (show savepathtmp)), m1).
Proof.
  intros name savepath savepathtmp Hsave m1.
  assert (savepathtmp <> savepath) as Hne.
  { intros H%join_inj. revert H. apply tmp_name_neq. }
  assert (m1 !! savepath = None) as Hsave1.
  { unfold m1, after_failed_export, savepath, savepathtmp in *.
    fs_lookup. exact Hsave. }
  split; [exact Hsave1|].
  unfold export_model. fold name. fold savepath. fold savepathtmp.
  unfold mbind, io_bind_inst, io_bind.
  rewrite exists_none
    by (unfold savepath; rewrite lookup_node_join; exact Hsave1).
  rewrite (mkdir_present _ Dir); [reflexivity|].
  unfold m1, after_failed_export, savepathtmp. fs_lookup. reflexivity.
Qed.

(** The export fails at [os.mkdir] when the temporary name is taken or the
    export directory is missing. *)
Lemma export_model_mkdir_fails (exportdir : path) (exportprefix : string)
    (ts : train_state) (row : Z) (sd th cfg : data) (m : gmap path node) :
  let name := modelname exportprefix ts row in
  m !! join exportdir name = None ->
  is_Some (m !! join exportdir (name +:+ ".tmp"))
    \/ lookup_node exportdir m <> Some Dir ->
  exists e, export_model exportdir exportprefix ts row sd th cfg m =
              (Py.Raise e, m).
Proof.
  intros name Hsave Hcase.
  unfold export_model. fold name.
  unfold mbind, io_bind_inst, io_bind.
  rewrite exists_none by (rewrite lookup_node_join; exact Hsave).
  unfold mkdir, check_parent. rewrite lookup_node_join, parent_join.
  destruct (m !! join exportdir (name +:+ ".tmp")) as [n|] eqn:Htmp;
    [eexists; reflexivity|].
  destruct Hcase as [[n Hn]|Hdir]; [discriminate|].
  destruct (lookup_node exportdir m) as [[|d]|];
    [contradiction|eexists; reflexivity..].
Qed.

(** When the export name is already taken the step does nothing. *)
Lemma export_model_existing (exportdir : path) (exportprefix : string)
    (ts : train_state) (row : Z) (sd th cfg : data) (m : gmap path node)
    (n : node) :
  m !! join exportdir (modelname exportprefix ts row) = Some n ->
  export_model exportdir exportprefix ts row sd th cfg m = (Py.Ok tt, m).
Proof.
  intros H. unfold export_model, mbind, io_bind_inst, io_bind.
  rewrite (exists_some _ n) by (rewrite lookup_node_join; exact H).
  reflexivity.
Qed.

Lemma example_fs_wf : wf example_fs.
Proof.
  intros p n H. unfold example_fs in H.
  apply lookup_singleton_Some in H as [<- <-].
  split; [discriminate|reflexivity].
Qed.

(** C4 on the code.  In a well-formed file system where the export name is
    not taken, the export step never completes: it raises, and the export
    name is still not taken afterwards.  When the temporary name is free and
    the export directory exists, the first run writes the checkpoint, the
    history and the config into the temporary directory and then raises
    [FileNotFoundError] at the write into its [saved_model] subdirectory,
    which nothing creates; the rename is never reached.  A second run with
    the same inputs raises [FileExistsError] at [os.mkdir] of the temporary
    directory the first run left behind. *)
Theorem export_never_completes (exportdir : path) (exportprefix : string)
    (ts : train_state) (row : Z) (sd th cfg : data) (m : gmap path node) :
  let name := modelname exportprefix ts row in
  let savepath := join exportdir name in
  let savepathtmp := join exportdir (name +:+ ".tmp") in
  wf m ->
  m !! savepath = None ->
  let r1 := export_model exportdir exportprefix ts row sd th cfg m in
  Py.is_ok r1.1 = false
  /\ r1.2 !! savepath = None
  /\ (m !! savepathtmp = None -> lookup_node exportdir m = Some Dir ->
      r1 = (Py.Raise (Py.FileNotFoundError
                        (show (join (join savepathtmp "saved_model")
                                    "model.config.json"))),
            after_failed_export savepathtmp sd th cfg m)
      /\ export_model exportdir exportprefix ts row sd th cfg r1.2 =
           (Py.Raise (Py.FileExistsError (show savepathtmp)), r1.2)).
Proof.
  intros name savepath savepathtmp Hwf Hsave r1.
  pose proof (export_model_first_run exportdir exportprefix ts row sd th cfg m
                Hwf Hsave) as Hfirst.
  pose proof (export_model_second_run exportdir exportprefix ts row sd th cfg m
                Hsave) as [Hsave1 Hsecond].
  fold name savepath savepathtmp in Hfirst, Hsave1, Hsecond.
  assert (Py.is_ok r1.1 = false /\ r1.2 !! savepath = None) as [Hraise Hstill].
  { destruct (m !! savepathtmp) as [n|] eqn:Htmp.
    - destruct (export_model_mkdir_fails exportdir exportprefix ts row
                  sd th cfg m Hsave) as [e He].
      { left. fold name. fold savepathtmp. rewrite Htmp. eauto. }
      unfold r1. rewrite He. split; [reflexivity|exact Hsave].
    - destruct (lookup_node exportdir m) as [[|d]|] eqn:Hdir.
      + unfold r1. rewrite (Hfirst eq_refl eq_refl).
        split; [reflexivity|exact Hsave1].
      + destruct (export_model_mkdir_fails exportdir exportprefix ts row
                    sd th cfg m Hsave) as [e He].
        { right. rewrite Hdir. discriminate. }
        unfold r1. rewrite He. split; [reflexivity|exact Hsave].
      + destruct (export_model_mkdir_fails exportdir exportprefix ts row
                    sd th cfg m Hsave) as [e He].
        { right. rewrite Hdir. discriminate. }
        unfold r1. rewrite He. split; [reflexivity|exact Hsave]. }
  split; [exact Hraise|]. split; [exact Hstill|].
  intros Htmp Hdir. unfold r1. rewrite (Hfirst Htmp Hdir).
  split; [reflexivity|exact Hsecond].
Qed.

Lemma export_never_completes_witness :
  export_model example_exportdir "b6c96" example_state 5000
      (Blob "state_dict") (Blob "trainhistory") (Blob "model_config") example_fs
    = (Py.Raise (Py.FileNotFoundError
         "models/b6c96-s25600-d5000.tmp/saved_model/model.config.json"),
       after_failed_export ["models"; "b6c96-s25600-d5000.tmp"]
         (Blob "state_dict") (Blob "trainhistory") (Blob "model_config")
         example_fs).
Proof.
  destruct (export_never_completes example_exportdir "b6c96" example_state 5000
              (Blob "state_dict") (Blob "trainhistory") (Blob "model_config")
              example_fs example_fs_wf eq_refl) as (_ & _ & H).
  destruct (H eq_refl eq_refl) as [H1 _]. exact H1.
Defined.

End ExportStep.

(* ===================================================================== *)
(** * Metrics: [accumulate_metrics], [log_metrics], the metrics stream *)
(* ===================================================================== *)

Module Metrics.

Import Fs.

Local Open Scope Q_scope.

(** The value [d[k]] of a [defaultdict(float)]. *)
Definition dd_get (d : gmap string Q) (k : string) : Q := default 0 (d !! k).

(** The body of the decay loop, for one [metric] of [metric_sums]. *)
Definition decay_one (decay : Q) (metric : string)
    (sw : gmap string Q * gmap string Q) : gmap string Q * gmap string Q :=
  if Py.endswith metric "_sum" then
    (<[metric := dd_get sw.1 metric * decay]> sw.1,
     <[metric := dd_get sw.2 metric * decay]> sw.2)
  else sw.

(** The body of the second loop, for one [metric] of the batch. *)
Definition add_one (batch_size : Z) (metric : string) (value : Q)
    (sw : gmap string Q * gmap string Q) : gmap string Q * gmap string Q :=
  if negb (Py.endswith metric "_batch") then
    (<[metric := dd_get sw.1 metric + value]> sw.1,
     <[metric := dd_get sw.2 metric + inject_Z batch_size]> sw.2)
  else
    (<[metric := dd_get sw.1 metric + value]> sw.1,
     <[metric := dd_get sw.2 metric + 1]> sw.2).

(** [accumulate_metrics] (lines 508-521): returns the updated
    [metric_sums] and [metric_weights]. *)
Definition accumulate_metrics (metric_sums metric_weights metrics : gmap string Q)
    (batch_size : Z) (decay : Q) : gmap string Q * gmap string Q :=
  let sw :=
    if Py.ne decay 1
    then map_fold (fun metric _ sw => decay_one decay metric sw)
                  (metric_sums, metric_weights) metric_sums
    else (metric_sums, metric_weights) in
  map_fold (add_one batch_size) sw metrics.

(** The state of the first loop of [log_metrics]: the two dicts, which the
    loop resets for batch metrics, and [metrics_to_print]. *)
Record flush_acc := mk_flush_acc {
  acc_sums : gmap string Q;
  acc_weights : gmap string Q;
  acc_print : gmap string Q
}.

(** The body of that loop, for one [metric] of [metric_sums]. *)
Definition print_one (metric : string) (acc : flush_acc) : Py.result flush_acc :=
  if Py.endswith metric "_sum" then
    mean ← Py.div (dd_get (acc_sums acc) metric) (dd_get (acc_weights acc) metric);
    Py.Ok (mk_flush_acc (acc_sums acc) (acc_weights acc)
             (<[Py.drop_last 4 metric := mean]> (acc_print acc)))
  else if Py.endswith metric "_batch" then
    mean ← Py.div (dd_get (acc_sums acc) metric) (dd_get (acc_weights acc) metric);
    Py.Ok (mk_flush_acc (<[metric := 0]> (acc_sums acc))
             (<[metric := 0]> (acc_weights acc))
             (<[metric := mean]> (acc_print acc)))
  else
    Py.Ok (mk_flush_acc (acc_sums acc) (acc_weights acc)
             (<[metric := dd_get (acc_sums acc) metric]> (acc_print acc))).

(** The body of the second loop, for one [metric] of the last batch. *)
Definition print_raw (metric_sums : gmap string Q) (metric : string) (value : Q)
    (out : gmap string Q) : gmap string Q :=
  match metric_sums !! metric with
  | None => <[metric := value]> out
  | Some _ => out
  end.

(** The two loops of [log_metrics] (lines 524-536): the record to print and
    the dicts after the resets. *)
Definition metrics_to_print (metric_sums metric_weights metrics : gmap string Q)
    : Py.result flush_acc :=
  acc ← map_fold (fun metric _ r => acc ← r; print_one metric acc)
                 (Py.Ok (mk_flush_acc metric_sums metric_weights ∅))
                 metric_sums;
  Py.Ok (mk_flush_acc (acc_sums acc) (acc_weights acc)
           (map_fold (print_raw (acc_sums acc)) (acc_print acc) metrics)).

(** The metrics stream: a text file opened for writing.  The records
    written so far sit in [pending] until [flush()] puts them into the file
    at the handle's [offset] (counted in records). *)
Record out_stream := mk_out_stream {
  stream_path : path;
  offset : nat;
  pending : list (gmap string Q)
}.

(** [open(p, "w+")]: the file is created, or emptied when it exists. *)
Definition open_wplus (p : path) : io out_stream :=
  fun m =>
    match check_parent p m with
    | Py.Raise e => (Py.Raise e, m)
    | Py.Ok _ =>
        match lookup_node p m with
        | Some Dir => (Py.Raise (Py.IsADirectoryError (show p)), m)
        | _ => (Py.Ok (mk_out_stream p 0 []), <[p := File (Lines [])]> m)
        end
    end.

(** [metrics_out.write(json.dumps(record) + "\n")] *)
Definition stream_write (record : gmap string Q) (h : out_stream) : out_stream :=
  mk_out_stream (stream_path h) (offset h) (pending h ++ [record]).

(** [metrics_out.flush()]: the pending records go into the file at the
    offset.  When the path no longer names the file the handle wrote, the
    records go to a file no path names. *)
Definition stream_flush (h : out_stream) : io out_stream :=
  fun m =>
    let h' := mk_out_stream (stream_path h)
                (offset h + length (pending h)) [] in
    match m !! stream_path h with
    | Some (File (Lines old)) =>
        (Py.Ok h',
         <[stream_path h :=
             File (Lines (take (offset h) old ++ pending h
                          ++ drop (offset h + length (pending h)) old))]> m)
    | _ => (Py.Ok h', m)
    end.

(** [log_metrics] (lines 523-541): the record, then the write and the flush
    when a stream is given. *)
Definition log_metrics (metric_sums metric_weights metrics : gmap string Q)
    (metrics_out : option out_stream) : io (flush_acc * option out_stream) :=
  fun m =>
    match metrics_to_print metric_sums metric_weights metrics with
    | Py.Raise e => (Py.Raise e, m)
    | Py.Ok acc =>
        match metrics_out with
        | None => (Py.Ok (acc, None), m)
        | Some h =>
            match stream_flush (stream_write (acc_print acc) h) m with
            | (Py.Ok h', m') => (Py.Ok (acc, Some h'), m')
            | (Py.Raise e, m') => (Py.Raise e, m')
            end
        end
    end.

(** [train_metrics_out = open(os.path.join(traindir, "metrics_train.json"), "w+")]
    (line 543) *)
Definition open_train_metrics (traindir : path) : io out_stream :=
  open_wplus (join traindir "metrics_train.json").

(** The handle and the file agree: the file holds [records], the handle
    stands at their end and has nothing buffered. *)
Definition stream_synced (h : out_stream) (records : list (gmap string Q))
    (m : gmap path node) : Prop :=
  m !! stream_path h = Some (File (Lines records))
  /\ offset h = length records
  /\ pending h = [].

(** No division by zero in the flush: every mean that is computed has a
    non-zero weight. *)
Definition weights_nonzero (keys weights : gmap string Q) : Prop :=
  forall k, is_Some (keys !! k) ->
    Py.endswith k "_sum" || Py.endswith k "_batch" = true ->
    ~ dd_get weights k == 0.

(** One process instance: the stream is opened, then one flush. *)
Definition example_instance (sums weights : gmap string Q)
    : io (flush_acc * option out_stream) :=
  h ← open_train_metrics ["train"];
  log_metrics sums weights ∅ (Some h).

Definition example_metrics_file : path := ["train"; "metrics_train.json"].

Definition example_dir : gmap path node := {[ ["train"] := Dir ]}.

Definition example_opened : gmap path node :=
  <[example_metrics_file := File (Lines [])]> example_dir.

Definition example_stream : out_stream := mk_out_stream example_metrics_file 0 [].

(** The example of the claim: [{"loss_sum": 10}] accumulated twice with
    batch size 1 and decay 0.5, from an empty state. *)
Definition example_batch : gmap string Q := {["loss_sum" := 10]}.

Definition example_twice : gmap string Q * gmap string Q :=
  let once := accumulate_metrics ∅ ∅ example_batch 1 0.5 in
  accumulate_metrics once.1 once.2 example_batch 1 0.5.

(** ** What the two loops of [accumulate_metrics] do to one key *)

Lemma decay_fold_lookup (decay : Q) (keys : gmap string Q)
    (init : gmap string Q * gmap string Q) (k : string) :
  let r := map_fold (fun metric _ sw => decay_one decay metric sw) init keys in
  r.1 !! k = match keys !! k with
             | Some _ => if Py.endswith k "_sum"
                         then Some (dd_get init.1 k * decay) else init.1 !! k
             | None => init.1 !! k
             end
  /\ r.2 !! k = match keys !! k with
                | Some _ => if Py.endswith k "_sum"
                            then Some (dd_get init.2 k * decay) else init.2 !! k
                | None => init.2 !! k
                end.
Proof.
  simpl. revert k.
  apply (map_fold_weak_ind
           (fun r (m : gmap string Q) => forall k,
              r.1 !! k = match m !! k with
                         | Some _ => if Py.endswith k "_sum"
                                     then Some (dd_get init.1 k * decay)
                                     else init.1 !! k
                         | None => init.1 !! k
                         end
              /\ r.2 !! k = match m !! k with
                            | Some _ => if Py.endswith k "_sum"
                                        then Some (dd_get init.2 k * decay)
                                        else init.2 !! k
                            | None => init.2 !! k
                            end)).
  - intros k. rewrite lookup_empty. split; reflexivity.
  - intros i x m r Hi IH k.
    pose proof (IH i) as [IH1 IH2]. rewrite Hi in IH1, IH2.
    unfold decay_one. destruct (decide (k = i)) as [->|Hne].
    + rewrite lookup_insert_eq.
      destruct (Py.endswith i "_sum"); simpl.
      * rewrite !lookup_insert_eq. unfold dd_get. rewrite IH1, IH2.
        split; reflexivity.
      * split; assumption.
    + rewrite (lookup_insert_ne m) by congruence.
      destruct (Py.endswith i "_sum"); simpl.
      * rewrite !lookup_insert_ne by congruence. apply IH.
      * apply IH.
Qed.

Lemma add_fold_lookup (batch_size : Z) (metrics : gmap string Q)
    (init : gmap string Q * gmap string Q) (k : string) :
  let r := map_fold (add_one batch_size) init metrics in
  r.1 !! k = match metrics !! k with
             | Some v => Some (dd_get init.1 k + v)
             | None => init.1 !! k
             end
  /\ r.2 !! k = match metrics !! k with
                | Some _ => Some (dd_get init.2 k +
                                  (if Py.endswith k "_batch" then 1
                                   else inject_Z batch_size))
                | None => init.2 !! k
                end.
Proof.
  simpl. revert k.
  apply (map_fold_weak_ind
           (fun r (m : gmap string Q) => forall k,
              r.1 !! k = match m !! k with
                         | Some v => Some (dd_get init.1 k + v)
                         | None => init.1 !! k
                         end
              /\ r.2 !! k = match m !! k with
                            | Some _ => Some (dd_get init.2 k +
                                              (if Py.endswith k "_batch" then 1
                                               else inject_Z batch_size))
                            | None => init.2 !! k
                            end)).
  - intros k. rewrite lookup_empty. split; reflexivity.
  - intros i x m r Hi IH k.
    pose proof (IH i) as [IH1 IH2]. rewrite Hi in IH1, IH2.
    unfold add_one. destruct (decide (k = i)) as [->|Hne].
    + rewrite lookup_insert_eq.
      destruct (Py.endswith i "_batch"); simpl;
        rewrite !lookup_insert_eq; unfold dd_get; rewrite IH1, IH2;
        split; reflexivity.
    + rewrite (lookup_insert_ne m) by congruence.
      destruct (Py.endswith i "_batch"); simpl;
        rewrite !lookup_insert_ne by congruence; apply IH.
Qed.

(** C9, as the code has it.  In a call with [decay != 1], a sum/weight pair
    present in the state is multiplied by the decay before the batch's
    contribution is added exactly when its metric name ends in ["_sum"]; a
    pair under any other name (a ["_batch"] metric, say) is left undecayed.
    The contribution of the batch, when it has the metric, is then added:
    the value to the sum, and to the weight 1 for a ["_batch"] name and the
    batch size otherwise. *)
Theorem accumulate_decays_sum_metrics
    (metric_sums metric_weights metrics : gmap string Q)
    (batch_size : Z) (decay : Q) (k : string) (s w : Q) :
  ~ decay == 1 ->
  metric_sums !! k = Some s ->
  metric_weights !! k = Some w ->
  let r := accumulate_metrics metric_sums metric_weights metrics batch_size decay in
  let s_decayed := if Py.endswith k "_sum" then s * decay else s in
  let w_decayed := if Py.endswith k "_sum" then w * decay else w in
  r.1 !! k = Some (match metrics !! k with
                   | Some v => s_decayed + v
                   | None => s_decayed
                   end)
  /\ r.2 !! k = Some (match metrics !! k with
                      | Some _ => w_decayed +
                                  (if Py.endswith k "_batch" then 1
                                   else inject_Z batch_size)
                      | None => w_decayed
                      end).
Proof.
  intros Hdecay Hs Hw r s_decayed w_decayed.
  unfold r, accumulate_metrics. rewrite (Py.ne_true decay 1 Hdecay).
  pose proof (decay_fold_lookup decay metric_sums (metric_sums, metric_weights) k)
    as [D1 D2].
  simpl in D1, D2.
  rewrite Hs in D1, D2. unfold dd_get in D1, D2.
  rewrite Hs in D1. rewrite Hw in D2. simpl in D1, D2.
  set (decayed := map_fold (fun metric _ sw => decay_one decay metric sw)
                    (metric_sums, metric_weights) metric_sums) in *.
  pose proof (add_fold_lookup batch_size metrics decayed k) as [A1 A2].
  simpl in A1, A2. rewrite A1, A2. unfold dd_get. rewrite D1, D2.
  unfold s_decayed, w_decayed.
  destruct (metrics !! k), (Py.endswith k "_sum"); simpl; split; reflexivity.
Qed.

Lemma accumulate_decays_sum_metrics_witness :
  let r := accumulate_metrics {["loss_sum" := 10; "gnorm_batch" := 4]}
             {["loss_sum" := 1; "gnorm_batch" := 2]}
             {["loss_sum" := 6]} 8 0.5 in
  r.1 !! "loss_sum" = Some (10 * 0.5 + 6)
  /\ r.2 !! "loss_sum" = Some (1 * 0.5 + inject_Z 8).
Proof.
  assert (~ 0.5 == 1) as Hdecay by (vm_compute; discriminate).
  exact (accumulate_decays_sum_metrics
           {["loss_sum" := 10; "gnorm_batch" := 4]}
           {["loss_sum" := 1; "gnorm_batch" := 2]}
           {["loss_sum" := 6]} 8 0.5 "loss_sum" 10 1 Hdecay eq_refl eq_refl).
Defined.

(** C9 as stated fails for a pair whose name does not end in ["_sum"]: with
    decay 0.5 the pair of ["gnorm_batch"] (sum 4, weight 2) is still (4, 2)
    after the call, not (2, 1). *)
Lemma batch_metric_is_not_decayed :
  let r := accumulate_metrics {["gnorm_batch" := 4]} {["gnorm_batch" := 2]}
             ∅ 1 0.5 in
  ~ 0.5 == 1
  /\ r.1 !! "gnorm_batch" = Some 4 /\ ~ 4 == 4 * 0.5
  /\ r.2 !! "gnorm_batch" = Some 2 /\ ~ 2 == 2 * 0.5.
Proof.
  simpl. repeat split; try reflexivity; vm_compute; discriminate.
Qed.

(** ** The flush *)

Lemma print_fold_ok (keys : gmap string Q) (init : flush_acc) :
  weights_nonzero keys (acc_weights init) ->
  exists acc,
    map_fold (fun metric _ r => acc ← r; print_one metric acc) (Py.Ok init) keys
      = Py.Ok acc
    /\ forall k, keys !! k = None -> acc_weights acc !! k = acc_weights init !! k.
Proof.
  apply (map_fold_weak_ind
           (fun r (m : gmap string Q) =>
              weights_nonzero m (acc_weights init) ->
              exists acc, r = Py.Ok acc
                /\ forall k, m !! k = None ->
                     acc_weights acc !! k = acc_weights init !! k)).
  - intros _. exists init. split; [reflexivity|]. intros; reflexivity.
  - intros i x m r Hi IH Hnz.
    destruct IH as (acc & -> & Hsame).
    { intros k Hk. apply Hnz. destruct (decide (k = i)) as [->|Hne].
      - rewrite lookup_insert_eq. eauto.
      - rewrite lookup_insert_ne by congruence. exact Hk. }
    assert (Py.endswith i "_sum" || Py.endswith i "_batch" = true ->
            ~ dd_get (acc_weights acc) i == 0) as Hi_nz.
    { intros Hsuf. unfold dd_get. rewrite (Hsame i Hi).
      apply (Hnz i); [rewrite lookup_insert_eq; eauto|exact Hsuf]. }
    cbn [mbind result_bind Py.bind]. unfold print_one.
    destruct (Py.endswith i "_sum") eqn:Esum; simpl in Hi_nz.
    + rewrite (Py.div_nonzero _ _ (Hi_nz eq_refl)).
      eexists. split; [reflexivity|]. simpl. intros k Hk.
      apply Hsame. apply lookup_insert_None in Hk as [Hk _]. exact Hk.
    + destruct (Py.endswith i "_batch") eqn:Ebatch; simpl in Hi_nz.
      * rewrite (Py.div_nonzero _ _ (Hi_nz eq_refl)).
        eexists. split; [reflexivity|]. simpl. intros k Hk.
        apply lookup_insert_None in Hk as [Hk Hne].
        rewrite lookup_insert_ne by congruence. apply Hsame, Hk.
      * eexists. split; [reflexivity|]. simpl. intros k Hk.
        apply Hsame. apply lookup_insert_None in Hk as [Hk _]. exact Hk.
Qed.

Lemma metrics_to_print_ok (metric_sums metric_weights metrics : gmap string Q) :
  weights_nonzero metric_sums metric_weights ->
  exists acc, metrics_to_print metric_sums metric_weights metrics = Py.Ok acc.
Proof.
  intros Hnz. unfold metrics_to_print.
  destruct (print_fold_ok metric_sums
              (mk_flush_acc metric_sums metric_weights ∅) Hnz) as (acc & -> & _).
  eexists. reflexivity.
Qed.

Lemma open_wplus_truncates (p : path) (m m' : gmap path node) (h : out_stream) :
  open_wplus p m = (Py.Ok h, m') ->
  stream_path h = p /\ stream_synced h [] m'.
Proof.
  unfold open_wplus. destruct (check_parent p m); [|discriminate].
  destruct (lookup_node p m) as [[|d]|]; [discriminate| |];
    intros [= <- <-]; (split; [reflexivity|]);
    (split; [apply lookup_insert_eq|split; reflexivity]).
Qed.

Lemma flush_after_write (h : out_stream) (records : list (gmap string Q))
    (record : gmap string Q) (m : gmap path node) :
  stream_synced h records m ->
  exists h',
    stream_flush (stream_write record h) m =
      (Py.Ok h', <[stream_path h := File (Lines (records ++ [record]))]> m)
    /\ stream_path h' = stream_path h
    /\ stream_synced h' (records ++ [record])
         (<[stream_path h := File (Lines (records ++ [record]))]> m).
Proof.
  intros (Hfile & Hoff & Hpend).
  unfold stream_flush, stream_write. simpl. rewrite Hfile, Hpend, Hoff. simpl.
  rewrite firstn_all, drop_ge by (simpl; lia). rewrite ?app_nil_r. simpl.
  eexists. split; [reflexivity|]. split; [reflexivity|].
  split; [apply lookup_insert_eq|]. split; [|reflexivity].
  simpl. rewrite length_app. reflexivity.
Qed.

Lemma example_opened_synced : stream_synced example_stream [] example_opened.
Proof. split; [reflexivity|split; reflexivity]. Qed.

Lemma example_weights_nonzero :
  weights_nonzero {["loss_sum" := 20]} {["loss_sum" := 1]}.
Proof.
  intros k [v Hk] _. apply lookup_singleton_Some in Hk as [<- _].
  vm_compute. discriminate.
Qed.

(** C3, as the code has it.  Opening the stream with mode ["w+"] leaves the
    file empty, whatever it held; from then on, within the process instance,
    every flush whose means have non-zero weights completes, appends exactly
    one record behind the records of the earlier flushes, which all stay,
    and leaves nothing buffered. *)
Theorem metrics_stream_append_within_instance
    (metric_sums metric_weights metrics : gmap string Q)
    (h : out_stream) (records : list (gmap string Q)) (m : gmap path node) :
  stream_synced h records m ->
  weights_nonzero metric_sums metric_weights ->
  (exists acc h',
      metrics_to_print metric_sums metric_weights metrics = Py.Ok acc
      /\ log_metrics metric_sums metric_weights metrics (Some h) m =
           (Py.Ok (acc, Some h'),
            <[stream_path h := File (Lines (records ++ [acc_print acc]))]> m)
      /\ stream_path h' = stream_path h
      /\ stream_synced h' (records ++ [acc_print acc])
           (<[stream_path h := File (Lines (records ++ [acc_print acc]))]> m))
  /\ (forall p m0 m1 h0,
        open_wplus p m0 = (Py.Ok h0, m1) ->
        stream_path h0 = p /\ stream_synced h0 [] m1).
Proof.
  intros Hsync Hnz. split; [|apply open_wplus_truncates].
  destruct (metrics_to_print_ok metric_sums metric_weights metrics Hnz)
    as [acc Hacc].
  destruct (flush_after_write h records (acc_print acc) m Hsync)
    as (h' & Hflush & Hpath & Hsync').
  exists acc, h'. split; [exact Hacc|].
  split; [|split; assumption].
  unfold log_metrics. rewrite Hacc, Hflush. reflexivity.
Qed.

Lemma metrics_stream_append_within_instance_witness :
  exists acc h',
    log_metrics {["loss_sum" := 20]} {["loss_sum" := 1]} ∅
        (Some example_stream) example_opened
      = (Py.Ok (acc, Some h'),
         <[example_metrics_file := File (Lines ([] ++ [acc_print acc]))]>
           example_opened).
Proof.
  destruct (metrics_stream_append_within_instance
              {["loss_sum" := 20]} {["loss_sum" := 1]} ∅
              example_stream [] example_opened
              example_opened_synced example_weights_nonzero)
    as [(acc & h' & _ & H & _) _].
  exists acc, h'. exact H.
Defined.

(** C3 as stated fails across a restart: the first instance leaves one
    record in the stream, and the open of the next instance leaves none. *)
Lemma restart_discards_metrics :
  let first := example_instance {["loss_sum" := 20]} {["loss_sum" := 1]}
                 example_dir in
  Py.is_ok first.1 = true
  /\ first.2 !! example_metrics_file = Some (File (Lines [{["loss" := 20]}]))
  /\ (open_train_metrics ["train"] first.2).2 !! example_metrics_file
       = Some (File (Lines [])).
Proof.
  simpl. split; [reflexivity|]. split; [vm_compute; reflexivity|].
  vm_compute. reflexivity.
Qed.

(** C10.  From an empty state with decay 0.5, accumulating
    [{"loss_sum": 10}] with batch size 1 twice leaves the sum at
    10 * 0.5 + 10 = 15 and the weight at 0.5 + 1 = 1.5; the flush that
    follows reports the mean 15 / 1.5 = 10 for this metric, under the name
    ["loss"], and that is the record it appends to the stream. *)
Theorem decayed_mean_example :
  (exists s w,
      example_twice.1 !! "loss_sum" = Some s /\ s == 10 * 0.5 + 10 /\ s == 15
      /\ example_twice.2 !! "loss_sum" = Some w /\ w == 0.5 + 1 /\ w == 1.5)
  /\ (exists acc mean h',
      metrics_to_print example_twice.1 example_twice.2 example_batch = Py.Ok acc
      /\ acc_print acc = {["loss" := mean]} /\ mean == 15 / 1.5 /\ mean == 10
      /\ log_metrics example_twice.1 example_twice.2 example_batch
           (Some example_stream) example_opened
         = (Py.Ok (acc, Some h'),
            <[example_metrics_file := File (Lines [{["loss" := mean]}])]>
              example_opened)).
Proof.
  split.
  - eexists _, _. split; [vm_compute; reflexivity|].
    split; [reflexivity|]. split; [reflexivity|].
    split; [vm_compute; reflexivity|].
    split; reflexivity.
  - eexists _, _, _. split; [vm_compute; reflexivity|].
    split; [vm_compute; reflexivity|].
    split; [reflexivity|]. split; [reflexivity|].
    vm_compute. reflexivity.
Qed.

End Metrics.

(* ===================================================================== *)
(** * The file selection of a sub-epoch *)
(* ===================================================================== *)

Module FileSelect.

Local Open Scope Z_scope.

Record selection := mk_selection {
  train_files_to_use : list string;
  batches_to_use_so_far : Z
}.

(** How the body of [for filename in trainfilegenerator:] ends: the loop
    goes on with the next file, or is left. *)
Inductive flow :=
| Next
| Break.

(** [(batches_to_use_so_far + num_batches_this_file
      - num_batches_per_subepoch) / num_batches_this_file] *)
Definition proportion_over (num_batches_per_subepoch : Q)
    (num_batches_this_file : Z) (sel : selection) : Q :=
  ((inject_Z (batches_to_use_so_far sel + num_batches_this_file)
    - num_batches_per_subepoch) / inject_Z num_batches_this_file)%Q.

Definition include (filename : string) (num_batches_this_file : Z)
    (sel : selection) : selection :=
  mk_selection (train_files_to_use sel ++ [filename])
               (batches_to_use_so_far sel + num_batches_this_file).

(** The loop body for one file of the stream (lines 597-616);
    [num_batches_this_file] is read from the file's [.json], and [draw] is
    the value of [random.random()], read only behind
    [batches_to_use_so_far > 0 and]. *)
Definition select_file (num_batches_per_subepoch : Q) (filename : string)
    (num_batches_this_file : Z) (draw : Q) (sel : selection)
    : selection * flow :=
  if num_batches_this_file <=? 0 then (sel, Next)
  else if Py.gt (inject_Z (batches_to_use_so_far sel + num_batches_this_file))
                num_batches_per_subepoch
          && ((0 <? batches_to_use_so_far sel)
              && Py.ge draw (proportion_over num_batches_per_subepoch
                               num_batches_this_file sel))
  then (sel, Break)
  else
    let sel := include filename num_batches_this_file sel in
    if Py.ge (inject_Z (batches_to_use_so_far sel)) num_batches_per_subepoch
       || (100000 <? Z.of_nat (length (train_files_to_use sel)))
    then (sel, Break)
    else (sel, Next).

(** The loop over a prefix of the endless stream of files, each with its
    batch count and the draw made for it; [None] when the prefix is used up
    with the loop still running. *)
Fixpoint select_files (num_batches_per_subepoch : Q)
    (stream : list (string * Z * Q)) (sel : selection) : option selection :=
  match stream with
  | [] => None
  | (filename, num_batches_this_file, draw) :: rest =>
      match select_file num_batches_per_subepoch filename
              num_batches_this_file draw sel with
      | (sel, Break) => Some sel
      | (sel, Next) => select_files num_batches_per_subepoch rest sel
      end
  end.

Definition empty_selection : selection := mk_selection [] 0.

(** A stream for a target of 100 batches: a file of 60, an empty file, a
    file of 30, then a file of 20 that crosses the target. *)
Definition example_stream (draw : Q) : list (string * Z * Q) :=
  [("a.npz", 60, 0%Q); ("b.npz", 0, 0%Q); ("c.npz", 30, 0%Q);
   ("d.npz", 20, draw); ("e.npz", 50, 0%Q)].

(** A file without batches is passed over and the loop goes on. *)
Lemma empty_file_is_passed_over (target : Q) (filename : string) (n : Z)
    (draw : Q) (sel : selection) :
  n <= 0 -> select_file target filename n draw sel = (sel, Next).
Proof.
  intros H. unfold select_file.
  destruct (Z.leb_spec n 0); [reflexivity|lia].
Qed.

(** The loop on the example stream, for a draw on either side of the
    proportion over, (90 + 20 - 100) / 20 = 1/2. *)
Lemma select_files_example :
  select_files 100 (example_stream 0.75) empty_selection
    = Some (mk_selection ["a.npz"; "c.npz"] 90)
  /\ select_files 100 (example_stream 0.25) empty_selection
    = Some (mk_selection ["a.npz"; "c.npz"; "d.npz"] 110).
Proof. split; reflexivity. Qed.

(** A file that crosses the target ends the selection when it is
    included. *)
Lemma include_crossing_breaks (target : Q) (filename : string) (n : Z)
    (sel : selection) :
  (target < inject_Z (batches_to_use_so_far sel + n))%Q ->
  Py.ge (inject_Z (batches_to_use_so_far (include filename n sel))) target
    = true.
Proof. intros H. apply Py.ge_true. simpl. lra. Qed.

(** With a positive running total the code leaves the loop without the
    file exactly when the draw is at least the proportion over. *)
Lemma crossing_file_decided_by_draw (target : Q) (filename : string) (n : Z)
    (draw : Q) (sel : selection) :
  0 < n ->
  0 < batches_to_use_so_far sel ->
  (target < inject_Z (batches_to_use_so_far sel + n))%Q ->
  select_file target filename n draw sel =
    if Py.ge draw (proportion_over target n sel)
    then (sel, Break)
    else (include filename n sel, Break).
Proof.
  intros Hn Hpos Hover. unfold select_file.
  destruct (Z.leb_spec n 0) as [|_]; [lia|].
  rewrite (proj2 (Py.gt_true _ _) Hover).
  destruct (Z.ltb_spec 0 (batches_to_use_so_far sel)) as [_|]; [|lia].
  cbn [andb]. destruct (Py.ge draw _); [reflexivity|]. cbv zeta.
  rewrite (include_crossing_breaks target filename n sel Hover). reflexivity.
Qed.

Lemma proportion_over_between (target : Q) (n : Z) (sel : selection) :
  0 < n ->
  (inject_Z (batches_to_use_so_far sel) < target)%Q ->
  (target < inject_Z (batches_to_use_so_far sel + n))%Q ->
  (0 < proportion_over target n sel < 1)%Q.
Proof.
  intros Hn Hlt Hover. unfold proportion_over.
  assert (0 < inject_Z n)%Q as Hnq.
  { change 0%Q with (inject_Z 0). rewrite <- Zlt_Qlt. exact Hn. }
  rewrite inject_Z_plus in *.
  split.
  - apply Qlt_shift_div_l; [exact Hnq|]. lra.
  - apply Qlt_shift_div_r; [exact Hnq|]. lra.
Qed.

(** C7, as the code has it.  For a file with a positive batch count that
    would push a running total below the target over it, the selection
    always stops at this file, which is either skipped (the selection is
    unchanged) or included (appended, its batches added).  When the running
    total is positive the draw decides, and both outcomes occur for draws in
    [0, 1); when the running total is zero, that is for the first file
    taken, the file is included whatever the draw. *)
Theorem crossing_file_ends_selection (target : Q) (filename : string) (n : Z)
    (draw : Q) (sel : selection) :
  0 < n ->
  0 <= batches_to_use_so_far sel ->
  (inject_Z (batches_to_use_so_far sel) < target)%Q ->
  (target < inject_Z (batches_to_use_so_far sel + n))%Q ->
  let r := select_file target filename n draw sel in
  r.2 = Break
  /\ (r.1 = sel \/ r.1 = include filename n sel)
  /\ (batches_to_use_so_far sel = 0 -> r.1 = include filename n sel)
  /\ (0 < batches_to_use_so_far sel ->
      exists d_skip d_keep,
        (0 <= d_skip < 1)%Q /\ (0 <= d_keep < 1)%Q
        /\ select_file target filename n d_skip sel = (sel, Break)
        /\ select_file target filename n d_keep sel =
             (include filename n sel, Break)).
Proof.
  intros Hn Hge Hlt Hover r. subst r.
  destruct (Z.eq_dec (batches_to_use_so_far sel) 0) as [Hzero|Hnz].
  - assert (select_file target filename n draw sel =
              (include filename n sel, Break)) as ->.
    { unfold select_file.
      destruct (Z.leb_spec n 0) as [|_]; [lia|].
      destruct (Z.ltb_spec 0 (batches_to_use_so_far sel)) as [|_]; [lia|].
      rewrite andb_false_r. cbv zeta.
      rewrite (include_crossing_breaks target filename n sel Hover).
      reflexivity. }
    simpl. split; [reflexivity|]. split; [right; reflexivity|].
    split; [reflexivity|]. intros Hpos. lia.
  - assert (0 < batches_to_use_so_far sel) as Hpos by lia.
    pose proof (proportion_over_between target n sel Hn Hlt Hover) as [Hp0 Hp1].
    rewrite (crossing_file_decided_by_draw target filename n draw sel Hn Hpos Hover).
    split; [destruct (Py.ge draw _); reflexivity|].
    split; [destruct (Py.ge draw _); [left|right]; reflexivity|].
    split; [intros Hzero; contradiction|].
    intros _. exists (proportion_over target n sel), 0%Q.
    split; [split; [apply Qlt_le_weak; exact Hp0|exact Hp1]|].
    split; [split; [apply Qle_refl|reflexivity]|].
    rewrite !(crossing_file_decided_by_draw target filename n _ sel Hn Hpos Hover).
    rewrite (proj2 (Py.ge_true _ _) (Qle_refl _)).
    rewrite (proj2 (Py.ge_false _ _) Hp0).
    split; reflexivity.
Qed.

Lemma crossing_file_ends_selection_witness :
  let sel := mk_selection ["a.npz"] 90 in
  (select_file 100 "b.npz" 20 0.25 sel).2 = Break
  /\ ((select_file 100 "b.npz" 20 0.25 sel).1 = sel
      \/ (select_file 100 "b.npz" 20 0.25 sel).1 = include "b.npz" 20 sel).
Proof.
  assert (0 < 20) as H1 by lia.
  assert (0 <= 90) as H2 by lia.
  assert (inject_Z 90 < 100)%Q as H3 by reflexivity.
  assert (100 < inject_Z (90 + 20))%Q as H4 by reflexivity.
  destruct (crossing_file_ends_selection 100 "b.npz" 20 0.25
              (mk_selection ["a.npz"] 90) H1 H2 H3 H4) as (Hb & Hc & _).
  split; [exact Hb|exact Hc].
Defined.

(** C7 as stated fails for a first file that already exceeds the target:
    with target 5 and a first file of 10 batches the claimed skip
    probability is (0 + 10 - 5) / 10 = 1/2, yet the file is included for
    every draw. *)
Lemma first_file_is_never_skipped :
  ((inject_Z (batches_to_use_so_far empty_selection) < 5)%Q
   /\ (5 < inject_Z (batches_to_use_so_far empty_selection + 10))%Q
   /\ (proportion_over 5 10 empty_selection == 1 # 2)%Q)
  /\ (forall draw,
        select_file 5 "a.npz" 10 draw empty_selection =
          (mk_selection ["a.npz"] 10, Break)).
Proof.
  split; [repeat split|]. intros draw. reflexivity.
Qed.

End FileSelect.

(* ===================================================================== *)
(** * The train bucket over a whole run *)
(* ===================================================================== *)

Module BucketInvariant.

Import TrainBucket.

Local Open Scope Q_scope.

(** [cap = max(max_train_bucket_size, samples_per_epoch)] (line 458). *)
Definition cap (a : args) : Q :=
  Py.max (max_train_bucket_size a) (inject_Z (samples_per_epoch a)).

(** The two places that write the bucket level: the bucket lines of a
    reload, and the admission check at the top of an epoch. *)
Inductive bucket_step :=
| NewData (has_row_key : bool) (last_datainfo_row : Z)
| Admission.

Definition bucket_apply (a : args) (step : bucket_step) (ts : train_state)
    : Py.result train_state :=
  match step with
  | NewData has_row_key last_datainfo_row =>
      advance_train_bucket a has_row_key last_datainfo_row ts
  | Admission =>
      adm ← consume_train_bucket a ts;
      Py.Ok (match adm with
             | Proceed ts' => ts'
             | SleepAndRetry _ ts' => ts'
             end)
  end.

(** Any interleaving of the two, in order. *)
Fixpoint bucket_run (a : args) (steps : list bucket_step) (ts : train_state)
    : Py.result train_state :=
  match steps with
  | [] => Py.Ok ts
  | step :: rest => ts ← bucket_apply a step ts; bucket_run a rest ts
  end.

(** The level is present and lies between -1% of an epoch and the cap. *)
Definition level_in_range (a : args) (ts : train_state) : Prop :=
  exists level,
    train_bucket_level ts = Some level
    /\ - (0.01) * inject_Z (samples_per_epoch a) <= level <= cap a.

Lemma cap_ge_size (a : args) : max_train_bucket_size a <= cap a.
Proof.
  unfold cap, Py.max.
  destruct (Py.gt _ _) eqn:E; [|apply Qle_refl].
  apply Py.gt_true in E. apply Qlt_le_weak, E.
Qed.

Lemma cap_ge_samples (a : args) : inject_Z (samples_per_epoch a) <= cap a.
Proof.
  unfold cap, Py.max.
  destruct (Py.gt _ _) eqn:E; [apply Qle_refl|].
  apply Py.gt_false in E. exact E.
Qed.

Lemma samples_nonneg (a : args) :
  (0 <= samples_per_epoch a)%Z -> 0 <= inject_Z (samples_per_epoch a).
Proof. intros H. change 0 with (inject_Z 0). rewrite <- Zle_Qle. exact H. Qed.

Lemma new_rows_nonneg (n : Z) (fill : Q) :
  (0 < n)%Z -> 0 <= fill -> 0 <= inject_Z n * fill.
Proof.
  intros Hn Hfill. apply Qmult_le_0_compat; [|exact Hfill].
  change 0 with (inject_Z 0). rewrite <- Zle_Qle. lia.
Qed.

Lemma advance_in_range (a : args) (fill : Q) (has_row_key : bool) (row : Z)
    (ts ts' : train_state) :
  max_train_bucket_per_new_data a = Some fill ->
  0 <= fill ->
  level_in_range a ts ->
  advance_train_bucket a has_row_key row ts = Py.Ok ts' ->
  level_in_range a ts'.
Proof.
  intros Hfill Hpos (level & Hlevel & Hlo & Hhi).
  unfold advance_train_bucket. rewrite Hfill.
  destruct has_row_key; simpl.
  - destruct (train_bucket_level_at_row ts) as [at_row|]; [|discriminate].
    destruct (Z.ltb_spec at_row row) as [Hlt|_].
    + simpl. rewrite Hlevel. fold (cap a).
      pose proof (new_rows_nonneg (row - at_row) fill ltac:(lia) Hpos) as Hrows.
      destruct (Py.gt _ _) eqn:E; intros [= <-]; eexists;
        (split; [reflexivity|]).
      * split; [lra|apply Qle_refl].
      * apply Py.gt_false in E. split; [lra|exact E].
    + intros [= <-]. exists level. repeat split; assumption.
  - rewrite Z.ltb_irrefl. intros [= <-]. exists level.
    repeat split; assumption.
Qed.

Lemma consume_in_range (a : args) (fill : Q) (ts : train_state)
    (adm : admission) :
  max_train_bucket_per_new_data a = Some fill ->
  (0 <= samples_per_epoch a)%Z ->
  level_in_range a ts ->
  consume_train_bucket a ts = Py.Ok adm ->
  level_in_range a match adm with
                   | Proceed ts' => ts'
                   | SleepAndRetry _ ts' => ts'
                   end.
Proof.
  intros Hfill Hspe (level & Hlevel & Hlo & Hhi).
  unfold consume_train_bucket. rewrite Hfill, Hlevel.
  pose proof (samples_nonneg a Hspe) as Hs.
  destruct (Py.gt _ _) eqn:E; intros [= <-].
  - apply Py.gt_true in E. eexists. split; [reflexivity|]. split; lra.
  - exists level. repeat split; assumption.
Qed.

(** X1.  The bucket level over a run.  With bucket limiting enabled, a
    non-negative fill rate and a non-negative epoch size, the level a new
    run starts from lies between -1% of an epoch and the cap
    [max(max_train_bucket_size, samples_per_epoch)], and every reload and
    every admission check that completes keeps it there, in any order and
    whichever way the key test of the reload goes: the bucket never
    overflows the cap and is never overdrawn by more than 1% of an epoch. *)
Theorem bucket_level_stays_in_range (a : args) (fill : Q)
    (steps : list bucket_step) (ts ts' : train_state) :
  max_train_bucket_per_new_data a = Some fill ->
  0 <= fill ->
  (0 <= samples_per_epoch a)%Z ->
  (forall at_row gss since counter,
      level_in_range a (init_train_state a None at_row gss since counter))
  /\ (level_in_range a ts ->
      bucket_run a steps ts = Py.Ok ts' ->
      level_in_range a ts').
Proof.
  intros Hfill Hpos Hspe. split.
  - intros at_row gss since counter.
    exists (inject_Z (samples_per_epoch a)). split.
    + unfold init_train_state. simpl. rewrite Hfill. reflexivity.
    + pose proof (samples_nonneg a Hspe). split; [lra|apply cap_ge_samples].
  - revert ts. induction steps as [|step rest IH]; intros ts Hin Hrun.
    + simpl in Hrun. injection Hrun as <-. exact Hin.
    + simpl in Hrun.
      destruct (bucket_apply a step ts) as [ts1|e] eqn:E1; [|discriminate].
      cbn [mbind result_bind Py.bind] in Hrun.
      apply (IH ts1); [|exact Hrun].
      destruct step as [has_row_key row|]; simpl in E1.
      * exact (advance_in_range a fill has_row_key row ts ts1 Hfill Hpos Hin E1).
      * destruct (consume_train_bucket a ts) as [adm|e] eqn:E2; [|discriminate].
        cbn [mbind result_bind Py.bind] in E1. injection E1 as <-.
        exact (consume_in_range a fill ts adm Hfill Hspe Hin E2).
Qed.

(** Fill 2, cap 1000, epochs of 100: a start at level 100, one epoch
    admitted, 600 new rows (clamped to the cap), one more epoch admitted. *)
Lemma bucket_level_stays_in_range_witness :
  bucket_run example_args [Admission; NewData true 600; Admission]
    (state_with_level 100 0)
    = Py.Ok (mk_train_state 0 (Some (1000 - inject_Z 100)) (Some 600%Z) 0 0)
  /\ level_in_range example_args
       (mk_train_state 0 (Some (1000 - inject_Z 100)) (Some 600%Z) 0 0).
Proof.
  assert (bucket_run example_args [Admission; NewData true 600; Admission]
            (state_with_level 100 0)
          = Py.Ok (mk_train_state 0 (Some (1000 - inject_Z 100)) (Some 600%Z) 0 0))
    as Hrun by reflexivity.
  split; [exact Hrun|].
  assert (0 <= 2) as Hfill by (vm_compute; discriminate).
  assert (0 <= samples_per_epoch example_args)%Z as Hspe by (simpl; lia).
  apply (proj2 (bucket_level_stays_in_range example_args 2
                  [Admission; NewData true 600; Admission]
                  (state_with_level 100 0) _ eq_refl Hfill Hspe));
    [|exact Hrun].
  exists 100. split; [reflexivity|]. split; vm_compute; discriminate.
Defined.

End BucketInvariant.

(* ===================================================================== *)
(** * The export schedule over a run of epochs *)
(* ===================================================================== *)

Module ExportSchedule.

Import ExportCycle.

Local Open Scope Z_scope.

(** [random.random() > export_prob], when [export_prob] is given. *)
Definition skipped (a : args) (draw : Q) : bool :=
  match export_prob a with
  | Some p => Py.gt draw p
  | None => false
  end.

(** Whether the epoch that brings the number of epochs since the last
    reset of the counter to [k] exports, for the draw made in it. *)
Definition exports_at (a : args) (k : Z) (draw : Q) : bool :=
  (k mod epochs_per_export a =? 0) && negb (skipped a draw).

Lemma next_counter_mod (E c : Z) :
  0 <= c < E ->
  (if E <=? c + 1 then 0 else c + 1) = (c + 1) mod E.
Proof.
  intros Hc. destruct (Z.leb_spec E (c + 1)).
  - assert (c + 1 = E) as -> by lia. symmetry. apply Z.mod_same. lia.
  - symmetry. apply Z.mod_small. lia.
Qed.

Lemma due_mod (E c : Z) :
  0 <= c < E -> (E <=? c + 1) = ((c + 1) mod E =? 0).
Proof.
  intros Hc. destruct (Z.leb_spec E (c + 1)).
  - assert (c + 1 = E) as -> by lia. rewrite Z.mod_same by lia. reflexivity.
  - rewrite Z.mod_small by lia. symmetry. apply Z.eqb_neq. lia.
Qed.

Lemma epoch_step (a : args) (draw : Q) (ts : train_state) :
  no_export a = false ->
  0 <= export_cycle_counter ts < epochs_per_export a ->
  on_epoch_complete 0 a draw ts =
    (set_export_cycle_counter
       ((export_cycle_counter ts + 1) mod epochs_per_export a) ts,
     exports_at a (export_cycle_counter ts + 1) draw).
Proof.
  intros Hno Hc. unfold on_epoch_complete, exports_at, skipped.
  rewrite Hno. simpl.
  rewrite <- (due_mod _ _ Hc), <- (next_counter_mod _ _ Hc).
  destruct (Z.leb_spec (epochs_per_export a) (export_cycle_counter ts + 1));
    simpl; destruct (export_prob a) as [p|]; try reflexivity;
    destruct (Py.gt draw p); reflexivity.
Qed.

Lemma run_epochs_schedule (a : args) (draws : list Q) (ts : train_state) :
  no_export a = false ->
  0 <= export_cycle_counter ts < epochs_per_export a ->
  run_epochs 0 a draws ts =
    (set_export_cycle_counter
       ((export_cycle_counter ts + Z.of_nat (length draws))
          mod epochs_per_export a) ts,
     imap (fun i draw =>
             exports_at a (export_cycle_counter ts + Z.of_nat i + 1) draw)
          draws).
Proof.
  intros Hno. revert ts.
  induction draws as [|d rest IH]; intros ts Hc.
  - simpl. rewrite Z.add_0_r, Z.mod_small by exact Hc.
    destruct ts; reflexivity.
  - cbn [run_epochs]. rewrite (epoch_step a d ts Hno Hc).
    set (ts1 := set_export_cycle_counter _ ts).
    assert (0 <= export_cycle_counter ts1 < epochs_per_export a) as Hc1.
    { unfold ts1. simpl. apply Z.mod_pos_bound. lia. }
    rewrite (IH ts1 Hc1). unfold ts1. simpl.
    f_equal.
    + unfold set_export_cycle_counter. simpl. f_equal.
      rewrite Zplus_mod_idemp_l. f_equal. lia.
    + f_equal; [f_equal; lia|].
      apply imap_ext. intros i x _. simpl. unfold exports_at. f_equal.
      rewrite <- Z.add_assoc, Zplus_mod_idemp_l. f_equal. f_equal. lia.
Qed.

(** X2.  The export schedule.  On the leader, with exports enabled and a counter
    [c] below the period [E], a run of [n] epochs leaves the counter at
    [(c + n) mod E] and touches nothing else of the training state, and its
    [i]-th epoch (counting from 1) enters the export branch exactly when
    [c + i] is a multiple of [E] and the draw of that epoch does not exceed
    [export_prob] (when one is given).  A skipped export therefore still
    resets the counter: the next one is due a full period later. *)
Theorem export_every_period (a : args) (draws : list Q) (ts : train_state) :
  no_export a = false ->
  0 <= export_cycle_counter ts < epochs_per_export a ->
  let r := run_epochs 0 a draws ts in
  r.1 = set_export_cycle_counter
          ((export_cycle_counter ts + Z.of_nat (length draws))
             mod epochs_per_export a) ts
  /\ forall (i : nat) (draw : Q),
       draws !! i = Some draw ->
       r.2 !! i =
         Some (((export_cycle_counter ts + Z.of_nat i + 1)
                  mod epochs_per_export a =? 0)
               && negb match export_prob a with
                       | Some p => Py.gt draw p
                       | None => false
                       end).
Proof.
  intros Hno Hc r. unfold r. rewrite (run_epochs_schedule a draws ts Hno Hc).
  split; [reflexivity|].
  intros i draw Hi. simpl. rewrite list_lookup_imap, Hi. reflexivity.
Qed.

(** Period 3 and export probability 1/2: of six epochs the third is due
    and skipped (draw 0.9), the sixth is due and exports (draw 0.1). *)
Lemma export_every_period_witness :
  let a := mk_args 100 1 3 (Some 0.5%Q) false None 0 None in
  let r := run_epochs 0 a [0.1; 0.1; 0.9; 0.1; 0.1; 0.1]%Q fresh_state in
  export_cycle_counter r.1 = 0
  /\ r.2 !! 2%nat = Some false
  /\ r.2 !! 5%nat = Some true.
Proof.
  assert (0 <= export_cycle_counter fresh_state < 3) as Hc by (simpl; lia).
  destruct (export_every_period
              (mk_args 100 1 3 (Some 0.5%Q) false None 0 None)
              [0.1; 0.1; 0.9; 0.1; 0.1; 0.1]%Q fresh_state eq_refl Hc)
    as [H1 H2].
  split; [rewrite H1; reflexivity|].
  split; [rewrite (H2 2%nat 0.9%Q eq_refl)|rewrite (H2 5%nat 0.1%Q eq_refl)];
    reflexivity.
Defined.

End ExportSchedule.

(* ===================================================================== *)
(** * The data-reload check: waiting, reloading, throttling *)
(* ===================================================================== *)

Module ReloadFacts.

Import DataReload.

Local Open Scope Z_scope.

(** The directory differs from the last one loaded, and is missing or has
    no [train.json] yet. *)
Definition not_ready (st : reload_state) (env : data_env) : Prop :=
  Some (realpath env) <> last_curdatadir (rs_watcher st)
  /\ (dir_exists env = false \/ train_json env = None).

(** The directory is the one loaded last. *)
Definition same_dir (st : reload_state) (env : data_env) : Prop :=
  Some (realpath env) = last_curdatadir (rs_watcher st).


(** A data directory the shuffler has published, and the state of a trainer
    that has done 900 steps on an earlier one, with a ceiling of 1000 steps
    per directory and sub-epochs of 200. *)
Definition throttle_args : args :=
  mk_args 200 1 1 None false None 0 (Some 1000%Q).

Definition throttle_state : reload_state :=
  mk_reload_state (mk_watcher (Some "/data/shuffle1") 50 ["a.npz"] 1 None)
    (mk_train_state 900 None None 900 0) scenario_history.


Definition unfinished_dir : data_env :=
  mk_data_env "/data/shuffle2" true None None.

Definition new_dir : data_env :=
  mk_data_env "/data/shuffle2" true (Some (0, 80))
    (Some ["a.npz"; "a.json"; "b.npz"]).


Lemma not_ready_pass (a : args) (env : data_env) (st : reload_state) :
  not_ready st env -> reload_pass a env st = Py.Ok (SleepAndRetry 30, st).
Proof.
  intros [Hnew Hcase]. unfold reload_pass.
  rewrite bool_decide_eq_true_2 by exact Hnew.
  destruct Hcase as [->|Hjson]; [reflexivity|].
  rewrite Hjson. destruct (dir_exists env); reflexivity.
Qed.

Lemma reload_loop_skips_waits (a : args) (waits rest : list data_env)
    (st : reload_state) :
  Forall (not_ready st) waits ->
  reload_loop a (waits ++ rest) st = reload_loop a rest st.
Proof.
  induction 1 as [|env waits Henv _ IH]; [reflexivity|].
  simpl. rewrite (not_ready_pass a env st Henv). exact IH.
Qed.

Lemma advance_frame (a : args) (has_row_key : bool) (row : Z)
    (ts ts' : train_state) :
  TrainBucket.advance_train_bucket a has_row_key row ts = Py.Ok ts' ->
  global_step_samples ts' = global_step_samples ts
  /\ train_steps_since_last_reload ts' = train_steps_since_last_reload ts
  /\ export_cycle_counter ts' = export_cycle_counter ts.
Proof.
  unfold TrainBucket.advance_train_bucket.
  destruct (max_train_bucket_per_new_data a) as [fill|];
    [|intros [= <-]; repeat split].
  destruct has_row_key; simpl.
  - destruct (train_bucket_level_at_row ts) as [at_row|]; [|discriminate].
    destruct (at_row <? row); [|intros [= <-]; repeat split].
    simpl. destruct (train_bucket_level ts); [|discriminate].
    intros [= <-]. repeat split.
  - rewrite Z.ltb_irrefl. intros [= <-]. repeat split.
Qed.

Lemma same_dir_pass (a : args) (env : data_env) (st st' : reload_state)
    (o : pass_outcome) :
  same_dir st env ->
  reload_pass a env st = Py.Ok (o, st') ->
  st' = st /\ (o = Unchanged \/ o = SleepAndRetry 300).
Proof.
  intros Hsame. unfold reload_pass.
  rewrite bool_decide_eq_false_2 by (intros H; apply H, Hsame).
  destruct (max_train_steps_since_last_reload a) as [ceiling|].
  - destruct (Py.div _ _) as [per_sub|e]; [|discriminate].
    cbn [mbind result_bind Py.bind].
    destruct (Py.gt _ _); intros [= <- <-]; split; auto.
  - intros [= <- <-]. split; auto.
Qed.


(** X3.  Waiting for data leaves no trace.  On the leader, the passes of the
    reload loop that find a new directory still missing, or still without
    its [train.json], sleep 30 seconds each and change nothing: the loop
    behaves after them exactly as it would have without them; and as long
    as every pass is such a one the loop does not return. *)
Theorem reload_waits_until_ready (a : args) (waits rest : list data_env)
    (st : reload_state) :
  Forall (not_ready st) waits ->
  (forall env, env ∈ waits ->
     reload_pass a env st = Py.Ok (SleepAndRetry 30, st))
  /\ maybe_reload_training_data 0 a (waits ++ rest) st
       = maybe_reload_training_data 0 a rest st
  /\ maybe_reload_training_data 0 a waits st = Py.Ok None.
Proof.
  intros Hwaits. split; [|split].
  - intros env Hin. apply not_ready_pass.
    rewrite Forall_forall in Hwaits. apply Hwaits, Hin.
  - unfold maybe_reload_training_data. simpl.
    apply reload_loop_skips_waits, Hwaits.
  - unfold maybe_reload_training_data. simpl.
    rewrite <- (app_nil_r waits).
    rewrite (reload_loop_skips_waits a waits [] st Hwaits). reflexivity.
Qed.

(** Two passes on a directory still being written, then the finished
    directory: the result is that of the last pass alone. *)
Lemma reload_waits_until_ready_witness :
  maybe_reload_training_data 0 throttle_args
      ([unfinished_dir; unfinished_dir] ++ [new_dir]) throttle_state
    = maybe_reload_training_data 0 throttle_args [new_dir] throttle_state.
Proof.
  assert (not_ready throttle_state unfinished_dir) as H.
  { split; [discriminate|]. right. reflexivity. }
  assert (Forall (not_ready throttle_state) [unfinished_dir; unfinished_dir])
    as Hwaits by (repeat apply Forall_cons_2; [exact H..|apply Forall_nil_2]).
  exact (proj1 (proj2 (reload_waits_until_ready throttle_args
                         [unfinished_dir; unfinished_dir] [new_dir]
                         throttle_state Hwaits))).
Defined.

Lemma reloaded_pass (a : args) (env : data_env) (st st' : reload_state) :
  reload_pass a env st = Py.Ok (Reloaded, st') ->
  last_curdatadir (rs_watcher st') = Some (realpath env)
  /\ train_steps_since_last_reload (rs_train_state st') = 0
  /\ global_step_samples (rs_train_state st')
       = global_step_samples (rs_train_state st)
  /\ exists range events,
       rs_trainhistory st !! "history" = Some (History events)
       /\ rs_trainhistory st' !! "history" =
            Some (History
                    (events ++
                       [NewData (global_step_samples (rs_train_state st)) range])).
Proof.
  unfold reload_pass.
  destruct (bool_decide (Some (realpath env) <> last_curdatadir (rs_watcher st))).
  - destruct (dir_exists env); simpl negb; cbv iota; [|discriminate].
    destruct (train_json env) as [range|]; [|discriminate].
    destruct (TrainBucket.advance_train_bucket _ _ _ _) as [ts1|e] eqn:Hadv;
      [|discriminate].
    apply advance_frame in Hadv as (Hgss & _ & _).
    cbn [mbind result_bind Py.bind]. unfold history_append.
    destruct (rs_trainhistory st !! "history") as [[events| | |]|];
      try discriminate.
    cbn [mbind result_bind Py.bind].
    destruct (train_listing env) as [names|]; [|discriminate].
    intros [= <-]. simpl.
    split; [reflexivity|]. split; [reflexivity|]. split; [exact Hgss|].
    exists range, events. split; [reflexivity|].
    rewrite lookup_insert_eq, Hgss. reflexivity.
  - destruct (max_train_steps_since_last_reload a) as [ceiling|];
      [|discriminate].
    destruct (Py.div _ _); [|discriminate].
    cbn [mbind result_bind Py.bind]. destruct (Py.gt _ _); discriminate.
Qed.

(** X4.  What a reload does.  A pass that reloads has found a directory other
    than the last one loaded, with a manifest; it records the directory and
    the end row of the manifest's range, resets
    [train_steps_since_last_reload] to 0, leaves [global_step_samples] and
    the export cycle counter as they were, appends exactly one ["newdata"]
    event (carrying the step count and the range) behind the events already
    in the history and touches no other entry of it; the training files are
    the names of the [train] subdirectory that end in [".npz"], in listing
    order, and their count is recorded with them. *)
Theorem reload_effect (a : args) (env : data_env) (st st' : reload_state) :
  reload_pass a env st = Py.Ok (Reloaded, st') ->
  Some (realpath env) <> last_curdatadir (rs_watcher st)
  /\ last_curdatadir (rs_watcher st') = Some (realpath env)
  /\ train_steps_since_last_reload (rs_train_state st') = 0
  /\ global_step_samples (rs_train_state st')
       = global_step_samples (rs_train_state st)
  /\ export_cycle_counter (rs_train_state st')
       = export_cycle_counter (rs_train_state st)
  /\ (exists range events names,
        train_json env = Some range
        /\ last_datainfo_row (rs_watcher st') = range.2
        /\ rs_trainhistory st !! "history" = Some (History events)
        /\ rs_trainhistory st' !! "history" =
             Some (History
                     (events ++
                        [NewData (global_step_samples (rs_train_state st)) range]))
        /\ (forall k, k <> "history" ->
              rs_trainhistory st' !! k = rs_trainhistory st !! k)
        /\ train_listing env = Some names
        /\ train_files (rs_watcher st') =
             map (path_join (path_join (realpath env) "train"))
                 (filter (fun fname => Py.endswith fname ".npz" = true) names)
        /\ num_train_files (rs_watcher st')
             = length (train_files (rs_watcher st'))).
Proof.
  unfold reload_pass.
  destruct (bool_decide (Some (realpath env) <> last_curdatadir (rs_watcher st)))
    eqn:Hnew.
  - apply bool_decide_eq_true_1 in Hnew.
    destruct (dir_exists env); simpl negb; cbv iota; [|discriminate].
    destruct (train_json env) as [range|]; [|discriminate].
    destruct (TrainBucket.advance_train_bucket _ _ _ _) as [ts1|e] eqn:Hadv;
      [|discriminate].
    apply advance_frame in Hadv as (Hgss & _ & Hcounter).
    cbn [mbind result_bind Py.bind]. unfold history_append.
    destruct (rs_trainhistory st !! "history") as [[events| | |]|] eqn:Hhist;
      try discriminate.
    cbn [mbind result_bind Py.bind].
    destruct (train_listing env) as [names|]; [|discriminate].
    intros [= <-]. simpl.
    split; [exact Hnew|]. split; [reflexivity|]. split; [reflexivity|].
    split; [exact Hgss|]. split; [exact Hcounter|].
    exists range, events, names.
    split; [reflexivity|]. split; [reflexivity|]. split; [reflexivity|].
    split; [rewrite lookup_insert_eq, Hgss; reflexivity|].
    split; [intros k Hk; apply lookup_insert_ne; congruence|].
    repeat split.
  - destruct (max_train_steps_since_last_reload a) as [ceiling|];
      [|discriminate].
    destruct (Py.div _ _); [|discriminate].
    cbn [mbind result_bind Py.bind]. destruct (Py.gt _ _); discriminate.
Qed.


Lemma reload_effect_witness :
  exists st',
    reload_pass throttle_args new_dir throttle_state = Py.Ok (Reloaded, st')
    /\ train_steps_since_last_reload (rs_train_state st') = 0
    /\ global_step_samples (rs_train_state st') = 900.
Proof.
  eexists. split; [reflexivity|].
  destruct (reload_effect throttle_args new_dir throttle_state _ eq_refl)
    as (_ & _ & H1 & H2 & _).
  split; [exact H1|exact H2].
Defined.

(** X5.  A directory is loaded once.  After a pass has reloaded from a
    directory, no later pass that finds the same directory reloads again or
    changes anything: it ends the loop (or sleeps 300 seconds, when
    throttled), with the watcher, the training state and the history as
    they are. *)
Theorem reloaded_dir_is_not_reloaded_again (a : args) (env env2 : data_env)
    (st st1 st2 : reload_state) (o : pass_outcome) :
  reload_pass a env st = Py.Ok (Reloaded, st1) ->
  realpath env2 = realpath env ->
  reload_pass a env2 st1 = Py.Ok (o, st2) ->
  st2 = st1 /\ (o = Unchanged \/ o = SleepAndRetry 300).
Proof.
  intros H1 Hpath H2.
  apply reloaded_pass in H1 as (Hlast & _).
  apply (same_dir_pass a env2 st1 st2 o); [|exact H2].
  unfold same_dir. rewrite Hpath, Hlast. reflexivity.
Qed.

Lemma reloaded_dir_is_not_reloaded_again_witness :
  exists st1,
    reload_pass throttle_args new_dir throttle_state = Py.Ok (Reloaded, st1)
    /\ reload_pass throttle_args new_dir st1 = Py.Ok (Unchanged, st1)
    /\ st1 = st1 /\ (Unchanged = Unchanged \/ Unchanged = SleepAndRetry 300).
Proof.
  eexists. split; [reflexivity|]. split; [reflexivity|].
  exact (reloaded_dir_is_not_reloaded_again throttle_args new_dir new_dir
           throttle_state _ _ Unchanged eq_refl eq_refl eq_refl).
Defined.



End ReloadFacts.

(* ===================================================================== *)
(** * The checkpoint files over saves and loads *)
(* ===================================================================== *)

Module CheckpointCycle.

Import Fs Checkpoint.

(** [get_checkpoint_path() + ".tmp"] *)
Definition checkpoint_tmp_path (traindir : path) : path :=
  with_suffix (get_checkpoint_path traindir) ".tmp".

(** The names the default save reads or writes. *)
Definition checkpoint_files (traindir : path) : list path :=
  [ get_checkpoint_path traindir; checkpoint_tmp_path traindir;
    get_checkpoint_prev_path traindir 0; get_checkpoint_prev_path traindir 1;
    get_checkpoint_prev_path traindir 2; get_checkpoint_prev_path traindir 3 ].

(** The file operations of the default save (lines 209-214), in order: a
    process that is killed during the save has done a prefix of them. *)
Definition save_ops (traindir : path) (state_dict : data) : list (io unit) :=
  map (rotate_prev traindir) (rev (seq 0 (NUM_SHORTTERM_CHECKPOINTS_TO_KEEP - 1)))
  ++ [ copy (get_checkpoint_path traindir) (get_checkpoint_prev_path traindir 0);
       write_file (checkpoint_tmp_path traindir) state_dict;
       rename (checkpoint_tmp_path traindir) (get_checkpoint_path traindir) ].

Fixpoint run_ops (ops : list (io unit)) : io unit :=
  match ops with
  | [] => mret tt
  | op :: rest => op ;; run_ops rest
  end.

(** The two [raise Exception(...)] of [load] (lines 256 and 263). *)
Inductive load_exception :=
| PrevWithoutCheckpoint (i : nat)
| InvalidInitialCheckpoint.

Definition path_exists (p : path) (m : gmap path node) : bool :=
  bool_decide (is_Some (lookup_node p m)).

(** The choice of [path_to_load_from] at the top of [load] (lines 252-267);
    [inr None] is a new model. *)
Definition path_to_load_from (traindir : path) (initial_checkpoint : option path)
    (m : gmap path node) : load_exception + option path :=
  if negb (path_exists (get_checkpoint_path traindir) m) then
    match find (fun i => path_exists (get_checkpoint_prev_path traindir i) m)
               (seq 0 NUM_SHORTTERM_CHECKPOINTS_TO_KEEP) with
    | Some i => inl (PrevWithoutCheckpoint i)
    | None =>
        match initial_checkpoint with
        | Some p =>
            if path_exists p m then inr (Some p)
            else inl InvalidInitialCheckpoint
        | None => inr None
        end
    end
  else inr (Some (get_checkpoint_path traindir)).

(** What one turn of the rotation loop leaves. *)
Definition rotated (traindir : path) (i : nat) (m : gmap path node)
    : gmap path node :=
  match m !! get_checkpoint_prev_path traindir i with
  | Some n => <[get_checkpoint_prev_path traindir (i + 1) := n]>
                (delete (get_checkpoint_prev_path traindir i) m)
  | None => m
  end.

(** A training directory that holds the checkpoint [current], and files
    only (if anything) under the other names the save uses. *)
Definition settled (traindir : path) (current : data) (m : gmap path node)
    : Prop :=
  lookup_node traindir m = Some Dir
  /\ m !! get_checkpoint_path traindir = Some (File current)
  /\ m !! checkpoint_tmp_path traindir <> Some Dir
  /\ forall i, (i < NUM_SHORTTERM_CHECKPOINTS_TO_KEEP)%nat ->
       m !! get_checkpoint_prev_path traindir i <> Some Dir.

(** A training directory after three epochs. *)
Definition example_settled_fs : gmap path node :=
  {[ ["train"] := Dir;
     ["train"; "checkpoint.ckpt"] := File (Blob "epoch3");
     ["train"; "checkpoint_prev0.ckpt"] := File (Blob "epoch2");
     ["train"; "checkpoint_prev1.ckpt"] := File (Blob "epoch1") ]}.

Lemma lookup_node_insert_ne (d p : path) (n : node) (m : gmap path node) :
  p <> d -> lookup_node d (<[p := n]> m) = lookup_node d m.
Proof.
  intros H. destruct d; [reflexivity|]. simpl. apply lookup_insert_ne, H.
Qed.

Lemma lookup_node_delete_ne (d p : path) (m : gmap path node) :
  p <> d -> lookup_node d (delete p m) = lookup_node d m.
Proof.
  intros H. destruct d; [reflexivity|]. simpl. apply lookup_delete_ne, H.
Qed.

Lemma copy_file_ok (src dst : path) (d : data) (m : gmap path node) :
  lookup_node src m = Some (File d) ->
  lookup_node (parent dst) m = Some Dir ->
  lookup_node dst m <> Some Dir ->
  copy src dst m = (Py.Ok tt, <[dst := File d]> m).
Proof.
  intros H1 H2 H3. unfold copy. rewrite H1.
  destruct (lookup_node dst m) as [[|d']|] eqn:E; [contradiction| |];
    apply write_file_ok; try exact H2; rewrite E; discriminate.
Qed.

Lemma checkpoint_tmp_path_join (traindir : path) :
  checkpoint_tmp_path traindir = join traindir "checkpoint.ckpt.tmp".
Proof.
  unfold checkpoint_tmp_path, get_checkpoint_path.
  rewrite with_suffix_join. reflexivity.
Qed.

Lemma prev_path_join (traindir : path) :
  get_checkpoint_prev_path traindir 0 = join traindir "checkpoint_prev0.ckpt"
  /\ get_checkpoint_prev_path traindir 1 = join traindir "checkpoint_prev1.ckpt"
  /\ get_checkpoint_prev_path traindir 2 = join traindir "checkpoint_prev2.ckpt"
  /\ get_checkpoint_prev_path traindir 3 = join traindir "checkpoint_prev3.ckpt".
Proof. repeat split. Qed.

(** The checkpoint names as joins with literal names. *)
Ltac ckpt_names traindir :=
  cbn [Nat.add] in *;
  rewrite ?checkpoint_tmp_path_join in *;
  rewrite ?(proj1 (prev_path_join traindir)) in *;
  rewrite ?(proj1 (proj2 (prev_path_join traindir))) in *;
  rewrite ?(proj1 (proj2 (proj2 (prev_path_join traindir)))) in *;
  rewrite ?(proj2 (proj2 (proj2 (prev_path_join traindir)))) in *;
  unfold get_checkpoint_path in *.

(** Two names of the training directory differ, or the inequality is a
    hypothesis. *)
Ltac name_neq :=
  let H := fresh in
  first [ solve [ intros H; apply join_inj in H; discriminate H ]
        | assumption ].

(** Lookups in the training directory after inserts and deletes. *)
Ltac ckpt_lookup :=
  rewrite ?parent_join, ?lookup_node_join;
  repeat first
    [ rewrite lookup_insert_eq
    | rewrite lookup_delete_eq
    | rewrite lookup_insert_ne by name_neq
    | rewrite lookup_delete_ne by name_neq ].

(** A side condition of a file operation on the training directory. *)
Ltac fs_side Hdir :=
  rewrite ?parent_join;
  first
    [ solve [ repeat first
                [ rewrite lookup_node_insert_ne by apply join_neq_self
                | rewrite lookup_node_delete_ne by apply join_neq_self ];
              exact Hdir ]
    | solve [ rewrite ?lookup_node_join; ckpt_lookup;
              first [ eassumption | reflexivity | discriminate | congruence ] ] ].

Lemma settled_names (traindir : path) (current : data) (m : gmap path node) :
  settled traindir current m ->
  lookup_node traindir m = Some Dir
  /\ m !! join traindir "checkpoint.ckpt" = Some (File current)
  /\ m !! join traindir "checkpoint.ckpt.tmp" <> Some Dir
  /\ m !! join traindir "checkpoint_prev0.ckpt" <> Some Dir
  /\ m !! join traindir "checkpoint_prev1.ckpt" <> Some Dir
  /\ m !! join traindir "checkpoint_prev2.ckpt" <> Some Dir
  /\ m !! join traindir "checkpoint_prev3.ckpt" <> Some Dir.
Proof.
  intros (Hdir & Hc & Htmp & Hprev).
  rewrite checkpoint_tmp_path_join in Htmp.
  split; [exact Hdir|]. split; [exact Hc|]. split; [exact Htmp|].
  split; [exact (Hprev 0%nat ltac:(cbv; lia))|].
  split; [exact (Hprev 1%nat ltac:(cbv; lia))|].
  split; [exact (Hprev 2%nat ltac:(cbv; lia))|].
  exact (Hprev 3%nat ltac:(cbv; lia)).
Qed.

Lemma names_settled (traindir : path) (current : data) (m : gmap path node) :
  lookup_node traindir m = Some Dir ->
  m !! join traindir "checkpoint.ckpt" = Some (File current) ->
  m !! join traindir "checkpoint.ckpt.tmp" <> Some Dir ->
  m !! join traindir "checkpoint_prev0.ckpt" <> Some Dir ->
  m !! join traindir "checkpoint_prev1.ckpt" <> Some Dir ->
  m !! join traindir "checkpoint_prev2.ckpt" <> Some Dir ->
  m !! join traindir "checkpoint_prev3.ckpt" <> Some Dir ->
  settled traindir current m.
Proof.
  intros Hdir Hc Htmp H0 H1 H2 H3.
  split; [exact Hdir|]. split; [exact Hc|].
  split; [rewrite checkpoint_tmp_path_join; exact Htmp|].
  intros i Hi. unfold NUM_SHORTTERM_CHECKPOINTS_TO_KEEP in Hi.
  destruct i as [|[|[|[|i]]]]; [assumption..|lia].
Qed.

Lemma rotate_prev_settled (traindir : path) (current : data) (i : nat)
    (m : gmap path node) :
  (i < 3)%nat ->
  settled traindir current m ->
  rotate_prev traindir i m = (Py.Ok tt, rotated traindir i m)
  /\ settled traindir current (rotated traindir i m).
Proof.
  intros Hi Hm.
  destruct (settled_names _ _ _ Hm) as (Hdir & Hc & Htmp & H0 & H1 & H2 & H3).
  unfold rotate_prev, rotated, mbind, io_bind_inst, io_bind.
  destruct i as [|[|[|i]]]; [| | |lia]; ckpt_names traindir.
  - destruct (m !! join traindir "checkpoint_prev0.ckpt") as [[|d]|] eqn:E;
      [contradiction| |].
    + rewrite (exists_some _ (File d)) by fs_side Hdir.
      rewrite (rename_file_ok _ _ d) by fs_side Hdir.
      split; [reflexivity|]. apply names_settled; fs_side Hdir.
    + rewrite exists_none by fs_side Hdir. split; [reflexivity|exact Hm].
  - destruct (m !! join traindir "checkpoint_prev1.ckpt") as [[|d]|] eqn:E;
      [contradiction| |].
    + rewrite (exists_some _ (File d)) by fs_side Hdir.
      rewrite (rename_file_ok _ _ d) by fs_side Hdir.
      split; [reflexivity|]. apply names_settled; fs_side Hdir.
    + rewrite exists_none by fs_side Hdir. split; [reflexivity|exact Hm].
  - destruct (m !! join traindir "checkpoint_prev2.ckpt") as [[|d]|] eqn:E;
      [contradiction| |].
    + rewrite (exists_some _ (File d)) by fs_side Hdir.
      rewrite (rename_file_ok _ _ d) by fs_side Hdir.
      split; [reflexivity|]. apply names_settled; fs_side Hdir.
    + rewrite exists_none by fs_side Hdir. split; [reflexivity|exact Hm].
Qed.

Lemma copy_settled (traindir : path) (current : data) (m : gmap path node) :
  settled traindir current m ->
  copy (get_checkpoint_path traindir) (get_checkpoint_prev_path traindir 0) m
    = (Py.Ok tt, <[get_checkpoint_prev_path traindir 0 := File current]> m)
  /\ settled traindir current
       (<[get_checkpoint_prev_path traindir 0 := File current]> m).
Proof.
  intros Hm.
  destruct (settled_names _ _ _ Hm) as (Hdir & Hc & Htmp & H0 & H1 & H2 & H3).
  ckpt_names traindir.
  rewrite (copy_file_ok _ _ current) by fs_side Hdir.
  split; [reflexivity|]. apply names_settled; fs_side Hdir.
Qed.

Lemma write_tmp_settled (traindir : path) (current state_dict : data)
    (m : gmap path node) :
  settled traindir current m ->
  write_file (checkpoint_tmp_path traindir) state_dict m
    = (Py.Ok tt, <[checkpoint_tmp_path traindir := File state_dict]> m)
  /\ settled traindir current
       (<[checkpoint_tmp_path traindir := File state_dict]> m).
Proof.
  intros Hm.
  destruct (settled_names _ _ _ Hm) as (Hdir & Hc & Htmp & H0 & H1 & H2 & H3).
  ckpt_names traindir.
  rewrite write_file_ok by fs_side Hdir.
  split; [reflexivity|]. apply names_settled; fs_side Hdir.
Qed.

Lemma rename_tmp_settled (traindir : path) (current state_dict : data)
    (m : gmap path node) :
  settled traindir current m ->
  rename (checkpoint_tmp_path traindir) (get_checkpoint_path traindir)
      (<[checkpoint_tmp_path traindir := File state_dict]> m)
    = (Py.Ok tt,
       <[get_checkpoint_path traindir := File state_dict]>
         (delete (checkpoint_tmp_path traindir) m))
  /\ settled traindir state_dict
       (<[get_checkpoint_path traindir := File state_dict]>
          (delete (checkpoint_tmp_path traindir) m)).
Proof.
  intros Hm.
  destruct (settled_names _ _ _ Hm) as (Hdir & Hc & Htmp & H0 & H1 & H2 & H3).
  ckpt_names traindir.
  rewrite (rename_file_ok _ _ state_dict) by fs_side Hdir.
  rewrite delete_insert_eq.
  split; [reflexivity|]. apply names_settled; fs_side Hdir.
Qed.

(** The file system a completed default save leaves. *)
Lemma save_default_settled (traindir : path) (current state_dict : data)
    (m : gmap path node) :
  settled traindir current m ->
  let m3 := rotated traindir 0 (rotated traindir 1 (rotated traindir 2 m)) in
  let m' := <[get_checkpoint_path traindir := File state_dict]>
              (delete (checkpoint_tmp_path traindir)
                 (<[get_checkpoint_prev_path traindir 0 := File current]> m3)) in
  save 0 traindir state_dict None m = (Py.Ok tt, m')
  /\ settled traindir state_dict m'.
Proof.
  intros Hm m3 m'.
  destruct (rotate_prev_settled traindir current 2 m ltac:(lia) Hm) as [E2 Hm1].
  destruct (rotate_prev_settled traindir current 1 _ ltac:(lia) Hm1) as [E1 Hm2].
  destruct (rotate_prev_settled traindir current 0 _ ltac:(lia) Hm2) as [E0 Hm3].
  destruct (copy_settled traindir current _ Hm3) as [Ec Hm4].
  destruct (write_tmp_settled traindir current state_dict _ Hm4) as [Ew _].
  destruct (rename_tmp_settled traindir current state_dict _ Hm4) as [Er Hm6].
  split; [|exact Hm6].
  unfold save. change (0 =? 0)%Z with true. cbv iota.
  unfold NUM_SHORTTERM_CHECKPOINTS_TO_KEEP.
  cbn [Nat.sub seq rev app for_each].
  unfold mbind, io_bind_inst, io_bind.
  rewrite E2, E1, E0. cbn [mret io_ret_inst io_ret].
  rewrite Ec. fold (checkpoint_tmp_path traindir). rewrite Ew, Er.
  reflexivity.
Qed.

Lemma load_from_settled (traindir : path) (current : data)
    (initial_checkpoint : option path) (m : gmap path node) :
  settled traindir current m ->
  path_to_load_from traindir initial_checkpoint m
    = inr (Some (get_checkpoint_path traindir)).
Proof.
  intros (_ & Hc & _). unfold path_to_load_from, path_exists.
  unfold get_checkpoint_path in *. rewrite lookup_node_join, Hc.
  rewrite bool_decide_eq_true_2 by eauto. reflexivity.
Qed.

(** ** What the rotation leaves under each name *)

Lemma rotated_lookup_ne (traindir : path) (i : nat) (m : gmap path node)
    (p : path) :
  get_checkpoint_prev_path traindir i <> p ->
  get_checkpoint_prev_path traindir (i + 1) <> p ->
  rotated traindir i m !! p = m !! p.
Proof.
  intros H1 H2. unfold rotated.
  destruct (m !! get_checkpoint_prev_path traindir i); [|reflexivity].
  rewrite lookup_insert_ne, lookup_delete_ne by assumption. reflexivity.
Qed.

Lemma rotated_lookup_src (traindir : path) (i : nat) (m : gmap path node) :
  get_checkpoint_prev_path traindir (i + 1) <> get_checkpoint_prev_path traindir i ->
  rotated traindir i m !! get_checkpoint_prev_path traindir i = None.
Proof.
  intros H. unfold rotated.
  destruct (m !! get_checkpoint_prev_path traindir i) eqn:E; [|exact E].
  rewrite lookup_insert_ne by exact H. apply lookup_delete_eq.
Qed.

Lemma rotated_lookup_dst (traindir : path) (i : nat) (m : gmap path node) :
  rotated traindir i m !! get_checkpoint_prev_path traindir (i + 1) =
    match m !! get_checkpoint_prev_path traindir i with
    | Some n => Some n
    | None => m !! get_checkpoint_prev_path traindir (i + 1)
    end.
Proof.
  unfold rotated.
  destruct (m !! get_checkpoint_prev_path traindir i); [|reflexivity].
  apply lookup_insert_eq.
Qed.

Lemma prev_path_neq (traindir : path) (i j : nat) :
  (i < 4)%nat -> (j < 4)%nat -> i <> j ->
  get_checkpoint_prev_path traindir i <> get_checkpoint_prev_path traindir j.
Proof.
  intros Hi Hj Hij H. apply join_inj in H.
  destruct i as [|[|[|[|i]]]]; [| | | |lia];
    (destruct j as [|[|[|[|j]]]]; [| | | |lia]);
    first [contradiction|cbv in H; discriminate H].
Qed.

Lemma rotation_lookup (traindir : path) (m : gmap path node) :
  let m3 := rotated traindir 0 (rotated traindir 1 (rotated traindir 2 m)) in
  m3 !! get_checkpoint_prev_path traindir 0 = None
  /\ m3 !! get_checkpoint_prev_path traindir 1
       = m !! get_checkpoint_prev_path traindir 0
  /\ m3 !! get_checkpoint_prev_path traindir 2
       = m !! get_checkpoint_prev_path traindir 1
  /\ m3 !! get_checkpoint_prev_path traindir 3
       = match m !! get_checkpoint_prev_path traindir 2 with
         | Some n => Some n
         | None => m !! get_checkpoint_prev_path traindir 3
         end
  /\ forall p,
       (forall i, (i < 4)%nat -> get_checkpoint_prev_path traindir i <> p) ->
       m3 !! p = m !! p.
Proof.
  assert (forall i j, (i < 4)%nat -> (j < 4)%nat -> i <> j ->
            get_checkpoint_prev_path traindir i
              <> get_checkpoint_prev_path traindir j) as Hneq
    by (intros i j; apply prev_path_neq).
  cbv zeta. split; [|split; [|split; [|split]]].
  - apply (rotated_lookup_src traindir 0). apply Hneq; simpl; lia.
  - rewrite (rotated_lookup_dst traindir 0).
    rewrite (rotated_lookup_ne traindir 1) by (apply Hneq; simpl; lia).
    rewrite (rotated_lookup_ne traindir 2) by (apply Hneq; simpl; lia).
    rewrite (rotated_lookup_src traindir 1) by (apply Hneq; simpl; lia).
    destruct (m !! get_checkpoint_prev_path traindir 0); reflexivity.
  - rewrite (rotated_lookup_ne traindir 0) by (apply Hneq; simpl; lia).
    rewrite (rotated_lookup_dst traindir 1).
    rewrite (rotated_lookup_ne traindir 2) by (apply Hneq; simpl; lia).
    rewrite (rotated_lookup_src traindir 2) by (apply Hneq; simpl; lia).
    destruct (m !! get_checkpoint_prev_path traindir 1); reflexivity.
  - rewrite (rotated_lookup_ne traindir 0) by (apply Hneq; simpl; lia).
    rewrite (rotated_lookup_ne traindir 1) by (apply Hneq; simpl; lia).
    apply (rotated_lookup_dst traindir 2).
  - intros p Hp.
    rewrite (rotated_lookup_ne traindir 0), (rotated_lookup_ne traindir 1),
      (rotated_lookup_ne traindir 2) by (apply Hp; simpl; lia).
    reflexivity.
Qed.

(** X7.  The rotation.  In a training directory that holds a checkpoint (and
    files only under the names the save uses), the default save completes:
    [checkpoint.ckpt] then holds the new state, [checkpoint_prev0.ckpt] the
    checkpoint the save found, and every rotated checkpoint has moved up by
    one, the oldest being dropped once there are four; the temporary file
    is gone, no other path has changed, the directory is ready for the next
    save, and a load picks [checkpoint.ckpt]. *)
Theorem default_save_rotates (traindir : path) (current state_dict : data)
    (m : gmap path node) :
  settled traindir current m ->
  exists m',
    save 0 traindir state_dict None m = (Py.Ok tt, m')
    /\ m' !! get_checkpoint_path traindir = Some (File state_dict)
    /\ m' !! get_checkpoint_prev_path traindir 0 = Some (File current)
    /\ m' !! get_checkpoint_prev_path traindir 1
         = m !! get_checkpoint_prev_path traindir 0
    /\ m' !! get_checkpoint_prev_path traindir 2
         = m !! get_checkpoint_prev_path traindir 1
    /\ m' !! get_checkpoint_prev_path traindir 3
         = match m !! get_checkpoint_prev_path traindir 2 with
           | Some n => Some n
           | None => m !! get_checkpoint_prev_path traindir 3
           end
    /\ m' !! checkpoint_tmp_path traindir = None
    /\ (forall p, p ∉ checkpoint_files traindir -> m' !! p = m !! p)
    /\ settled traindir state_dict m'
    /\ forall initial_checkpoint,
         path_to_load_from traindir initial_checkpoint m'
           = inr (Some (get_checkpoint_path traindir)).
Proof.
  intros Hm.
  destruct (save_default_settled traindir current state_dict m Hm)
    as [Hsave Hm'].
  eexists. split; [exact Hsave|].
  assert (forall p, p ∉ checkpoint_files traindir ->
            join traindir "checkpoint.ckpt" <> p
            /\ join traindir "checkpoint.ckpt.tmp" <> p
            /\ join traindir "checkpoint_prev0.ckpt" <> p
            /\ join traindir "checkpoint_prev1.ckpt" <> p
            /\ join traindir "checkpoint_prev2.ckpt" <> p
            /\ join traindir "checkpoint_prev3.ckpt" <> p) as Hout.
  { intros p Hp. unfold checkpoint_files in Hp. ckpt_names traindir.
    repeat split; intros <-; apply Hp; set_solver. }
  destruct (rotation_lookup traindir m) as (R0 & R1 & R2 & R3 & Rp).
  split; [|split; [|split; [|split; [|split; [|split; [|split; [|split]]]]]]].
  8: exact Hm'.
  8: intros init; exact (load_from_settled _ _ init _ Hm').
  7: intros p Hp; destruct (Hout p Hp) as (? & ? & ? & ? & ? & ?);
     rewrite <- (Rp p)
       by (intros i Hi; ckpt_names traindir;
           destruct i as [|[|[|[|i]]]]; [assumption..|lia]);
     clear Hp.
  all: clear Hsave Hm' Hout Hm Rp.
  all: ckpt_names traindir.
  all: ckpt_lookup; rewrite ?R0, ?R1, ?R2, ?R3; reflexivity.
Qed.

(** The fourth save of a run: the two rotated checkpoints move up and the
    checkpoint of the third epoch becomes [checkpoint_prev0.ckpt]. *)
Lemma default_save_rotates_witness :
  exists m',
    save 0 ["train"] (Blob "epoch4") None example_settled_fs = (Py.Ok tt, m')
    /\ m' !! ["train"; "checkpoint.ckpt"] = Some (File (Blob "epoch4"))
    /\ m' !! ["train"; "checkpoint_prev0.ckpt"] = Some (File (Blob "epoch3"))
    /\ m' !! ["train"; "checkpoint_prev1.ckpt"] = Some (File (Blob "epoch2"))
    /\ m' !! ["train"; "checkpoint_prev2.ckpt"] = Some (File (Blob "epoch1")).
Proof.
  assert (settled ["train"] (Blob "epoch3") example_settled_fs) as Hm.
  { apply names_settled; try reflexivity; vm_compute; discriminate. }
  destruct (default_save_rotates ["train"] (Blob "epoch3") (Blob "epoch4")
              example_settled_fs Hm)
    as (m' & Hs & Hc & H0 & H1 & H2 & _).
  exists m'. split; [exact Hs|]. split; [exact Hc|]. split; [exact H0|].
  split; [exact (eq_trans H1 eq_refl)|exact (eq_trans H2 eq_refl)].
Defined.

Lemma save_history_settled (traindir : path) (current trainhistory : data)
    (m : gmap path node) :
  settled traindir current m ->
  m !! join traindir "trainhistory.json" <> Some Dir ->
  m !! join traindir "trainhistory.json.tmp" <> Some Dir ->
  save_history 0 traindir trainhistory m
    = (Py.Ok tt,
       <[join traindir "trainhistory.json" := File trainhistory]>
         (delete (join traindir "trainhistory.json.tmp") m))
  /\ settled traindir current
       (<[join traindir "trainhistory.json" := File trainhistory]>
          (delete (join traindir "trainhistory.json.tmp") m)).
Proof.
  intros Hm Hjson Htmpjson.
  destruct (settled_names _ _ _ Hm) as (Hdir & Hc & Htmp & H0 & H1 & H2 & H3).
  unfold save_history. change (0 =? 0)%Z with true. cbv iota.
  unfold mbind, io_bind_inst, io_bind.
  rewrite write_file_ok by fs_side Hdir.
  rewrite (rename_file_ok _ _ trainhistory) by fs_side Hdir.
  rewrite delete_insert_eq.
  split; [reflexivity|]. apply names_settled; fs_side Hdir.
Qed.

(** X8.  The end of an epoch once a checkpoint exists.  In a training directory
    that holds a checkpoint (and no directory under the names that are
    written), the two calls that end an epoch complete: [trainhistory.json]
    holds the history, [checkpoint.ckpt] the new state and
    [checkpoint_prev0.ckpt] the checkpoint found, neither temporary file is
    left, and the directory is ready for the next epoch. *)
Theorem end_of_epoch_save_completes (traindir : path)
    (current trainhistory state_dict : data) (m : gmap path node) :
  settled traindir current m ->
  m !! join traindir "trainhistory.json" <> Some Dir ->
  m !! join traindir "trainhistory.json.tmp" <> Some Dir ->
  exists m',
    end_of_epoch_save 0 traindir trainhistory state_dict m = (Py.Ok tt, m')
    /\ m' !! join traindir "trainhistory.json" = Some (File trainhistory)
    /\ m' !! join traindir "trainhistory.json.tmp" = None
    /\ m' !! get_checkpoint_path traindir = Some (File state_dict)
    /\ m' !! get_checkpoint_prev_path traindir 0 = Some (File current)
    /\ m' !! checkpoint_tmp_path traindir = None
    /\ settled traindir state_dict m'.
Proof.
  intros Hm Hjson Htmpjson.
  destruct (save_history_settled traindir current trainhistory m Hm Hjson
              Htmpjson) as [Eh Hm1].
  destruct (save_default_settled traindir current state_dict _ Hm1)
    as [Es Hm2].
  eexists. split.
  { unfold end_of_epoch_save, mbind, io_bind_inst, io_bind.
    rewrite Eh. exact Es. }
  destruct (settled_names _ _ _ Hm) as (Hdir & Hc & Htmp & H0 & H1 & H2 & H3).
  destruct (rotation_lookup traindir
              (<[join traindir "trainhistory.json" := File trainhistory]>
                 (delete (join traindir "trainhistory.json.tmp") m)))
    as (R0 & R1 & R2 & R3 & Rp).
  assert (forall i, (i < 4)%nat ->
            get_checkpoint_prev_path traindir i
              <> join traindir "trainhistory.json"
            /\ get_checkpoint_prev_path traindir i
              <> join traindir "trainhistory.json.tmp"
            /\ get_checkpoint_prev_path traindir i
              <> join traindir "checkpoint.ckpt") as Hnames.
  { intros i Hi.
    destruct i as [|[|[|[|i]]]]; [| | | |lia];
      repeat split; intros H%join_inj; cbv in H; discriminate H. }
  split; [|split; [|split; [|split; [|split]]]].
  6: exact Hm2.
  all: clear Eh Es Hm1 Hm2 Hm.
  - ckpt_names traindir. ckpt_lookup.
    rewrite Rp by (intros i Hi; apply (Hnames i Hi)).
    apply lookup_insert_eq.
  - ckpt_names traindir. ckpt_lookup.
    rewrite Rp by (intros i Hi; apply (Hnames i Hi)).
    ckpt_lookup. reflexivity.
  - ckpt_names traindir. ckpt_lookup. reflexivity.
  - ckpt_names traindir. ckpt_lookup. reflexivity.
  - ckpt_names traindir. ckpt_lookup. reflexivity.
Qed.

Lemma end_of_epoch_save_completes_witness :
  exists m',
    end_of_epoch_save 0 ["train"] (Blob "history") (Blob "epoch4")
      example_settled_fs = (Py.Ok tt, m')
    /\ m' !! ["train"; "trainhistory.json"] = Some (File (Blob "history"))
    /\ m' !! ["train"; "checkpoint.ckpt"] = Some (File (Blob "epoch4")).
Proof.
  assert (settled ["train"] (Blob "epoch3") example_settled_fs) as Hm.
  { apply names_settled; try reflexivity; vm_compute; discriminate. }
  destruct (end_of_epoch_save_completes ["train"] (Blob "epoch3")
              (Blob "history") (Blob "epoch4") example_settled_fs Hm)
    as (m' & Hs & Hh & _ & Hc & _);
    [vm_compute; discriminate|vm_compute; discriminate|].
  exists m'. split; [exact Hs|]. split; [exact Hh|exact Hc].
Defined.

Lemma save_is_run_ops (traindir : path) (state_dict : data)
    (m : gmap path node) :
  save 0 traindir state_dict None m = run_ops (save_ops traindir state_dict) m.
Proof.
  unfold save, save_ops. change (0 =? 0)%Z with true. cbv iota.
  unfold NUM_SHORTTERM_CHECKPOINTS_TO_KEEP.
  cbn [Nat.sub seq rev app for_each map run_ops].
  fold (checkpoint_tmp_path traindir).
  unfold mbind, io_bind_inst, io_bind.
  destruct (rotate_prev traindir 2 m) as [[[]|e] m1]; [|reflexivity].
  destruct (rotate_prev traindir 1 m1) as [[[]|e] m2]; [|reflexivity].
  destruct (rotate_prev traindir 0 m2) as [[[]|e] m3]; [|reflexivity].
  cbn [mret io_ret_inst io_ret].
  destruct (copy _ _ m3) as [[[]|e] m4]; [|reflexivity].
  destruct (write_file _ _ m4) as [[[]|e] m5]; [|reflexivity].
  destruct (rename _ _ m5) as [[[]|e] m6]; reflexivity.
Qed.

(** X9.  An interrupted save.  The default save is the sequence of its six file
    operations (three turns of the rotation, the copy, the write of the
    temporary file, the rename).  In a training directory that holds a
    checkpoint, whichever number of them a killed process has completed,
    [checkpoint.ckpt] is there and whole: it holds the checkpoint the save
    found until the final rename, and the new state after it; so the next
    start loads from it and never meets the rotated-checkpoint-without-
    checkpoint exception. *)
Theorem interrupted_save_keeps_checkpoint (traindir : path)
    (current state_dict : data) (m : gmap path node) (k : nat) :
  settled traindir current m ->
  save 0 traindir state_dict None m = run_ops (save_ops traindir state_dict) m
  /\ exists m_k,
       run_ops (take k (save_ops traindir state_dict)) m = (Py.Ok tt, m_k)
       /\ m_k !! get_checkpoint_path traindir
            = Some (File (if (k <? 6)%nat then current else state_dict))
       /\ forall initial_checkpoint,
            path_to_load_from traindir initial_checkpoint m_k
              = inr (Some (get_checkpoint_path traindir)).
Proof.
  intros Hm. split; [apply save_is_run_ops|].
  destruct (rotate_prev_settled traindir current 2 m ltac:(lia) Hm) as [E2 Hm1].
  destruct (rotate_prev_settled traindir current 1 _ ltac:(lia) Hm1) as [E1 Hm2].
  destruct (rotate_prev_settled traindir current 0 _ ltac:(lia) Hm2) as [E0 Hm3].
  destruct (copy_settled traindir current _ Hm3) as [Ec Hm4].
  destruct (write_tmp_settled traindir current state_dict _ Hm4) as [Ew Hm5].
  destruct (rename_tmp_settled traindir current state_dict _ Hm4) as [Er Hm6].
  unfold save_ops, NUM_SHORTTERM_CHECKPOINTS_TO_KEEP.
  cbn [Nat.sub seq rev app map].
  destruct k as [|[|[|[|[|[|k]]]]]];
    cbn [take run_ops]; rewrite ?take_nil; cbn [run_ops];
    unfold mbind, io_bind_inst, io_bind;
    rewrite ?E2, ?E1, ?E0, ?Ec, ?Ew, ?Er; cbn [mret io_ret_inst io_ret];
    (eexists; split; [reflexivity|]).
  - split; [exact (proj1 (proj2 Hm))|].
    intros init. exact (load_from_settled _ _ init _ Hm).
  - split; [exact (proj1 (proj2 Hm1))|].
    intros init. exact (load_from_settled _ _ init _ Hm1).
  - split; [exact (proj1 (proj2 Hm2))|].
    intros init. exact (load_from_settled _ _ init _ Hm2).
  - split; [exact (proj1 (proj2 Hm3))|].
    intros init. exact (load_from_settled _ _ init _ Hm3).
  - split; [exact (proj1 (proj2 Hm4))|].
    intros init. exact (load_from_settled _ _ init _ Hm4).
  - split; [exact (proj1 (proj2 Hm5))|].
    intros init. exact (load_from_settled _ _ init _ Hm5).
  - split; [exact (proj1 (proj2 Hm6))|].
    intros init. exact (load_from_settled _ _ init _ Hm6).
Qed.

(** A save killed after the copy and before the temporary file is
    written: the checkpoint of the third epoch is still the one loaded. *)
Lemma interrupted_save_keeps_checkpoint_witness :
  exists m_k,
    run_ops (take 4 (save_ops ["train"] (Blob "epoch4"))) example_settled_fs
      = (Py.Ok tt, m_k)
    /\ m_k !! ["train"; "checkpoint.ckpt"] = Some (File (Blob "epoch3")).
Proof.
  assert (settled ["train"] (Blob "epoch3") example_settled_fs) as Hm.
  { apply names_settled; try reflexivity; vm_compute; discriminate. }
  destruct (interrupted_save_keeps_checkpoint ["train"] (Blob "epoch3")
              (Blob "epoch4") example_settled_fs 4 Hm)
    as (_ & m_k & Hrun & Hc & _).
  exists m_k. split; [exact Hrun|exact Hc].
Defined.



(** X11.  The choice of the file to load.  [load] reads [checkpoint.ckpt]
    whenever it exists.  Otherwise a rotated checkpoint alone is an error:
    with any [checkpoint_prev{i}.ckpt] present the load raises, whether or
    not an initial checkpoint is given, rather than resuming from it or
    starting afresh.  Without any, it reads the initial checkpoint when one
    is given (raising when that path does not exist) and starts a new model
    when none is.  So the path read, if any, exists, and is never a rotated
    checkpoint of the training directory unless the caller names one. *)
Theorem load_path_choice (traindir : path) (initial_checkpoint : option path)
    (m : gmap path node) :
  let ckpt := get_checkpoint_path traindir in
  let prev_exists i := path_exists (get_checkpoint_prev_path traindir i) m in
  match path_to_load_from traindir initial_checkpoint m with
  | inr (Some p) =>
      path_exists p m = true
      /\ (p = ckpt
          \/ (initial_checkpoint = Some p /\ path_exists ckpt m = false
              /\ forall i, (i < 4)%nat -> prev_exists i = false))
  | inr None =>
      initial_checkpoint = None /\ path_exists ckpt m = false
      /\ forall i, (i < 4)%nat -> prev_exists i = false
  | inl (PrevWithoutCheckpoint i) =>
      (i < 4)%nat /\ path_exists ckpt m = false /\ prev_exists i = true
      /\ forall j, (j < i)%nat -> prev_exists j = false
  | inl InvalidInitialCheckpoint =>
      path_exists ckpt m = false
      /\ (forall i, (i < 4)%nat -> prev_exists i = false)
      /\ exists p, initial_checkpoint = Some p /\ path_exists p m = false
  end
  /\ (path_exists ckpt m = false ->
      (exists i, (i < 4)%nat /\ prev_exists i = true) ->
      exists i, path_to_load_from traindir initial_checkpoint m
                  = inl (PrevWithoutCheckpoint i)).
Proof.
  intros ckpt prev_exists. unfold path_to_load_from.
  fold ckpt. unfold NUM_SHORTTERM_CHECKPOINTS_TO_KEEP. cbn [seq find].
  fold (prev_exists 0%nat) (prev_exists 1%nat) (prev_exists 2%nat)
       (prev_exists 3%nat).
  assert (forall P : nat -> Prop, P 0%nat -> P 1%nat -> P 2%nat -> P 3%nat ->
            forall i, (i < 4)%nat -> P i) as Hall.
  { intros P P0 P1 P2 P3 i Hi.
    destruct i as [|[|[|[|i]]]]; [assumption..|lia]. }
  destruct (path_exists ckpt m) eqn:Ec; cbn [negb].
  { split; [split; [exact Ec|left; reflexivity]|discriminate]. }
  destruct (prev_exists 0%nat) eqn:E0.
  { split; [|eauto]. split; [lia|]. split; [reflexivity|].
    split; [exact E0|]. intros j Hj. lia. }
  destruct (prev_exists 1%nat) eqn:E1.
  { split; [|eauto]. split; [lia|]. split; [reflexivity|].
    split; [exact E1|]. intros j Hj.
    destruct j as [|j]; [exact E0|lia]. }
  destruct (prev_exists 2%nat) eqn:E2.
  { split; [|eauto]. split; [lia|]. split; [reflexivity|].
    split; [exact E2|]. intros j Hj.
    destruct j as [|[|j]]; [exact E0|exact E1|lia]. }
  destruct (prev_exists 3%nat) eqn:E3.
  { split; [|eauto]. split; [lia|]. split; [reflexivity|].
    split; [exact E3|]. intros j Hj.
    destruct j as [|[|[|j]]]; [exact E0|exact E1|exact E2|lia]. }
  assert (forall i, (i < 4)%nat -> prev_exists i = false) as Hnone
    by (apply Hall; assumption).
  split.
  - destruct initial_checkpoint as [p|].
    + destruct (path_exists p m) eqn:Ep.
      * split; [exact Ep|]. right. repeat split; assumption.
      * split; [reflexivity|]. split; [exact Hnone|]. eauto.
    + repeat split; assumption.
  - intros _ (i & Hi & Hex). rewrite (Hnone i Hi) in Hex. discriminate.
Qed.

End CheckpointCycle.

(* ===================================================================== *)
(** * Loading a checkpoint whose names have no prefix *)
(* ===================================================================== *)

Module LoadKeys.

Import Checkpoint.

(** [model_state_dict[key] = state_dict["model"][old_key]] over the
    entries, when no key is rewritten. *)
Definition copy_entries {T} (entries : list (string * T))
    (model_state_dict : gmap string T) : gmap string T :=
  foldl (fun m e => <[e.1 := e.2]> m) model_state_dict entries.

(** The parameters of a small model saved without a wrapper. *)
Definition example_entries : list (string * Z) :=
  [("conv0.weight", 1%Z); ("conv0.bias", 2%Z); ("linear.weight", 3%Z)].

Lemma copy_entries_lookup {T} (entries : list (string * T))
    (acc : gmap string T) (key : string) (tensor : T) :
  NoDup (entries.*1) ->
  copy_entries entries acc !! key = Some tensor <->
    (key, tensor) ∈ entries
    \/ ((key ∉ entries.*1) /\ acc !! key = Some tensor).
Proof.
  revert acc. induction entries as [|[k0 t0] rest IH]; intros acc Hnd.
  - simpl. split; [intros H; right; split; [apply not_elem_of_nil|exact H]|].
    intros [H|[_ H]]; [apply elem_of_nil in H; contradiction|exact H].
  - apply NoDup_cons in Hnd as [Hk0 Hnd]. simpl in Hk0.
    unfold copy_entries in *. cbn [foldl fst snd].
    rewrite (IH _ Hnd). cbn [fmap list_fmap fst].
    rewrite elem_of_cons, not_elem_of_cons.
    destruct (decide (key = k0)) as [->|Hne].
    + rewrite lookup_insert_eq. split.
      * intros [Hin|[_ [= <-]]]; [|left; left; reflexivity].
        exfalso. apply Hk0. apply (list_elem_of_fmap_2 fst _ _ Hin).
      * intros [[[= <-]|Hin]|[[Hc _] _]]; [|left; exact Hin|contradiction].
        right. split; [exact Hk0|reflexivity].
    + rewrite lookup_insert_ne by congruence. split.
      * intros [Hin|[Hnot Hacc]]; [left; right; exact Hin|].
        right. repeat split; assumption.
      * intros [[[= -> _]|Hin]|[[_ Hnot] Hacc]];
          [contradiction|left; exact Hin|right; split; assumption].
Qed.

(** X12.  Loading without prefixes.  For a saved model none of whose parameter
    names starts with ["module."], the key loop of [load] ends (each name
    costs one test of the loop condition) and the state dict handed to the
    model holds exactly the saved entries, each under its own name. *)
Theorem plain_checkpoint_loads_every_key {T} (fuel : nat)
    (entries : list (string * T)) :
  Forall (fun e => String.prefix "module." e.1 = false) entries ->
  NoDup (entries.*1) ->
  exists model_state_dict,
    build_model_state_dict (S fuel) entries ∅ = Some model_state_dict
    /\ forall key tensor,
         model_state_dict !! key = Some tensor <-> (key, tensor) ∈ entries.
Proof.
  intros Hplain Hnd. exists (copy_entries entries ∅).
  split; [exact (build_model_state_dict_plain fuel entries ∅ Hplain)|].
  intros key tensor. rewrite (copy_entries_lookup entries ∅ key tensor Hnd).
  rewrite lookup_empty. split; [|left; assumption].
  intros [H|[_ H]]; [exact H|discriminate].
Qed.

Lemma plain_checkpoint_loads_every_key_witness :
  exists model_state_dict,
    build_model_state_dict 1 example_entries ∅ = Some model_state_dict
    /\ model_state_dict !! "conv0.bias" = Some 2%Z.
Proof.
  assert (Forall (fun e : string * Z => String.prefix "module." e.1 = false)
            example_entries) as Hplain
    by (repeat apply Forall_cons_2; [reflexivity..|apply Forall_nil_2]).
  assert (NoDup (example_entries.*1)) as Hnd.
  { cbn. repeat (apply NoDup_cons_2;
                 [rewrite ?elem_of_cons, elem_of_nil; intuition discriminate|]).
    apply NoDup_nil_2. }
  destruct (plain_checkpoint_loads_every_key 0 example_entries Hplain Hnd)
    as (msd & Hbuild & Hkeys).
  exists msd. split; [exact Hbuild|].
  apply Hkeys. apply list_elem_of_further, list_elem_of_here.
Defined.

End LoadKeys.

(* ===================================================================== *)
(** * The running metrics over the batches of a run *)
(* ===================================================================== *)

Module MetricsFlow.

Import Metrics.

Local Open Scope Q_scope.

(** A metric whose pair the flush resets: the [elif] branch of
    [log_metrics]. *)
Definition is_batch_metric (metric : string) : bool :=
  negb (Py.endswith metric "_sum") && Py.endswith metric "_batch".

(** The entry of [d] under [k] after the decay loop over [metric_sums]. *)
Definition decayed (decay : Q) (metric_sums d : gmap string Q) (k : string)
    : option Q :=
  if Py.ne decay 1 then
    match metric_sums !! k with
    | Some _ => if Py.endswith k "_sum" then Some (dd_get d k * decay)
                else d !! k
    | None => d !! k
    end
  else d !! k.

(** [accumulate_metrics] over the batches of a pass, in order. *)
Definition accumulate_all (metric_sums metric_weights : gmap string Q)
    (batches : list (gmap string Q)) (batch_size : Z) (decay : Q)
    : gmap string Q * gmap string Q :=
  foldl (fun sw metrics => accumulate_metrics sw.1 sw.2 metrics batch_size decay)
        (metric_sums, metric_weights) batches.

Definition print_train_loss_every_batches : Z := 100.

(** The metrics lines of the training loop for one batch (lines 647-656):
    the batch is counted and accumulated with decay 0.999, and on every
    100th batch of the epoch the running metrics are flushed; the record
    goes to the stream as [log_metrics] has it.  [batch_count_this_epoch]
    is the count before this batch. *)
Definition train_batch_metrics (batch_count_this_epoch : Z)
    (metric_sums metric_weights metrics : gmap string Q) (timediff : Q)
    (batch_size : Z) : Py.result (gmap string Q * gmap string Q) :=
  let batch_count_this_epoch := (batch_count_this_epoch + 1)%Z in
  let sw := accumulate_metrics metric_sums metric_weights metrics batch_size
              0.999 in
  if (batch_count_this_epoch mod print_train_loss_every_batches =? 0)%Z then
    acc ← metrics_to_print sw.1 sw.2
            (<["time_since_last_print" := timediff]> metrics);
    Py.Ok (acc_sums acc, acc_weights acc)
  else Py.Ok sw.

(** The batches of an epoch, each with the time difference its flush would
    report. *)
Fixpoint train_batches (batch_count_this_epoch : Z)
    (metric_sums metric_weights : gmap string Q)
    (batches : list (gmap string Q * Q)) (batch_size : Z)
    : Py.result (gmap string Q * gmap string Q) :=
  match batches with
  | [] => Py.Ok (metric_sums, metric_weights)
  | (metrics, timediff) :: rest =>
      sw ← train_batch_metrics batch_count_this_epoch metric_sums
             metric_weights metrics timediff batch_size;
      train_batches (batch_count_this_epoch + 1)%Z sw.1 sw.2 rest batch_size
  end.

(** The values the batches report for [k], oldest first. *)
Definition contributions (k : string) (batches : list (gmap string Q))
    : list Q :=
  omap (fun metrics : gmap string Q => metrics !! k) batches.

Definition total (values : list Q) : Q := foldr Qplus 0 values.

Definition weights_nonneg (weights : gmap string Q) : Prop :=
  forall k, 0 <= dd_get weights k.

(** The per-sample values of a metric lie in [[lo, hi]]: the sum is
    between [lo] and [hi] times the weight. *)
Definition mean_within (lo hi : Q) (metric_sums metric_weights : gmap string Q)
    (k : string) : Prop :=
  lo * dd_get metric_weights k <= dd_get metric_sums k
  /\ dd_get metric_sums k <= hi * dd_get metric_weights k
  /\ 0 <= dd_get metric_weights k.

(** The running metrics hold only metrics the batches report, with
    non-negative weights. *)
Definition metrics_inv (K : gset string)
    (metric_sums metric_weights : gmap string Q) : Prop :=
  dom metric_sums ⊆ K /\ weights_nonneg metric_weights.

Lemma accumulate_lookup (metric_sums metric_weights metrics : gmap string Q)
    (batch_size : Z) (decay : Q) (k : string) :
  let r := accumulate_metrics metric_sums metric_weights metrics batch_size decay in
  r.1 !! k = match metrics !! k with
             | Some v => Some (default 0 (decayed decay metric_sums metric_sums k) + v)
             | None => decayed decay metric_sums metric_sums k
             end
  /\ r.2 !! k = match metrics !! k with
                | Some _ =>
                    Some (default 0 (decayed decay metric_sums metric_weights k)
                          + (if Py.endswith k "_batch" then 1
                             else inject_Z batch_size))
                | None => decayed decay metric_sums metric_weights k
                end.
Proof.
  intros r. unfold r, accumulate_metrics, decayed.
  destruct (Py.ne decay 1).
  - pose proof (decay_fold_lookup decay metric_sums
                  (metric_sums, metric_weights) k) as [D1 D2].
    simpl in D1, D2.
    set (d := map_fold (fun metric _ sw => decay_one decay metric sw)
                (metric_sums, metric_weights) metric_sums) in *.
    pose proof (add_fold_lookup batch_size metrics d k) as [A1 A2].
    simpl in A1, A2. rewrite A1, A2.
    change (dd_get d.1 k) with (default 0 (d.1 !! k)).
    change (dd_get d.2 k) with (default 0 (d.2 !! k)).
    rewrite D1, D2. split; reflexivity.
  - pose proof (add_fold_lookup batch_size metrics
                  (metric_sums, metric_weights) k) as [A1 A2].
    simpl in A1, A2. rewrite A1, A2. split; reflexivity.
Qed.

Lemma accumulate_all_cons (metric_sums metric_weights metrics : gmap string Q)
    (rest : list (gmap string Q)) (batch_size : Z) (decay : Q) :
  accumulate_all metric_sums metric_weights (metrics :: rest) batch_size decay =
    accumulate_all
      (accumulate_metrics metric_sums metric_weights metrics batch_size decay).1
      (accumulate_metrics metric_sums metric_weights metrics batch_size decay).2
      rest batch_size decay.
Proof.
  unfold accumulate_all. simpl.
  destruct (accumulate_metrics _ _ _ _ _). reflexivity.
Qed.

Lemma accumulate_mean_within (lo hi : Q)
    (metric_sums metric_weights metrics : gmap string Q) (batch_size : Z)
    (decay : Q) (k : string) :
  Py.endswith k "_batch" = false ->
  (0 <= batch_size)%Z ->
  0 <= decay ->
  (forall v, metrics !! k = Some v ->
     lo * inject_Z batch_size <= v <= hi * inject_Z batch_size) ->
  mean_within lo hi metric_sums metric_weights k ->
  let r := accumulate_metrics metric_sums metric_weights metrics batch_size decay in
  mean_within lo hi r.1 r.2 k.
Proof.
  intros Hk Hbs Hdecay Hv (Hlo & Hhi & Hw) r.
  pose proof (accumulate_lookup metric_sums metric_weights metrics batch_size
                decay k) as [H1 H2].
  fold r in H1, H2. rewrite Hk in H2.
  assert (0 <= inject_Z batch_size) as Hb.
  { change 0 with (inject_Z 0). rewrite <- Zle_Qle. exact Hbs. }
  revert Hlo Hhi Hw. unfold mean_within, dd_get. rewrite H1, H2.
  clear H1 H2. unfold decayed, dd_get.
  assert (forall v, metrics !! k = Some v ->
            lo * inject_Z batch_size <= v /\ v <= hi * inject_Z batch_size)
    as Hv' by exact Hv.
  destruct (metrics !! k) as [v|];
    [destruct (Hv' v eq_refl) as [Hv1 Hv2]|];
    destruct (Py.ne decay 1);
    destruct (metric_sums !! k) as [s|];
    destruct (metric_weights !! k) as [w|];
    destruct (Py.endswith k "_sum");
    simpl; intros Hlo Hhi Hw;
    pose proof (Qmult_le_compat_r _ _ decay Hlo Hdecay) as Hlo';
    pose proof (Qmult_le_compat_r _ _ decay Hhi Hdecay) as Hhi';
    pose proof (Qmult_le_0_compat _ _ Hw Hdecay) as Hw';
    repeat split; lra.
Qed.

Lemma mean_of_within (lo hi : Q) (metric_sums metric_weights : gmap string Q)
    (k : string) :
  mean_within lo hi metric_sums metric_weights k ->
  0 < dd_get metric_weights k ->
  lo <= dd_get metric_sums k / dd_get metric_weights k <= hi.
Proof.
  intros (Hlo & Hhi & _) Hw. split.
  - apply Qle_shift_div_l; assumption.
  - apply Qle_shift_div_r; assumption.
Qed.

(** X13.  The running mean is an average.  For a metric that is not a ["_batch"]
    metric, with a non-negative batch size and decay: when every batch that
    reports the metric reports a per-sample value in [[lo, hi]] (a sum
    between [lo] and [hi] times the batch size), the running sum stays
    between [lo] and [hi] times the running weight over any number of
    batches, from the empty state or from any state where it was so; hence
    the mean a flush reports lies in [[lo, hi]] as soon as the weight is
    positive, whatever the decay.  A constant per-sample value is reported
    exactly. *)
Theorem running_mean_within_batch_extremes (lo hi : Q)
    (metric_sums metric_weights : gmap string Q)
    (batches : list (gmap string Q)) (batch_size : Z) (decay : Q)
    (k : string) :
  Py.endswith k "_batch" = false ->
  (0 <= batch_size)%Z ->
  0 <= decay ->
  (forall metrics v, metrics ∈ batches -> metrics !! k = Some v ->
     lo * inject_Z batch_size <= v <= hi * inject_Z batch_size) ->
  mean_within lo hi ∅ ∅ k
  /\ (mean_within lo hi metric_sums metric_weights k ->
      let r := accumulate_all metric_sums metric_weights batches batch_size
                 decay in
      mean_within lo hi r.1 r.2 k
      /\ (0 < dd_get r.2 k ->
          Py.div (dd_get r.1 k) (dd_get r.2 k)
            = Py.Ok (dd_get r.1 k / dd_get r.2 k)
          /\ lo <= dd_get r.1 k / dd_get r.2 k <= hi)).
Proof.
  intros Hk Hbs Hdecay Hv. split.
  { unfold mean_within, dd_get. rewrite !lookup_empty. simpl.
    repeat split; lra. }
  revert metric_sums metric_weights.
  induction batches as [|metrics rest IH]; intros metric_sums metric_weights Hin r.
  - unfold r, accumulate_all. simpl. split; [exact Hin|].
    intros Hw. split; [|apply mean_of_within; assumption].
    apply Py.div_nonzero. intros E. rewrite E in Hw. lra.
  - unfold r. rewrite accumulate_all_cons. apply IH.
    + intros m v Hm. apply Hv. apply elem_of_cons. right. exact Hm.
    + apply accumulate_mean_within; try assumption.
      intros v. apply Hv. apply elem_of_cons. left. reflexivity.
Qed.

(** Three batches of 8 samples with per-sample losses 2, 3 and 4 and decay
    0.999: the reported mean lies between 2 and 4. *)
Lemma running_mean_within_batch_extremes_witness :
  let r := accumulate_all ∅ ∅
             [{["loss_sum" := 16]}; {["loss_sum" := 24]}; {["loss_sum" := 32]}]
             8 0.999 in
  2 <= dd_get r.1 "loss_sum" / dd_get r.2 "loss_sum" <= 4.
Proof.
  intros r.
  assert (0 <= 0.999) as Hdecay by (vm_compute; discriminate).
  destruct (running_mean_within_batch_extremes 2 4 ∅ ∅
              [{["loss_sum" := 16]}; {["loss_sum" := 24]}; {["loss_sum" := 32]}]
              8 0.999 "loss_sum" eq_refl ltac:(lia) Hdecay) as [Hempty Hrun].
  - intros metrics v Hm Hv.
    repeat (apply elem_of_cons in Hm as [->|Hm]);
      [| | |apply elem_of_nil in Hm; contradiction];
      apply lookup_singleton_Some in Hv as [_ <-];
      split; vm_compute; discriminate.
  - destruct (Hrun Hempty) as [_ Hmean].
    apply Hmean. vm_compute. reflexivity.
Defined.

Lemma undecayed_lookup (metric_sums metric_weights metrics : gmap string Q)
    (batch_size : Z) (k : string) :
  let r := accumulate_metrics metric_sums metric_weights metrics batch_size 1 in
  dd_get r.1 k = match metrics !! k with
                 | Some v => dd_get metric_sums k + v
                 | None => dd_get metric_sums k
                 end
  /\ dd_get r.2 k = match metrics !! k with
                    | Some _ => dd_get metric_weights k
                                + (if Py.endswith k "_batch" then 1
                                   else inject_Z batch_size)
                    | None => dd_get metric_weights k
                    end.
Proof.
  intros r.
  pose proof (accumulate_lookup metric_sums metric_weights metrics batch_size
                1 k) as [H1 H2].
  fold r in H1, H2. unfold dd_get at 1 4. rewrite H1, H2.
  unfold decayed. change (Py.ne 1 1) with false. cbv iota.
  destruct (metrics !! k); split; reflexivity.
Qed.

(** X14.  A pass without decay.  With decay 1.0, as in the validation pass, the
    pair of any metric after the batches is its pair before them plus the
    plain total of the values the batches reported and their number times
    the batch size (times 1 for a ["_batch"] metric): from the empty state
    the mean is the total over the number of samples. *)
Theorem undecayed_pass_totals (metric_sums metric_weights : gmap string Q)
    (batches : list (gmap string Q)) (batch_size : Z) (k : string) :
  let r := accumulate_all metric_sums metric_weights batches batch_size 1 in
  let values := contributions k batches in
  dd_get r.1 k == dd_get metric_sums k + total values
  /\ dd_get r.2 k ==
       dd_get metric_weights k
       + inject_Z (Z.of_nat (length values))
         * (if Py.endswith k "_batch" then 1 else inject_Z batch_size).
Proof.
  revert metric_sums metric_weights.
  induction batches as [|metrics rest IH]; intros metric_sums metric_weights.
  - simpl. split; ring.
  - cbv zeta. rewrite accumulate_all_cons.
    destruct (IH (accumulate_metrics metric_sums metric_weights metrics
                    batch_size 1).1
                 (accumulate_metrics metric_sums metric_weights metrics
                    batch_size 1).2) as [IH1 IH2].
    cbv zeta in IH1, IH2. rewrite IH1, IH2.
    destruct (undecayed_lookup metric_sums metric_weights metrics batch_size k)
      as [-> ->].
    unfold contributions. cbn [omap list_omap].
    fold (contributions k rest).
    destruct (metrics !! k) as [v|]; cbn [total foldr length].
    + fold (total (contributions k rest)).
      rewrite Nat2Z.inj_succ, <- Z.add_1_r, inject_Z_plus.
      split; ring.
    + split; reflexivity.
Qed.

(** ** The flush *)

Lemma print_fold_spec (keys : gmap string Q) (init : flush_acc) :
  match map_fold (fun metric _ r => acc ← r; print_one metric acc)
                 (Py.Ok init) keys with
  | Py.Ok acc =>
      weights_nonzero keys (acc_weights init)
      /\ forall k,
           acc_sums acc !! k =
             match keys !! k with
             | Some _ => if is_batch_metric k then Some 0
                         else acc_sums init !! k
             | None => acc_sums init !! k
             end
           /\ acc_weights acc !! k =
                match keys !! k with
                | Some _ => if is_batch_metric k then Some 0
                            else acc_weights init !! k
                | None => acc_weights init !! k
                end
  | Py.Raise e =>
      e = Py.ZeroDivisionError
      /\ exists k, is_Some (keys !! k)
           /\ Py.endswith k "_sum" || Py.endswith k "_batch" = true
           /\ dd_get (acc_weights init) k == 0
  end.
Proof.
  apply (map_fold_weak_ind
           (fun r (m : gmap string Q) =>
              match r with
              | Py.Ok acc =>
                  weights_nonzero m (acc_weights init)
                  /\ forall k,
                       acc_sums acc !! k =
                         match m !! k with
                         | Some _ => if is_batch_metric k then Some 0
                                     else acc_sums init !! k
                         | None => acc_sums init !! k
                         end
                       /\ acc_weights acc !! k =
                            match m !! k with
                            | Some _ => if is_batch_metric k then Some 0
                                        else acc_weights init !! k
                            | None => acc_weights init !! k
                            end
              | Py.Raise e =>
                  e = Py.ZeroDivisionError
                  /\ exists k, is_Some (m !! k)
                       /\ Py.endswith k "_sum" || Py.endswith k "_batch" = true
                       /\ dd_get (acc_weights init) k == 0
              end)).
  - split.
    + intros k [v Hk]. rewrite lookup_empty in Hk. discriminate.
    + intros k. rewrite lookup_empty. split; reflexivity.
  - intros i x m r Hi IH.
    destruct r as [acc|e]; cbn [mbind result_bind Py.bind].
    2:{ destruct IH as (-> & k & [v Hk] & Hsuf & Hzero).
        split; [reflexivity|]. exists k. split; [|split; assumption].
        destruct (decide (k = i)) as [->|Hne]; [congruence|].
        rewrite lookup_insert_ne by congruence. eauto. }
    destruct IH as [Hnz Hlook].
    pose proof (Hlook i) as [Hsi Hwi]. rewrite Hi in Hsi, Hwi.
    assert (forall k, k <> i ->
              is_Some (<[i:=x]> m !! k) -> is_Some (m !! k)) as Hother.
    { intros k Hne. rewrite lookup_insert_ne by congruence. auto. }
    assert (dd_get (acc_weights acc) i = dd_get (acc_weights init) i) as Hwi'
      by (unfold dd_get; rewrite Hwi; reflexivity).
    unfold print_one, Py.div. rewrite Hwi'.
    unfold is_batch_metric in *.
    destruct (Py.endswith i "_sum") eqn:Esum;
      [|destruct (Py.endswith i "_batch") eqn:Ebatch];
      try (destruct (Qeq_bool (dd_get (acc_weights init) i) 0) eqn:Ez;
           cbn [mbind result_bind Py.bind];
           [apply Qeq_bool_iff in Ez; split; [reflexivity|];
            exists i; rewrite lookup_insert_eq, ?Esum, ?Ebatch;
            split; [eauto|split; [reflexivity|exact Ez]]
           |apply Qeq_bool_neq in Ez]);
      cbn [mbind result_bind Py.bind acc_sums acc_weights].
    + split.
      * intros k Hk Hsuf. destruct (decide (k = i)) as [->|Hne];
          [exact Ez|exact (Hnz k (Hother k Hne Hk) Hsuf)].
      * intros k. destruct (decide (k = i)) as [->|Hne].
        -- rewrite lookup_insert_eq, Esum. simpl. split; assumption.
        -- rewrite lookup_insert_ne by congruence. apply Hlook.
    + split.
      * intros k Hk Hsuf. destruct (decide (k = i)) as [->|Hne];
          [exact Ez|exact (Hnz k (Hother k Hne Hk) Hsuf)].
      * intros k. destruct (decide (k = i)) as [->|Hne].
        -- rewrite !lookup_insert_eq, Esum, Ebatch. simpl. split; reflexivity.
        -- rewrite !lookup_insert_ne by congruence. apply Hlook.
    + split.
      * intros k Hk Hsuf. destruct (decide (k = i)) as [->|Hne];
          [rewrite Esum, Ebatch in Hsuf; discriminate
          |exact (Hnz k (Hother k Hne Hk) Hsuf)].
      * intros k. destruct (decide (k = i)) as [->|Hne].
        -- rewrite lookup_insert_eq, Esum, Ebatch. simpl. split; assumption.
        -- rewrite lookup_insert_ne by congruence. apply Hlook.
Qed.

Lemma metrics_to_print_spec (metric_sums metric_weights metrics : gmap string Q) :
  match metrics_to_print metric_sums metric_weights metrics with
  | Py.Ok acc =>
      weights_nonzero metric_sums metric_weights
      /\ forall k,
           acc_sums acc !! k =
             match metric_sums !! k with
             | Some s => Some (if is_batch_metric k then 0 else s)
             | None => None
             end
           /\ acc_weights acc !! k =
                match metric_sums !! k with
                | Some _ => if is_batch_metric k then Some 0
                            else metric_weights !! k
                | None => metric_weights !! k
                end
  | Py.Raise e =>
      e = Py.ZeroDivisionError
      /\ exists k, is_Some (metric_sums !! k)
           /\ Py.endswith k "_sum" || Py.endswith k "_batch" = true
           /\ dd_get metric_weights k == 0
  end.
Proof.
  unfold metrics_to_print.
  pose proof (print_fold_spec metric_sums
                (mk_flush_acc metric_sums metric_weights ∅)) as H.
  destruct (map_fold _ _ metric_sums) as [acc|e];
    cbn [mbind result_bind Py.bind]; [|exact H].
  destruct H as [Hnz Hlook]. split; [exact Hnz|].
  intros k. destruct (Hlook k) as [H1 H2]. simpl in *.
  rewrite H1, H2. destruct (metric_sums !! k) as [s|]; [|split; reflexivity].
  destruct (is_batch_metric k); split; reflexivity.
Qed.

(** X15.  The flush, exactly.  [log_metrics] either completes or raises
    [ZeroDivisionError], and it raises exactly when some metric of the
    running sums whose name ends in ["_sum"] or ["_batch"] has weight zero.
    When it completes, the running sums keep their metrics; the pair of
    each ["_batch"] metric (one whose name does not also end in ["_sum"])
    is reset to 0 and 0, and every other sum and weight is as it was. *)
Theorem flush_resets_exactly_batch_metrics
    (metric_sums metric_weights metrics : gmap string Q) :
  match metrics_to_print metric_sums metric_weights metrics with
  | Py.Ok acc =>
      weights_nonzero metric_sums metric_weights
      /\ forall k,
           acc_sums acc !! k =
             match metric_sums !! k with
             | Some s => Some (if is_batch_metric k then 0 else s)
             | None => None
             end
           /\ acc_weights acc !! k =
                match metric_sums !! k with
                | Some _ => if is_batch_metric k then Some 0
                            else metric_weights !! k
                | None => metric_weights !! k
                end
  | Py.Raise e =>
      e = Py.ZeroDivisionError
      /\ ~ weights_nonzero metric_sums metric_weights
  end.
Proof.
  pose proof (metrics_to_print_spec metric_sums metric_weights metrics) as H.
  destruct (metrics_to_print metric_sums metric_weights metrics) as [acc|e];
    [exact H|].
  destruct H as (-> & k & Hk & Hsuf & Hzero). split; [reflexivity|].
  intros Hnz. exact (Hnz k Hk Hsuf Hzero).
Qed.

(** X16.  Two flushes in a row.  After a flush that completed, a second flush
    with no batch accumulated in between raises [ZeroDivisionError] as soon
    as the running sums hold a ["_batch"] metric: the first flush has left
    its weight at 0. *)
Theorem second_flush_without_batch_raises
    (metric_sums metric_weights metrics metrics2 : gmap string Q)
    (acc : flush_acc) (k : string) :
  metrics_to_print metric_sums metric_weights metrics = Py.Ok acc ->
  is_Some (metric_sums !! k) ->
  is_batch_metric k = true ->
  metrics_to_print (acc_sums acc) (acc_weights acc) metrics2
    = Py.Raise Py.ZeroDivisionError.
Proof.
  intros Hfirst [s Hk] Hbatch.
  pose proof (metrics_to_print_spec metric_sums metric_weights metrics) as H1.
  rewrite Hfirst in H1. destruct H1 as [_ Hlook].
  destruct (Hlook k) as [Hs Hw]. rewrite Hk, Hbatch in Hs, Hw.
  pose proof (metrics_to_print_spec (acc_sums acc) (acc_weights acc) metrics2)
    as H2.
  destruct (metrics_to_print (acc_sums acc) (acc_weights acc) metrics2)
    as [acc2|e].
  - destruct H2 as [Hnz _]. exfalso. apply (Hnz k).
    + rewrite Hs. eauto.
    + unfold is_batch_metric in Hbatch.
      apply andb_true_iff in Hbatch as [_ ->]. apply orb_true_r.
    + unfold dd_get. rewrite Hw. reflexivity.
  - destruct H2 as [-> _]. reflexivity.
Qed.

Lemma second_flush_without_batch_raises_witness :
  exists acc,
    metrics_to_print {["gnorm_batch" := 4]} {["gnorm_batch" := 2]} ∅ = Py.Ok acc
    /\ metrics_to_print (acc_sums acc) (acc_weights acc) ∅
         = Py.Raise Py.ZeroDivisionError.
Proof.
  eexists. split; [vm_compute; reflexivity|].
  apply (second_flush_without_batch_raises {["gnorm_batch" := 4]}
           {["gnorm_batch" := 2]} ∅ ∅ _ "gnorm_batch").
  - vm_compute. reflexivity.
  - rewrite lookup_singleton_eq. eauto.
  - reflexivity.
Defined.

(** ** The metrics of a training run *)

Lemma decayed_nonneg (decay : Q) (metric_sums metric_weights : gmap string Q)
    (k : string) :
  0 <= decay ->
  weights_nonneg metric_weights ->
  0 <= default 0 (decayed decay metric_sums metric_weights k).
Proof.
  intros Hdecay Hw. specialize (Hw k). unfold decayed.
  destruct (Py.ne decay 1); [|exact Hw].
  destruct (metric_sums !! k); [|exact Hw].
  destruct (Py.endswith k "_sum"); [|exact Hw].
  simpl. apply Qmult_le_0_compat; assumption.
Qed.

Lemma decayed_is_Some (decay : Q) (metric_sums : gmap string Q) (k : string) :
  is_Some (decayed decay metric_sums metric_sums k) ->
  is_Some (metric_sums !! k).
Proof.
  unfold decayed. destruct (Py.ne decay 1); [|auto].
  destruct (metric_sums !! k); [eauto|auto].
Qed.

Lemma accumulate_inv (K : gset string)
    (metric_sums metric_weights metrics : gmap string Q) (batch_size : Z)
    (decay : Q) :
  (0 < batch_size)%Z ->
  0 <= decay ->
  dom metrics = K ->
  metrics_inv K metric_sums metric_weights ->
  let r := accumulate_metrics metric_sums metric_weights metrics batch_size decay in
  metrics_inv K r.1 r.2
  /\ forall k, is_Some (r.1 !! k) -> 0 < dd_get r.2 k.
Proof.
  intros Hbs Hdecay Hdom [Hkeys Hw] r.
  assert (0 < inject_Z batch_size) as Hb.
  { change 0 with (inject_Z 0). rewrite <- Zlt_Qlt. exact Hbs. }
  assert (forall k, 0 <= dd_get r.2 k
                    /\ (is_Some (metrics !! k) -> 0 < dd_get r.2 k)) as Hr2.
  { intros k.
    destruct (accumulate_lookup metric_sums metric_weights metrics batch_size
                decay k) as [_ H2].
    fold r in H2. unfold dd_get at 1 2. rewrite H2.
    pose proof (decayed_nonneg decay metric_sums metric_weights k Hdecay Hw).
    destruct (metrics !! k) as [v|].
    - simpl. destruct (Py.endswith k "_batch"); split; intros; lra.
    - split; [assumption|]. intros [? ?]. discriminate. }
  assert (forall k, is_Some (r.1 !! k) -> k ∈ K) as Hr1.
  { intros k Hk.
    destruct (accumulate_lookup metric_sums metric_weights metrics batch_size
                decay k) as [H1 _].
    fold r in H1. rewrite H1 in Hk.
    destruct (metrics !! k) as [v|] eqn:Em.
    - rewrite <- Hdom. apply elem_of_dom. eauto.
    - apply Hkeys, elem_of_dom. exact (decayed_is_Some _ _ _ Hk). }
  split; [split|].
  - intros k Hk. apply elem_of_dom in Hk. apply Hr1, Hk.
  - intros k. apply Hr2.
  - intros k Hk. apply Hr2. apply elem_of_dom. rewrite Hdom. apply Hr1, Hk.
Qed.

Lemma train_batch_inv (K : gset string) (batch_count_this_epoch : Z)
    (metric_sums metric_weights metrics : gmap string Q) (timediff : Q)
    (batch_size : Z) :
  (0 < batch_size)%Z ->
  dom metrics = K ->
  metrics_inv K metric_sums metric_weights ->
  exists sw,
    train_batch_metrics batch_count_this_epoch metric_sums metric_weights
      metrics timediff batch_size = Py.Ok sw
    /\ metrics_inv K sw.1 sw.2.
Proof.
  intros Hbs Hdom Hinv.
  assert (0 <= 0.999) as Hdecay by (vm_compute; discriminate).
  destruct (accumulate_inv K metric_sums metric_weights metrics batch_size
              0.999 Hbs Hdecay Hdom Hinv) as [[Hkeys Hw] Hpos].
  unfold train_batch_metrics. cbv zeta.
  set (r := accumulate_metrics metric_sums metric_weights metrics batch_size
              0.999) in *.
  destruct (_ =? 0)%Z; [|exists r; split; [reflexivity|split; assumption]].
  pose proof (metrics_to_print_spec r.1 r.2
                (<["time_since_last_print" := timediff]> metrics)) as Hspec.
  destruct (metrics_to_print r.1 r.2 _) as [acc|e].
  - destruct Hspec as [_ Hlook]. cbn [mbind result_bind Py.bind].
    eexists. split; [reflexivity|]. simpl. split.
    + intros k Hk. apply elem_of_dom in Hk. apply Hkeys, elem_of_dom.
      destruct (Hlook k) as [H1 _]. rewrite H1 in Hk.
      destruct (r.1 !! k); [eauto|exact Hk].
    + intros k. destruct (Hlook k) as [_ H2]. unfold dd_get. rewrite H2.
      destruct (r.1 !! k); [destruct (is_batch_metric k)|];
        try apply Hw. simpl. lra.
  - destruct Hspec as (_ & k & Hk & _ & Hzero).
    specialize (Hpos k Hk). rewrite Hzero in Hpos. lra.
Qed.

(** X17.  No division by zero in training.  The running metrics start empty
    (lines 552-553).  When every batch reports the same set of metrics and
    the batch size is positive, the metrics lines of the training loop
    never raise, over any number of batches and whatever the batch count
    the epoch starts from: each flush comes right after an accumulate,
    which has left a positive weight under every metric of the running
    sums. *)
Theorem training_flush_never_divides_by_zero (K : gset string)
    (batch_count_this_epoch : Z) (metric_sums metric_weights : gmap string Q)
    (batches : list (gmap string Q * Q)) (batch_size : Z) :
  (0 < batch_size)%Z ->
  (forall b, b ∈ batches -> dom b.1 = K) ->
  metrics_inv K ∅ ∅
  /\ (metrics_inv K metric_sums metric_weights ->
      exists sw,
        train_batches batch_count_this_epoch metric_sums metric_weights
          batches batch_size = Py.Ok sw
        /\ metrics_inv K sw.1 sw.2).
Proof.
  intros Hbs Hdom. split.
  { split; [rewrite dom_empty; apply empty_subseteq|].
    intros k. unfold dd_get. rewrite lookup_empty. simpl. lra. }
  revert batch_count_this_epoch metric_sums metric_weights.
  induction batches as [|[metrics timediff] rest IH];
    intros count metric_sums metric_weights Hinv.
  - exists (metric_sums, metric_weights). split; [reflexivity|exact Hinv].
  - destruct (train_batch_inv K count metric_sums metric_weights metrics
                timediff batch_size Hbs) as (sw & Hsw & Hinv');
      [exact (Hdom (metrics, timediff) (list_elem_of_here _ _))|exact Hinv|].
    cbn [train_batches]. rewrite Hsw. cbn [mbind result_bind Py.bind].
    apply IH; [|exact Hinv'].
    intros b Hb. apply Hdom. apply list_elem_of_further, Hb.
Qed.

(** The 99th and the 100th batch of an epoch, from running metrics that
    already hold both metrics: the 100th is flushed. *)
Lemma training_flush_never_divides_by_zero_witness :
  exists sw,
    train_batches 98 {["loss_sum" := 30; "gnorm_batch" := 2]}
      {["loss_sum" := 16; "gnorm_batch" := 1]}
      [({["loss_sum" := 20; "gnorm_batch" := 3]}, 0);
       ({["loss_sum" := 18; "gnorm_batch" := 4]}, 1.5)] 8
      = Py.Ok sw
    /\ metrics_inv {["loss_sum"; "gnorm_batch"]} sw.1 sw.2.
Proof.
  apply (proj2 (training_flush_never_divides_by_zero
                  {["loss_sum"; "gnorm_batch"]} 98
                  {["loss_sum" := 30; "gnorm_batch" := 2]}
                  {["loss_sum" := 16; "gnorm_batch" := 1]}
                  [({["loss_sum" := 20; "gnorm_batch" := 3]}, 0);
                   ({["loss_sum" := 18; "gnorm_batch" := 4]}, 1.5)] 8
                  ltac:(lia)
                  ltac:(intros b Hb;
                        repeat (apply elem_of_cons in Hb as [->|Hb]);
                        [set_solver..|apply elem_of_nil in Hb; contradiction]))).
  split; [set_solver|].
  intros k. unfold dd_get.
  destruct (decide (k = "loss_sum")) as [->|H1]; [vm_compute; discriminate|].
  destruct (decide (k = "gnorm_batch")) as [->|H2]; [vm_compute; discriminate|].
  rewrite lookup_insert_ne, lookup_singleton_ne by congruence.
  simpl. lra.
Defined.

End MetricsFlow.

(* ===================================================================== *)
(** * The file selection loop as a whole *)
(* ===================================================================== *)

Module SelectLoop.

Import FileSelect.

Local Open Scope Z_scope.

(** The entries of the stream whose file has batches. *)
Definition nonempty_files (stream : list (string * Z * Q))
    : list (string * Z * Q) :=
  filter (fun e : string * Z * Q => 0 < e.1.2) stream.

Definition names_of (entries : list (string * Z * Q)) : list string :=
  map (fun e : string * Z * Q => e.1.1) entries.

Definition batches_of (entries : list (string * Z * Q)) : Z :=
  foldr (fun (e : string * Z * Q) acc => e.1.2 + acc) 0 entries.

(** The ways the body of the loop ends for a file with batches. *)
Inductive file_outcome (target : Q) (filename : string) (n : Z) (draw : Q)
    (sel : selection) : selection * flow -> Prop :=
| skipped :
    (target < inject_Z (batches_to_use_so_far sel + n))%Q ->
    0 < batches_to_use_so_far sel ->
    file_outcome target filename n draw sel (sel, Break)
| included_last :
    (target <= inject_Z (batches_to_use_so_far sel + n))%Q
    \/ 100000 < Z.of_nat (length (train_files_to_use sel ++ [filename])) ->
    file_outcome target filename n draw sel (include filename n sel, Break)
| included :
    (inject_Z (batches_to_use_so_far sel + n) < target)%Q ->
    file_outcome target filename n draw sel (include filename n sel, Next).

Lemma select_file_outcome (target : Q) (filename : string) (n : Z) (draw : Q)
    (sel : selection) :
  0 < n ->
  file_outcome target filename n draw sel
    (select_file target filename n draw sel).
Proof.
  intros Hn. unfold select_file.
  destruct (Z.leb_spec n 0) as [|_]; [lia|].
  destruct (Py.gt _ target) eqn:Egt; cbn [andb].
  - destruct (Z.ltb_spec 0 (batches_to_use_so_far sel)) as [Hpos|_]; cbn [andb].
    + destruct (Py.ge draw _).
      * apply skipped; [apply Py.gt_true; exact Egt|exact Hpos].
      * cbv zeta. apply Py.gt_true in Egt.
        rewrite (include_crossing_breaks target filename n sel Egt).
        apply included_last. left. apply Qlt_le_weak. exact Egt.
    + cbv zeta. apply Py.gt_true in Egt.
      rewrite (include_crossing_breaks target filename n sel Egt).
      apply included_last. left. apply Qlt_le_weak. exact Egt.
  - cbv zeta. destruct (Py.ge _ target) eqn:Ege; cbn [orb].
    + apply included_last. left. apply Py.ge_true in Ege. exact Ege.
    + destruct (Z.ltb_spec 100000
                  (Z.of_nat (length (train_files_to_use
                                       (include filename n sel))))) as [Hcap|_].
      * apply included_last. right. exact Hcap.
      * apply included. apply Py.ge_false in Ege. exact Ege.
Qed.

Lemma nonempty_files_cons (e : string * Z * Q) (rest : list (string * Z * Q)) :
  nonempty_files (e :: rest) =
    if 0 <? e.1.2 then e :: nonempty_files rest else nonempty_files rest.
Proof.
  unfold nonempty_files. destruct (Z.ltb_spec 0 e.1.2).
  - apply filter_cons_True. assumption.
  - apply filter_cons_False. lia.
Qed.

Lemma positive_total (entries : list (string * Z * Q)) :
  0 <= batches_of (nonempty_files entries).
Proof.
  induction entries as [|e rest IH]; [reflexivity|].
  rewrite nonempty_files_cons. destruct (Z.ltb_spec 0 e.1.2); [|exact IH].
  simpl. fold (batches_of (nonempty_files rest)). lia.
Qed.

Lemma selection_segment (target : Q) (stream : list (string * Z * Q))
    (sel sel' : selection) :
  select_files target stream sel = Some sel' ->
  exists taken,
    train_files_to_use sel' =
      train_files_to_use sel ++ names_of (take taken (nonempty_files stream))
    /\ batches_to_use_so_far sel' =
         batches_to_use_so_far sel
         + batches_of (take taken (nonempty_files stream)).
Proof.
  revert sel. induction stream as [|[[f n] d] rest IH]; intros sel;
    [discriminate|].
  cbn [select_files]. rewrite nonempty_files_cons. cbn [fst snd].
  destruct (Z.ltb_spec 0 n) as [Hn|Hn].
  - destruct (select_file_outcome target f n d sel Hn) as [_ _| _ | _].
    + intros [= <-]. exists 0%nat. simpl. rewrite app_nil_r.
      split; [reflexivity|lia].
    + intros [= <-]. exists 1%nat. simpl. split; [reflexivity|lia].
    + intros H. destruct (IH _ H) as (taken & H1 & H2).
      exists (S taken). cbn [take names_of map batches_of foldr fst snd].
      fold (names_of (take taken (nonempty_files rest))).
      fold (batches_of (take taken (nonempty_files rest))).
      rewrite H1, H2. simpl. rewrite <- app_assoc. split; [reflexivity|lia].
  - rewrite (empty_file_is_passed_over target f n d sel Hn). apply IH.
Qed.

Lemma selection_positive (target : Q) (stream : list (string * Z * Q))
    (sel sel' : selection) :
  (0 < batches_to_use_so_far sel -> train_files_to_use sel <> []) ->
  0 <= batches_to_use_so_far sel ->
  select_files target stream sel = Some sel' ->
  0 < batches_to_use_so_far sel' /\ train_files_to_use sel' <> [].
Proof.
  revert sel. induction stream as [|[[f n] d] rest IH]; intros sel Hfiles Hge;
    [discriminate|].
  cbn [select_files].
  destruct (Z.ltb_spec 0 n) as [Hn|Hn].
  - destruct (select_file_outcome target f n d sel Hn) as [_ Hpos| _ | _].
    + intros [= <-]. split; [exact Hpos|apply Hfiles, Hpos].
    + intros [= <-]. simpl. split; [lia|].
      intros H. apply app_eq_nil in H as [_ H]. discriminate.
    + apply IH; simpl; [|lia].
      intros _ H. apply app_eq_nil in H as [_ H]. discriminate.
  - rewrite (empty_file_is_passed_over target f n d sel Hn).
    apply IH; assumption.
Qed.

Lemma selection_near_target (target : Q) (largest : Z)
    (stream : list (string * Z * Q)) (sel sel' : selection) :
  Forall (fun e : string * Z * Q => e.1.2 <= largest) stream ->
  (inject_Z (batches_to_use_so_far sel) < target)%Q ->
  select_files target stream sel = Some sel' ->
  (inject_Z (batches_to_use_so_far sel') < target + inject_Z largest)%Q
  /\ ((target - inject_Z largest < inject_Z (batches_to_use_so_far sel'))%Q
      \/ 100000 < Z.of_nat (length (train_files_to_use sel'))).
Proof.
  intros Hlargest. revert sel.
  induction Hlargest as [|[[f n] d] rest Hle _ IH]; intros sel Hbelow;
    [discriminate|].
  cbn [select_files]. cbn [fst snd] in Hle.
  assert (inject_Z n <= inject_Z largest)%Q as Hle' by (rewrite <- Zle_Qle; lia).
  destruct (Z.ltb_spec 0 n) as [Hn|Hn].
  - assert (0 < inject_Z n)%Q as Hn'.
    { change 0%Q with (inject_Z 0). rewrite <- Zlt_Qlt. exact Hn. }
    destruct (select_file_outcome target f n d sel Hn) as [Hover _|Hstop|Hunder].
    + intros [= <-]. rewrite inject_Z_plus in Hover. split; [lra|left; lra].
    + intros [= <-]. cbn [include batches_to_use_so_far train_files_to_use].
      rewrite inject_Z_plus in *. split; [lra|].
      destruct Hstop as [Hstop|Hcap]; [left; lra|right; exact Hcap].
    + apply IH. exact Hunder.
  - rewrite (empty_file_is_passed_over target f n d sel Hn). apply IH, Hbelow.
Qed.

Lemma selection_terminates (target : Q) (stream : list (string * Z * Q))
    (sel : selection) :
  nonempty_files stream <> [] ->
  (target <= inject_Z (batches_to_use_so_far sel
                       + batches_of (nonempty_files stream)))%Q ->
  is_Some (select_files target stream sel).
Proof.
  revert sel. induction stream as [|[[f n] d] rest IH]; intros sel Hne Henough;
    [contradiction|].
  cbn [select_files]. rewrite nonempty_files_cons in Hne, Henough.
  cbn [fst snd] in Hne, Henough.
  destruct (Z.ltb_spec 0 n) as [Hn|Hn].
  - destruct (select_file_outcome target f n d sel Hn) as [_ _| _ |Hunder];
      [eauto..|].
    cbn [batches_of foldr fst snd] in Henough.
    fold (batches_of (nonempty_files rest)) in Henough.
    apply IH.
    + intros Hnil. rewrite Hnil in Henough. simpl in Henough.
      rewrite Z.add_0_r in Henough. lra.
    + simpl. rewrite Z.add_assoc in Henough. exact Henough.
  - rewrite (empty_file_is_passed_over target f n d sel Hn).
    apply IH; assumption.
Qed.

(** X18.  Every sub-epoch gets a file.  When the selection loop of a sub-epoch
    ends, it has selected at least one file, and the batches selected are
    more than none, whatever the target and the draws.  The files selected
    are an initial segment of the files with batches in the order the
    generator yields them (none is passed over before the last), and the
    running total is the sum of their batch counts. *)
Theorem selection_is_never_empty (target : Q)
    (stream : list (string * Z * Q)) (sel : selection) :
  select_files target stream empty_selection = Some sel ->
  train_files_to_use sel <> []
  /\ 0 < batches_to_use_so_far sel
  /\ exists taken,
       train_files_to_use sel = names_of (take taken (nonempty_files stream))
       /\ batches_to_use_so_far sel
            = batches_of (take taken (nonempty_files stream)).
Proof.
  intros H.
  destruct (selection_positive target stream empty_selection sel) as [H1 H2];
    [simpl; lia|simpl; lia|exact H|].
  split; [exact H2|]. split; [exact H1|].
  destruct (selection_segment target stream empty_selection sel H)
    as (taken & H3 & H4).
  exists taken. split; [exact H3|exact H4].
Qed.

Lemma selection_is_never_empty_witness :
  train_files_to_use (mk_selection ["a.npz"; "c.npz"] 90) <> []
  /\ 0 < batches_to_use_so_far (mk_selection ["a.npz"; "c.npz"] 90).
Proof.
  destruct (selection_is_never_empty 100 (example_stream 0.75)
              (mk_selection ["a.npz"; "c.npz"] 90) eq_refl) as (H1 & H2 & _).
  split; [exact H1|exact H2].
Defined.

(** X19.  The selection lands near the target.  For a positive target (a
    selection that starts below it), when the loop ends the batches
    selected exceed the target by less than the batch count of the largest
    file, and fall short of it by less than that too, unless the loop was
    ended by the limit of 100000 files. *)
Theorem selection_lands_near_target (target : Q) (largest : Z)
    (stream : list (string * Z * Q)) (sel : selection) :
  (0 < target)%Q ->
  Forall (fun e : string * Z * Q => e.1.2 <= largest) stream ->
  select_files target stream empty_selection = Some sel ->
  (inject_Z (batches_to_use_so_far sel) < target + inject_Z largest)%Q
  /\ ((target - inject_Z largest < inject_Z (batches_to_use_so_far sel))%Q
      \/ 100000 < Z.of_nat (length (train_files_to_use sel))).
Proof.
  intros Htarget Hlargest H.
  exact (selection_near_target target largest stream empty_selection sel
           Hlargest Htarget H).
Qed.

Lemma selection_lands_near_target_witness :
  (inject_Z 110 < 100 + inject_Z 60)%Q
  /\ ((100 - inject_Z 60 < inject_Z 110)%Q
      \/ 100000 < Z.of_nat (length ["a.npz"; "c.npz"; "d.npz"])).
Proof.
  assert (Forall (fun e : string * Z * Q => e.1.2 <= 60) (example_stream 0.25))
    as Hlargest
    by (repeat apply Forall_cons_2; [simpl; lia..|apply Forall_nil_2]).
  exact (selection_lands_near_target 100 60 (example_stream 0.25)
           (mk_selection ["a.npz"; "c.npz"; "d.npz"] 110)
           eq_refl Hlargest eq_refl).
Defined.

(** X20.  The selection loop ends.  When the part of the stream read so far has
    a file with batches and its files hold at least the target number of
    batches together, the loop has ended within it, whatever the draws. *)
Theorem selection_ends_with_enough_batches (target : Q)
    (stream : list (string * Z * Q)) :
  nonempty_files stream <> [] ->
  (target <= inject_Z (batches_of (nonempty_files stream)))%Q ->
  exists sel, select_files target stream empty_selection = Some sel.
Proof.
  intros Hne Henough.
  apply (selection_terminates target stream empty_selection Hne).
  simpl. exact Henough.
Qed.

Lemma selection_ends_with_enough_batches_witness :
  exists sel, select_files 100 (example_stream 0.75) empty_selection = Some sel.
Proof.
  apply (selection_ends_with_enough_batches 100 (example_stream 0.75)).
  - discriminate.
  - vm_compute. discriminate.
Defined.

End SelectLoop.

(* ===================================================================== *)
(** * The start of [main]: batches per epoch, the model config *)
(* ===================================================================== *)

Module Setup.

Import Fs.

Local Open Scope Z_scope.



Definition model_config_path (traindir : path) : path :=
  join traindir "model.config.json".

(** [with open(p, "r") as f: json.load(f)]: [json.load] gives back what
    [json.dump] wrote. *)
Definition read_json (p : path) : io data :=
  fun m =>
    match lookup_node p m with
    | Some (File d) => (Py.Ok d, m)
    | Some Dir => (Py.Raise (Py.IsADirectoryError (show p)), m)
    | None => (Py.Raise (Py.FileNotFoundError (show p)), m)
    end.

(** The block LOAD MODEL CONFIG (lines 156-164).  [config_of_name] is
    [modelconfigs.config_of_name]. *)
Definition load_model_config (traindir : path)
    (config_of_name : gmap string data) (model_kind : string) : io data :=
  found ← exists_ (model_config_path traindir);
  if found : bool then read_json (model_config_path traindir)
  else
    match config_of_name !! model_kind with
    | None => fun m => (Py.Raise (Py.KeyError model_kind), m)
    | Some model_config =>
        write_file (model_config_path traindir) model_config ;;
        mret model_config
    end.

Definition example_configs : gmap string data :=
  {[ "b6c96" := Blob "config of b6c96"; "b10c128" := Blob "config of b10c128" ]}.




(** X22.  The model config is fixed at the first start.  In a training directory
    without [model.config.json], a start with a known model kind writes
    that kind's config and uses it; every later start uses the config on
    file and writes nothing, whatever model kind it is given, known or
    not.  A first start with an unknown kind raises [KeyError] and writes
    nothing. *)
Theorem model_config_is_fixed_at_first_start (traindir : path)
    (config_of_name : gmap string data) (model_kind later_kind : string)
    (model_config : data) (m : gmap path node) :
  lookup_node traindir m = Some Dir ->
  m !! model_config_path traindir = None ->
  (config_of_name !! model_kind = Some model_config ->
   let r := load_model_config traindir config_of_name model_kind m in
   r = (Py.Ok model_config,
        <[model_config_path traindir := File model_config]> m)
   /\ load_model_config traindir config_of_name later_kind r.2
        = (Py.Ok model_config, r.2))
  /\ (config_of_name !! model_kind = None ->
      load_model_config traindir config_of_name model_kind m
        = (Py.Raise (Py.KeyError model_kind), m)).
Proof.
  intros Hdir Hnone. unfold load_model_config, model_config_path in *.
  unfold mbind, io_bind_inst, io_bind.
  rewrite exists_none by (rewrite lookup_node_join; exact Hnone).
  split.
  - intros ->. cbv zeta.
    rewrite write_file_ok;
      [|rewrite parent_join; exact Hdir
       |rewrite lookup_node_join, Hnone; discriminate].
    split; [reflexivity|]. cbn [snd mret io_ret_inst io_ret].
    rewrite (exists_some _ (File model_config))
      by (rewrite lookup_node_join; apply lookup_insert_eq).
    unfold read_json. rewrite lookup_node_join, lookup_insert_eq. reflexivity.
  - intros ->. reflexivity.
Qed.

(** A run started as [b6c96] and restarted as [b10c128] goes on with the
    config of [b6c96]. *)
Lemma model_config_is_fixed_at_first_start_witness :
  let r := load_model_config ["train"] example_configs "b6c96"
             {[ ["train"] := Dir ]} in
  r.1 = Py.Ok (Blob "config of b6c96")
  /\ (load_model_config ["train"] example_configs "b10c128" r.2).1
       = Py.Ok (Blob "config of b6c96").
Proof.
  intros r.
  assert (lookup_node ["train"] ({[ ["train"] := Dir ]} : gmap path node)
          = Some Dir) as Hdir by reflexivity.
  assert (({[ ["train"] := Dir ]} : gmap path node)
            !! model_config_path ["train"] = None) as Hnone by reflexivity.
  assert (example_configs !! "b6c96" = Some (Blob "config of b6c96")) as Hkind
    by reflexivity.
  destruct (proj1 (model_config_is_fixed_at_first_start ["train"]
                     example_configs "b6c96" "b10c128"
                     (Blob "config of b6c96") {[ ["train"] := Dir ]}
                     Hdir Hnone) Hkind) as [H1 H2].
  fold r in H1, H2. rewrite H2, H1. split; reflexivity.
Defined.

End Setup.

(* ===================================================================== *)
(** * The optimizer's parameter groups and the learning rate *)
(* ===================================================================== *)

Module Optimizer.

Local Open Scope Q_scope.

(** A parameter group of the optimizer: the names of its parameters, its
    weight decay, and its learning rate once one is set. *)
Record param_group := mk_param_group {
  params : list string;
  weight_decay : Q;
  lr : option Q
}.

(** [reg_dict[key]] *)
Definition reg_params (reg_dict : gmap string (list string)) (key : string)
    : Py.result (list string) :=
  match reg_dict !! key with
  | Some names => Py.Ok names
  | None => Py.Raise (Py.KeyError key)
  end.

(** [get_param_groups] (lines 216-249).  [reg_dict] is what
    [model.add_reg_dict] fills in, [num_params] is
    [len(list(model.parameters()))], and [math_sqrt] is [math.sqrt] on a
    float; [math.sqrt(None)] raises [TypeError]. *)
Definition get_param_groups (math_sqrt : Q -> Py.result Q)
    (world_size batch_size : Z) (use_fixup : bool) (lr_scale : option Q)
    (reg_dict : gmap string (list string)) (num_params : nat)
    : Py.result (list param_group) :=
  let small :=
    0.000001 * inject_Z world_size * inject_Z batch_size / 256 in
  normal ← reg_params reg_dict "normal";
  normal_decay ←
    (if use_fixup then Py.Ok small
     else
       match lr_scale with
       | None => Py.Raise Py.TypeError
       | Some scale =>
           root ← math_sqrt scale;
           Py.Ok (0.0003 * inject_Z world_size * inject_Z batch_size / 256
                  * root)
       end);
  output ← reg_params reg_dict "output";
  noreg ← reg_params reg_dict "noreg";
  if bool_decide (num_params = (length normal + length output + length noreg)%nat)
  then Py.Ok [ mk_param_group normal normal_decay None;
               mk_param_group output small None;
               mk_param_group noreg 0 None ]
  else Py.Raise Py.AssertionError.

(** [update_and_return_lr] (lines 371-380): the rate, and the groups with
    the rate set. *)
Definition update_and_return_lr (use_fixup : bool) (lr_scale : option Q)
    (ts : train_state) (param_groups : list param_group)
    : Q * list param_group :=
  let per_sample_lr :=
    (if use_fixup then 0.00003 else 0.00006)
    * match lr_scale with None => 1 | Some scale => scale end in
  let per_sample_lr :=
    if (global_step_samples ts <? 5000000)%Z then per_sample_lr / 3
    else per_sample_lr in
  (per_sample_lr,
   map (fun g => mk_param_group (params g) (weight_decay g) (Some per_sample_lr))
       param_groups).

Definition with_steps (global_step_samples : Z) : train_state :=
  mk_train_state global_step_samples None None 0 0.

Definition example_reg_dict : gmap string (list string) :=
  {[ "normal" := ["conv1.weight"; "conv2.weight"];
     "output" := ["policy.weight"];
     "noreg" := ["norm.beta"] ]}.

(** X23.  The parameter groups.  When [get_param_groups] returns, it returns
    three groups holding the ["normal"], ["output"] and ["noreg"]
    parameters of the reg dict in this order, which together are as many
    as the model's parameters; the ["noreg"] group has weight decay 0.  For
    a model without fixup the scale of the learning rate is needed:
    without [-lr-scale] the call raises [TypeError], whatever the reg dict
    holds besides ["normal"]. *)
Theorem param_groups_cover_the_model (math_sqrt : Q -> Py.result Q)
    (world_size batch_size : Z) (use_fixup : bool) (lr_scale : option Q)
    (reg_dict : gmap string (list string)) (num_params : nat) :
  (forall groups,
     get_param_groups math_sqrt world_size batch_size use_fixup lr_scale
       reg_dict num_params = Py.Ok groups ->
     exists normal output noreg,
       map params groups = [normal; output; noreg]
       /\ reg_dict !! "normal" = Some normal
       /\ reg_dict !! "output" = Some output
       /\ reg_dict !! "noreg" = Some noreg
       /\ length (concat (map params groups)) = num_params
       /\ (weight_decay <$> last groups) = Some 0
       /\ (use_fixup = false -> is_Some lr_scale))
  /\ (is_Some (reg_dict !! "normal") ->
      get_param_groups math_sqrt world_size batch_size false None
        reg_dict num_params = Py.Raise Py.TypeError).
Proof.
  unfold get_param_groups, reg_params. split.
  - intros groups.
    destruct (reg_dict !! "normal") as [normal|]; [|discriminate].
    cbn [mbind result_bind Py.bind].
    assert (forall (decay : Py.result Q) (rest : Q -> Py.result (list param_group)),
              Py.bind decay rest = Py.Ok groups ->
              exists d, decay = Py.Ok d /\ rest d = Py.Ok groups) as Hbind.
    { intros [d|e] rest H; [eauto|discriminate]. }
    intros H. apply Hbind in H as (decay & Hdecay & H).
    destruct (reg_dict !! "output") as [output|]; [|discriminate].
    destruct (reg_dict !! "noreg") as [noreg|]; [|discriminate].
    cbn [mbind result_bind Py.bind] in H.
    destruct (bool_decide _) eqn:Hcount; [|discriminate].
    apply bool_decide_eq_true_1 in Hcount. injection H as <-.
    exists normal, output, noreg.
    split; [reflexivity|]. split; [reflexivity|]. split; [reflexivity|].
    split; [reflexivity|]. split.
    { simpl. rewrite !length_app, Hcount. simpl. lia. }
    split; [reflexivity|].
    intros ->. destruct lr_scale; [eauto|discriminate].
  - intros [normal ->]. reflexivity.
Qed.

(** A model with fixup and four parameters, without [-lr-scale]. *)
Lemma param_groups_cover_the_model_witness :
  exists groups,
    get_param_groups (fun x => Py.Ok x) 1 256 true None example_reg_dict 4
      = Py.Ok groups
    /\ length (concat (map params groups)) = 4%nat
    /\ (weight_decay <$> last groups) = Some 0.
Proof.
  eexists. split; [reflexivity|].
  destruct (proj1 (param_groups_cover_the_model (fun x => Py.Ok x) 1 256 true
                     None example_reg_dict 4) _ eq_refl)
    as (normal & output & noreg & _ & _ & _ & _ & H1 & H2 & _).
  split; [exact H1|exact H2].
Defined.

(** X24.  The learning rate.  Every parameter group gets the rate that is
    returned, and keeps its parameters and its weight decay.  Below
    5,000,000 samples the rate is a third of the rate from 5,000,000
    samples on; the rate of a model with fixup is half the rate of one
    without; and the rate is [lr_scale] times the rate without
    [-lr-scale]. *)
Theorem learning_rate_schedule (use_fixup : bool) (lr_scale : option Q)
    (ts : train_state) (param_groups : list param_group) :
  let r := update_and_return_lr use_fixup lr_scale ts param_groups in
  Forall2 (fun g g' => params g' = params g
                       /\ weight_decay g' = weight_decay g
                       /\ lr g' = Some r.1) param_groups r.2
  /\ (forall early late,
        (global_step_samples early < 5000000)%Z ->
        (5000000 <= global_step_samples late)%Z ->
        (update_and_return_lr use_fixup lr_scale early param_groups).1 ==
          (update_and_return_lr use_fixup lr_scale late param_groups).1 / 3)
  /\ (update_and_return_lr true lr_scale ts param_groups).1 ==
       (update_and_return_lr false lr_scale ts param_groups).1 / 2
  /\ r.1 == default 1 lr_scale
            * (update_and_return_lr use_fixup None ts param_groups).1.
Proof.
  intros r. split; [|split; [|split]].
  - unfold r, update_and_return_lr. cbn [fst snd].
    induction param_groups as [|g rest IH]; [constructor|].
    constructor; [repeat split|exact IH].
  - intros early late Hearly Hlate. unfold update_and_return_lr. cbn [fst].
    destruct (Z.ltb_spec (global_step_samples early) 5000000); [|lia].
    destruct (Z.ltb_spec (global_step_samples late) 5000000); [lia|].
    reflexivity.
  - unfold update_and_return_lr. cbn [fst].
    destruct (global_step_samples ts <? 5000000)%Z; field.
  - unfold r, update_and_return_lr. cbn [fst].
    destruct (global_step_samples ts <? 5000000)%Z;
      destruct lr_scale, use_fixup; simpl; field.
Qed.

End Optimizer.

(* ===================================================================== *)
(** * The counters of the training state over the epoch loop *)
(* ===================================================================== *)

Module Driver.

Import DataReload.

Local Open Scope Z_scope.

Definition set_global_step_samples (v : Z) (ts : train_state) : train_state :=
  mk_train_state v (train_bucket_level ts) (train_bucket_level_at_row ts)
    (train_steps_since_last_reload ts) (export_cycle_counter ts).

(** The step counting of a sub-epoch (lines 620, 646, 659-660):
    [train_steps_this_subepoch] grows by [batch_size] with every batch and
    is added to both counters at the end. *)
Definition finish_subepoch (batch_size : Z) (num_batches : nat)
    (ts : train_state) : train_state :=
  let train_steps_this_subepoch := batch_size * Z.of_nat num_batches in
  let ts := set_train_steps_since_last_reload
              (train_steps_since_last_reload ts + train_steps_this_subepoch)
              ts in
  set_global_step_samples
    (global_step_samples ts + train_steps_this_subepoch) ts.

(** The places of the epoch loop that write the training state or the
    history: the reload check (with what its passes observe), the bucket
    check, the training of a sub-epoch, and the end of an epoch
    ([save_history], then the export cycle with its draw). *)
Inductive driver_step :=
| Reload (envs : list data_env)
| BucketCheck
| SubEpoch (num_batches : nat)
| EpochEnd (sums weights : gmap string Q) (draw : Q).

Definition with_train_state (ts : train_state) (st : reload_state)
    : reload_state :=
  mk_reload_state (rs_watcher st) ts (rs_trainhistory st).

(** [None]: the reload check has not returned. *)
Definition driver_apply (a : args) (batch_size : Z) (step : driver_step)
    (st : reload_state) : Py.result (option reload_state) :=
  match step with
  | Reload envs => maybe_reload_training_data 0 a envs st
  | BucketCheck =>
      adm ← TrainBucket.consume_train_bucket a (rs_train_state st);
      Py.Ok (Some (with_train_state
                     match adm with
                     | TrainBucket.Proceed ts => ts
                     | TrainBucket.SleepAndRetry _ ts => ts
                     end st))
  | SubEpoch num_batches =>
      Py.Ok (Some (with_train_state
                     (finish_subepoch batch_size num_batches (rs_train_state st))
                     st))
  | EpochEnd sums weights draw =>
      let th := snapshot_history (rs_train_state st) sums weights
                  (rs_trainhistory st) in
      let ts := (ExportCycle.on_epoch_complete 0 a draw (rs_train_state st)).1 in
      Py.Ok (Some (mk_reload_state (rs_watcher st) ts th))
  end.

Fixpoint driver_run (a : args) (batch_size : Z) (steps : list driver_step)
    (st : reload_state) : Py.result (option reload_state) :=
  match steps with
  | [] => Py.Ok (Some st)
  | step :: rest =>
      r ← driver_apply a batch_size step st;
      match r with
      | Some st' => driver_run a batch_size rest st'
      | None => Py.Ok None
      end
  end.

(** The batches trained in the sub-epochs of a run. *)
Fixpoint batches_trained (steps : list driver_step) : Z :=
  match steps with
  | [] => 0
  | SubEpoch num_batches :: rest => Z.of_nat num_batches + batches_trained rest
  | _ :: rest => batches_trained rest
  end.

(** The step count of the last ["newdata"] event of the history. *)
Fixpoint last_newdata (events : list event) : option Z :=
  match events with
  | [] => None
  | e :: rest =>
      match last_newdata rest with
      | Some steps => Some steps
      | None => match e with
                | NewData steps _ => Some steps
                | Started _ => None
                end
      end
  end.

(** [train_steps_since_last_reload] is the number of samples trained since
    the last ["newdata"] event of the history. *)
Definition steps_match_history (st : reload_state) : Prop :=
  exists events at_reload,
    rs_trainhistory st !! "history" = Some (History events)
    /\ last_newdata events = Some at_reload
    /\ train_steps_since_last_reload (rs_train_state st)
         = global_step_samples (rs_train_state st) - at_reload.

Definition is_newdata (e : event) : Prop :=
  match e with
  | NewData _ _ => True
  | Started _ => False
  end.

(** A run of one epoch of two sub-epochs on a new data directory. *)
Definition example_epoch : list driver_step :=
  [ Reload [ReloadFacts.new_dir]; BucketCheck; SubEpoch 3;
    Reload [ReloadFacts.new_dir]; SubEpoch 4; EpochEnd ∅ ∅ 0%Q ].

(** The state a reload at 900 samples leaves, and the state after the
    epoch that follows. *)
Definition example_reloaded : reload_state :=
  match reload_pass ReloadFacts.throttle_args ReloadFacts.new_dir
          ReloadFacts.throttle_state with
  | Py.Ok (_, st) => st
  | Py.Raise _ => ReloadFacts.throttle_state
  end.

Definition example_after_epoch : reload_state :=
  match driver_run ReloadFacts.throttle_args 8 example_epoch example_reloaded with
  | Py.Ok (Some st) => st
  | _ => example_reloaded
  end.

(** The state after the same epoch when it starts with the reload. *)
Definition example_first_epoch : reload_state :=
  match driver_run ReloadFacts.throttle_args 8 example_epoch
          ReloadFacts.throttle_state with
  | Py.Ok (Some st) => st
  | _ => ReloadFacts.throttle_state
  end.

Lemma last_newdata_app (events : list event) (steps : Z) (range : Z * Z) :
  last_newdata (events ++ [NewData steps range]) = Some steps.
Proof.
  induction events as [|e rest IH]; [reflexivity|].
  simpl. rewrite IH. reflexivity.
Qed.

Lemma pass_keeps_state (a : args) (env : data_env) (st st' : reload_state)
    (o : pass_outcome) :
  reload_pass a env st = Py.Ok (o, st') -> o = Reloaded \/ st' = st.
Proof.
  unfold reload_pass. destruct (bool_decide _).
  - destruct (dir_exists env); simpl negb; cbv iota;
      [|intros [= <- <-]; right; reflexivity].
    destruct (train_json env) as [range|];
      [|intros [= <- <-]; right; reflexivity].
    destruct (TrainBucket.advance_train_bucket _ _ _ _); [|discriminate].
    cbn [mbind result_bind Py.bind].
    destruct (history_append _ _); [|discriminate].
    cbn [mbind result_bind Py.bind].
    destruct (train_listing env); [|discriminate].
    intros [= <- <-]. left. reflexivity.
  - destruct (max_train_steps_since_last_reload a) as [ceiling|].
    + destruct (Py.div _ _); [|discriminate].
      cbn [mbind result_bind Py.bind].
      destruct (Py.gt _ _); intros [= <- <-]; right; reflexivity.
    + intros [= <- <-]. right. reflexivity.
Qed.

Lemma reload_loop_result (a : args) (envs : list data_env)
    (st st' : reload_state) :
  reload_loop a envs st = Py.Ok (Some st') ->
  st' = st \/ exists env, reload_pass a env st = Py.Ok (Reloaded, st').
Proof.
  induction envs as [|env rest IH]; [discriminate|].
  simpl. destruct (reload_pass a env st) as [[o st1]|e] eqn:E; [|discriminate].
  cbn [mbind result_bind Py.bind].
  destruct (pass_keeps_state a env st st1 o E) as [->| ->].
  - intros [= <-]. right. exists env. exact E.
  - destruct o; [intros [= <-]; left; reflexivity
                |intros [= <-]; left; reflexivity|exact IH].
Qed.

Lemma reloaded_matches_history (a : args) (env : data_env)
    (st st' : reload_state) :
  reload_pass a env st = Py.Ok (Reloaded, st') -> steps_match_history st'.
Proof.
  intros H.
  apply ReloadFacts.reloaded_pass in H
    as (_ & Hsteps & Hgss & range & events & _ & Hhist).
  exists (events ++ [NewData (global_step_samples (rs_train_state st)) range]),
         (global_step_samples (rs_train_state st)).
  split; [exact Hhist|]. split; [apply last_newdata_app|].
  rewrite Hsteps, Hgss. lia.
Qed.

Lemma reloaded_keeps_steps (a : args) (env : data_env)
    (st st' : reload_state) :
  reload_pass a env st = Py.Ok (Reloaded, st') ->
  global_step_samples (rs_train_state st')
    = global_step_samples (rs_train_state st).
Proof.
  intros H. apply ReloadFacts.reloaded_pass in H as (_ & _ & Hgss & _).
  exact Hgss.
Qed.

Lemma consume_frame (a : args) (ts : train_state) (adm : TrainBucket.admission) :
  TrainBucket.consume_train_bucket a ts = Py.Ok adm ->
  let ts' := match adm with
             | TrainBucket.Proceed ts' => ts'
             | TrainBucket.SleepAndRetry _ ts' => ts'
             end in
  global_step_samples ts' = global_step_samples ts
  /\ train_steps_since_last_reload ts' = train_steps_since_last_reload ts.
Proof.
  unfold TrainBucket.consume_train_bucket.
  destruct (max_train_bucket_per_new_data a); [|intros [= <-]; split; reflexivity].
  destruct (train_bucket_level ts); [|discriminate].
  destruct (Py.gt _ _); intros [= <-]; split; reflexivity.
Qed.

Lemma epoch_complete_frame (a : args) (draw : Q) (ts : train_state) :
  let ts' := (ExportCycle.on_epoch_complete 0 a draw ts).1 in
  global_step_samples ts' = global_step_samples ts
  /\ train_steps_since_last_reload ts' = train_steps_since_last_reload ts.
Proof.
  unfold ExportCycle.on_epoch_complete. simpl.
  destruct (_ <=? _); [destruct (no_export a)|]; split; reflexivity.
Qed.

Lemma step_matches_history (a : args) (batch_size : Z) (step : driver_step)
    (st st' : reload_state) :
  steps_match_history st ->
  driver_apply a batch_size step st = Py.Ok (Some st') ->
  steps_match_history st'.
Proof.
  intros Hinv. destruct step as [envs| |n|sums weights draw]; simpl.
  - intros H. apply reload_loop_result in H as [->|[env H]]; [exact Hinv|].
    exact (reloaded_matches_history a env st st' H).
  - destruct (TrainBucket.consume_train_bucket a (rs_train_state st))
      as [adm|e] eqn:E; [|discriminate].
    cbn [mbind result_bind Py.bind]. intros [= <-].
    destruct (consume_frame a _ adm E) as [H1 H2].
    destruct Hinv as (events & g & Hh & Hl & Hs).
    exists events, g. simpl. rewrite H1, H2. repeat split; assumption.
  - intros [= <-]. destruct Hinv as (events & g & Hh & Hl & Hs).
    exists events, g. simpl. split; [exact Hh|]. split; [exact Hl|].
    rewrite Hs. lia.
  - intros [= <-]. destruct Hinv as (events & g & Hh & Hl & Hs).
    destruct (epoch_complete_frame a draw (rs_train_state st)) as [H1 H2].
    exists events, g. cbn [rs_trainhistory rs_train_state].
    split; [|split; [exact Hl|rewrite H1, H2; exact Hs]].
    unfold snapshot_history. rewrite !lookup_insert_ne by discriminate.
    exact Hh.
Qed.

Lemma step_counts_training (a : args) (batch_size : Z) (step : driver_step)
    (st st' : reload_state) :
  driver_apply a batch_size step st = Py.Ok (Some st') ->
  global_step_samples (rs_train_state st')
    = global_step_samples (rs_train_state st)
      + batch_size * batches_trained [step].
Proof.
  destruct step as [envs| |n|sums weights draw]; simpl.
  - intros H. apply reload_loop_result in H as [->|[env H]]; [lia|].
    rewrite (reloaded_keeps_steps a env st st' H). lia.
  - destruct (TrainBucket.consume_train_bucket a (rs_train_state st))
      as [adm|e] eqn:E; [|discriminate].
    cbn [mbind result_bind Py.bind]. intros [= <-].
    destruct (consume_frame a _ adm E) as [H1 _]. simpl. rewrite H1. lia.
  - intros [= <-]. simpl. lia.
  - intros [= <-].
    destruct (epoch_complete_frame a draw (rs_train_state st)) as [H1 _].
    simpl. rewrite H1. lia.
Qed.

(** X25.  The steps since the last reload.  A pass of the reload check that
    reloads leaves [train_steps_since_last_reload] equal to the samples
    trained since the last ["newdata"] event of the history (none), and
    every later reload check, bucket check, sub-epoch and end of epoch
    keeps the two in step: at any point of the run the counter is
    [global_step_samples] minus the step count recorded in the last
    ["newdata"] event. *)
Theorem steps_since_reload_match_history (a : args) (batch_size : Z)
    (steps : list driver_step) (st st' : reload_state) :
  driver_run a batch_size steps st = Py.Ok (Some st') ->
  (forall env st0, reload_pass a env st0 = Py.Ok (Reloaded, st) ->
     steps_match_history st)
  /\ (steps_match_history st -> steps_match_history st').
Proof.
  intros Hrun. split.
  { intros env st0 H. exact (reloaded_matches_history a env st0 st H). }
  revert st Hrun. induction steps as [|step rest IH]; intros st Hrun Hinv.
  - simpl in Hrun. injection Hrun as <-. exact Hinv.
  - simpl in Hrun.
    destruct (driver_apply a batch_size step st) as [[st1|]|e] eqn:E;
      try discriminate.
    cbn [mbind result_bind Py.bind] in Hrun.
    apply (IH st1 Hrun).
    exact (step_matches_history a batch_size step st st1 Hinv E).
Qed.

(** A reload at 900 samples, then an epoch of two sub-epochs of 3 and 4
    batches of 8: 56 steps since the reload. *)
Lemma steps_since_reload_match_history_witness :
  reload_pass ReloadFacts.throttle_args ReloadFacts.new_dir
    ReloadFacts.throttle_state = Py.Ok (Reloaded, example_reloaded)
  /\ driver_run ReloadFacts.throttle_args 8 example_epoch example_reloaded
       = Py.Ok (Some example_after_epoch)
  /\ train_steps_since_last_reload (rs_train_state example_after_epoch) = 56
  /\ steps_match_history example_after_epoch.
Proof.
  assert (reload_pass ReloadFacts.throttle_args ReloadFacts.new_dir
            ReloadFacts.throttle_state = Py.Ok (Reloaded, example_reloaded))
    as H1 by (vm_compute; reflexivity).
  assert (driver_run ReloadFacts.throttle_args 8 example_epoch example_reloaded
            = Py.Ok (Some example_after_epoch))
    as H2 by (vm_compute; reflexivity).
  split; [exact H1|]. split; [exact H2|]. split; [vm_compute; reflexivity|].
  destruct (steps_since_reload_match_history ReloadFacts.throttle_args 8
              example_epoch example_reloaded example_after_epoch H2)
    as [Hstart Hkeep].
  apply Hkeep.
  exact (Hstart ReloadFacts.new_dir ReloadFacts.throttle_state H1).
Defined.

(** X26.  The global step count.  Over any run of the epoch loop,
    [global_step_samples] grows by exactly the batch size times the number
    of batches trained in its sub-epochs: reloads, bucket checks and ends
    of epochs leave it alone, and nothing resets it. *)
Theorem global_step_samples_counts_training (a : args) (batch_size : Z)
    (steps : list driver_step) (st st' : reload_state) :
  driver_run a batch_size steps st = Py.Ok (Some st') ->
  global_step_samples (rs_train_state st')
    = global_step_samples (rs_train_state st)
      + batch_size * batches_trained steps.
Proof.
  revert st. induction steps as [|step rest IH]; intros st Hrun.
  - simpl in Hrun. injection Hrun as <-. simpl. lia.
  - simpl in Hrun.
    destruct (driver_apply a batch_size step st) as [[st1|]|e] eqn:E;
      try discriminate.
    cbn [mbind result_bind Py.bind] in Hrun.
    rewrite (IH st1 Hrun), (step_counts_training a batch_size step st st1 E).
    destruct step; simpl; lia.
Qed.

Lemma global_step_samples_counts_training_witness :
  exists st',
    driver_run ReloadFacts.throttle_args 8 example_epoch
      ReloadFacts.throttle_state = Py.Ok (Some st')
    /\ global_step_samples (rs_train_state st') = 900 + 8 * 7.
Proof.
  eexists. split; [vm_compute; reflexivity|].
  exact (global_step_samples_counts_training ReloadFacts.throttle_args 8
           example_epoch ReloadFacts.throttle_state _ eq_refl).
Defined.

Lemma step_extends_history (a : args) (batch_size : Z) (step : driver_step)
    (st st' : reload_state) (events : list event) :
  driver_apply a batch_size step st = Py.Ok (Some st') ->
  rs_trainhistory st !! "history" = Some (History events) ->
  exists more,
    rs_trainhistory st' !! "history" = Some (History (events ++ more))
    /\ Forall is_newdata more.
Proof.
  intros Hstep Hhist.
  assert (rs_trainhistory st' !! "history" = Some (History events) ->
          exists more,
            rs_trainhistory st' !! "history" = Some (History (events ++ more))
            /\ Forall is_newdata more) as Hsame.
  { intros H. exists []. rewrite app_nil_r. split; [exact H|constructor]. }
  destruct step as [envs| |n|sums weights draw]; simpl in Hstep.
  - apply reload_loop_result in Hstep as [->|[env H]]; [exact (Hsame Hhist)|].
    apply ReloadFacts.reloaded_pass in H
      as (_ & _ & _ & range & events0 & Hbefore & Hafter).
    rewrite Hhist in Hbefore. injection Hbefore as <-.
    eexists. split; [exact Hafter|].
    constructor; [exact I|constructor].
  - destruct (TrainBucket.consume_train_bucket a (rs_train_state st));
      [|discriminate].
    cbn [mbind result_bind Py.bind] in Hstep. injection Hstep as <-.
    exact (Hsame Hhist).
  - injection Hstep as <-. exact (Hsame Hhist).
  - injection Hstep as <-. apply Hsame. simpl. unfold snapshot_history.
    rewrite !lookup_insert_ne by discriminate. exact Hhist.
Qed.

(** X27.  The history is append-only.  Over any run of the epoch loop the events
    of the history are kept, in order, and the events added behind them
    are all ["newdata"] events; the copies of the training state and of the
    running metrics that [save_history] puts beside them never touch the
    list. *)
Theorem history_is_append_only (a : args) (batch_size : Z)
    (steps : list driver_step) (st st' : reload_state) (events : list event) :
  driver_run a batch_size steps st = Py.Ok (Some st') ->
  rs_trainhistory st !! "history" = Some (History events) ->
  exists more,
    rs_trainhistory st' !! "history" = Some (History (events ++ more))
    /\ Forall is_newdata more.
Proof.
  revert st events. induction steps as [|step rest IH]; intros st events Hrun Hhist.
  - simpl in Hrun. injection Hrun as <-. exists []. rewrite app_nil_r.
    split; [exact Hhist|constructor].
  - simpl in Hrun.
    destruct (driver_apply a batch_size step st) as [[st1|]|e] eqn:E;
      try discriminate.
    cbn [mbind result_bind Py.bind] in Hrun.
    destruct (step_extends_history a batch_size step st st1 events E Hhist)
      as (more1 & H1 & Hnew1).
    destruct (IH st1 _ Hrun H1) as (more2 & H2 & Hnew2).
    exists (more1 ++ more2). rewrite app_assoc. split; [exact H2|].
    apply Forall_app. split; assumption.
Qed.

(** The run that starts with the reload of a new directory at 900
    samples: the ["started"] event stays first and one ["newdata"] event
    follows it. *)
Lemma history_is_append_only_witness :
  exists st' more,
    driver_run ReloadFacts.throttle_args 8 example_epoch
      ReloadFacts.throttle_state = Py.Ok (Some st')
    /\ rs_trainhistory st' !! "history" = Some (History ([Started "t0"] ++ more))
    /\ Forall is_newdata more.
Proof.
  destruct (history_is_append_only ReloadFacts.throttle_args 8 example_epoch
              ReloadFacts.throttle_state example_first_epoch [Started "t0"])
    as (more & H1 & H2); [vm_compute; reflexivity|reflexivity|].
  exists example_first_epoch, more.
  split; [vm_compute; reflexivity|]. split; [exact H1|exact H2].
Defined.

End Driver.

(* ===================================================================== *)
(** * The directories made before [main] *)
(* ===================================================================== *)

Module MakeDirs.

Import Fs.

(** [os.makedirs(p)]: the missing ancestors are made first, a
    [FileExistsError] while making them is passed over, then [os.mkdir(p)].
    [rev_p] is [p] with its last component first. *)
Fixpoint makedirs_rev (rev_p : list string) : io unit :=
  match rev_p with
  | [] => mkdir []
  | name :: rev_head =>
      match rev_head with
      | [] => mret tt
      | _ :: _ =>
          found ← exists_ (rev rev_head);
          if found : bool then mret tt
          else fun m =>
                 match makedirs_rev rev_head m with
                 | (Py.Raise (Py.FileExistsError _), m') => (Py.Ok tt, m')
                 | r => r
                 end
      end ;;
      mkdir (rev rev_head ++ [name])
  end.

Definition makedirs (p : path) : io unit := makedirs_rev (rev p).

Definition get_longterm_checkpoints_dir (traindir : path) : path :=
  join traindir "longterm_checkpoints".

(** [if not os.path.exists(p): os.makedirs(p)] *)
Definition ensure_dir (p : path) : io unit :=
  found ← exists_ p;
  if found : bool then mret tt else makedirs p.

(** [make_dirs] (lines 75-86). *)
Definition make_dirs (traindir exportdir : path) : io unit :=
  ensure_dir traindir ;;
  ensure_dir exportdir ;;
  ensure_dir (get_longterm_checkpoints_dir traindir).

(** What a first start in an empty working directory makes. *)
Definition example_made : gmap path node :=
  (make_dirs ["runs"; "b6c96"] ["models"] ∅).2.

Lemma lookup_node_weaken (p : path) (n : node) (m m' : gmap path node) :
  lookup_node p m = Some n -> m ⊆ m' -> lookup_node p m' = Some n.
Proof.
  destruct p; [auto|]. simpl. intros H Hsub. exact (lookup_weaken _ _ _ _ H Hsub).
Qed.

Lemma parent_neq (p : path) : p <> [] -> parent p <> p.
Proof.
  intros Hp H. apply (f_equal length) in H. unfold parent in H.
  destruct (exists_last Hp) as (d & name & ->).
  rewrite removelast_last, length_app in H. simpl in H. lia.
Qed.

Lemma mkdir_wf (p : path) (m m' : gmap path node) (r : Py.result unit) :
  wf m ->
  mkdir p m = (r, m') ->
  wf m' /\ m ⊆ m' /\ (r = Py.Ok tt -> lookup_node p m' = Some Dir).
Proof.
  intros Hwf. unfold mkdir.
  destruct (lookup_node p m) as [n|] eqn:Hp.
  { intros [= <- <-]. split; [exact Hwf|]. split; [reflexivity|discriminate]. }
  unfold check_parent.
  destruct (lookup_node (parent p) m) as [[|d]|] eqn:Hparent;
    intros [= <- <-];
    try (split; [exact Hwf|]; split; [reflexivity|discriminate]).
  assert (p <> []) as Hne by (intros ->; discriminate).
  assert (m !! p = None) as Hnone by (destruct p; [contradiction|exact Hp]).
  split; [|split].
  - intros q n Hq. destruct (decide (q = p)) as [->|Hqp].
    + split; [exact Hne|].
      rewrite CheckpointCycle.lookup_node_insert_ne
        by (apply not_eq_sym, parent_neq, Hne).
      exact Hparent.
    + rewrite lookup_insert_ne in Hq by congruence.
      destruct (Hwf q n Hq) as [Hq1 Hq2]. split; [exact Hq1|].
      rewrite CheckpointCycle.lookup_node_insert_ne; [exact Hq2|].
      intros E. rewrite E, Hq2 in Hp. discriminate.
  - apply insert_subseteq. exact Hnone.
  - intros _. destruct p; [contradiction|]. simpl. apply lookup_insert_eq.
Qed.

Lemma makedirs_rev_wf (rev_p : list string) (m m' : gmap path node)
    (r : Py.result unit) :
  wf m ->
  makedirs_rev rev_p m = (r, m') ->
  wf m' /\ m ⊆ m' /\ (r = Py.Ok tt -> lookup_node (rev rev_p) m' = Some Dir).
Proof.
  revert m m' r. induction rev_p as [|name rev_head IH]; intros m m' r Hwf.
  - simpl. apply mkdir_wf, Hwf.
  - cbn [makedirs_rev]. unfold mbind at 1. unfold io_bind_inst, io_bind.
    assert (forall m1, wf m1 -> m ⊆ m1 ->
              mkdir (rev rev_head ++ [name]) m1 = (r, m') ->
              wf m' /\ m ⊆ m'
              /\ (r = Py.Ok tt ->
                  lookup_node (rev (name :: rev_head)) m' = Some Dir)) as Hthen.
    { intros m1 Hwf1 Hsub1 H.
      destruct (mkdir_wf _ _ _ _ Hwf1 H) as (H1 & H2 & H3).
      split; [exact H1|]. split; [etrans; eassumption|exact H3]. }
    assert (forall m1 e, wf m1 -> m ⊆ m1 ->
              (Py.Raise e, m1) = (r, m') ->
              wf m' /\ m ⊆ m'
              /\ (r = Py.Ok tt ->
                  lookup_node (rev (name :: rev_head)) m' = Some Dir)) as Hfail.
    { intros m1 e Hwf1 Hsub1 [= <- <-].
      split; [exact Hwf1|]. split; [exact Hsub1|discriminate]. }
    destruct rev_head as [|name2 rev_head2].
    + apply Hthen; [exact Hwf|reflexivity].
    + unfold mbind, io_bind_inst, io_bind, exists_.
      destruct (bool_decide _).
      * apply Hthen; [exact Hwf|reflexivity].
      * destruct (makedirs_rev (name2 :: rev_head2) m) as [r1 m1] eqn:E1.
        destruct (IH m m1 r1 Hwf E1) as (H1 & H2 & _).
        destruct r1 as [[]|e]; [apply Hthen; assumption|].
        destruct e; first [apply Hthen; assumption|apply Hfail; assumption].
Qed.

Lemma ensure_dir_wf (p : path) (m m' : gmap path node) :
  wf m ->
  ensure_dir p m = (Py.Ok tt, m') ->
  wf m' /\ m ⊆ m' /\ is_Some (lookup_node p m').
Proof.
  intros Hwf. unfold ensure_dir, mbind, io_bind_inst, io_bind, exists_.
  destruct (bool_decide (is_Some (lookup_node p m))) eqn:E.
  - intros [= <-]. apply bool_decide_eq_true_1 in E.
    split; [exact Hwf|]. split; [reflexivity|exact E].
  - unfold makedirs. intros H.
    destruct (makedirs_rev_wf _ _ _ _ Hwf H) as (H1 & H2 & H3).
    rewrite rev_involutive in H3.
    split; [exact H1|]. split; [exact H2|]. rewrite (H3 eq_refl). eauto.
Qed.

Lemma ensure_dir_present (p : path) (m : gmap path node) :
  is_Some (lookup_node p m) -> ensure_dir p m = (Py.Ok tt, m).
Proof.
  intros H. unfold ensure_dir, mbind, io_bind_inst, io_bind, exists_.
  rewrite bool_decide_eq_true_2 by exact H. reflexivity.
Qed.

Lemma is_Some_weaken (p : path) (m m' : gmap path node) :
  is_Some (lookup_node p m) -> m ⊆ m' -> is_Some (lookup_node p m').
Proof. intros [n H] Hsub. rewrite (lookup_node_weaken p n m m' H Hsub). eauto. Qed.

(** X28.  The directories of a run.  In a well-formed file system, when
    [make_dirs] completes, the training directory, the export directory
    and [longterm_checkpoints] under the training directory exist, with
    whatever ancestors they needed; everything that was there before is
    still there unchanged, the file system is well-formed, and a second
    [make_dirs] (the next start of the trainer) completes without changing
    anything. *)
Theorem make_dirs_is_idempotent (traindir exportdir : path)
    (m m' : gmap path node) :
  wf m ->
  make_dirs traindir exportdir m = (Py.Ok tt, m') ->
  wf m'
  /\ m ⊆ m'
  /\ is_Some (lookup_node traindir m')
  /\ is_Some (lookup_node exportdir m')
  /\ is_Some (lookup_node (get_longterm_checkpoints_dir traindir) m')
  /\ make_dirs traindir exportdir m' = (Py.Ok tt, m').
Proof.
  intros Hwf. unfold make_dirs at 1. unfold mbind, io_bind_inst, io_bind.
  destruct (ensure_dir traindir m) as [[[]|e] m1] eqn:E1; [|discriminate].
  destruct (ensure_dir exportdir m1) as [[[]|e] m2] eqn:E2; [|discriminate].
  intros E3.
  destruct (ensure_dir_wf _ _ _ Hwf E1) as (Hwf1 & Hsub1 & Ht).
  destruct (ensure_dir_wf _ _ _ Hwf1 E2) as (Hwf2 & Hsub2 & He).
  destruct (ensure_dir_wf _ _ _ Hwf2 E3) as (Hwf3 & Hsub3 & Hl).
  assert (is_Some (lookup_node traindir m')) as Ht'
    by (apply (is_Some_weaken _ m1); [exact Ht|etrans; eassumption]).
  assert (is_Some (lookup_node exportdir m')) as He'
    by (apply (is_Some_weaken _ m2); assumption).
  split; [exact Hwf3|].
  split; [etrans; [exact Hsub1|etrans; eassumption]|].
  split; [exact Ht'|]. split; [exact He'|]. split; [exact Hl|].
  unfold make_dirs, mbind, io_bind_inst, io_bind.
  rewrite (ensure_dir_present _ _ Ht'), (ensure_dir_present _ _ He').
  apply ensure_dir_present, Hl.
Qed.

(** A first start in an empty working directory, with the training
    directory two levels down. *)
Lemma make_dirs_is_idempotent_witness :
  make_dirs ["runs"; "b6c96"] ["models"] ∅ = (Py.Ok tt, example_made)
  /\ example_made !! ["runs"; "b6c96"; "longterm_checkpoints"] = Some Dir
  /\ make_dirs ["runs"; "b6c96"] ["models"] example_made
       = (Py.Ok tt, example_made).
Proof.
  assert (make_dirs ["runs"; "b6c96"] ["models"] ∅ = (Py.Ok tt, example_made))
    as Hmade by reflexivity.
  split; [exact Hmade|]. split; [reflexivity|].
  assert (wf (∅ : gmap path node)) as Hwf
    by (intros p n H; rewrite lookup_empty in H; discriminate).
  exact (proj2 (proj2 (proj2 (proj2 (proj2
           (make_dirs_is_idempotent ["runs"; "b6c96"] ["models"] ∅
              example_made Hwf Hmade)))))).
Defined.

End MakeDirs.

(* ===================================================================== *)
(** * The float expressions of the examples, in IEEE binary64 *)
(* ===================================================================== *)

(** The embedding above computes with exact rationals.  The expressions the
    concrete examples go through are evaluated here with Rocq's primitive
    binary64 floats (the arithmetic of CPython's [float]): they give the
    same values, so the examples hold for the floats as well. *)
Module Binary64.

Import Stdlib.Floats.PrimFloat.

Local Open Scope float_scope.

#[local] Set Warnings "-inexact-float".

(** [train_state["train_bucket_level"] > 0.99 * samples_per_epoch] *)
Definition bucket_check (level samples_per_epoch : float) : bool :=
  ltb (0.99 * samples_per_epoch) level.

(** [metric_sums[metric] *= decay] followed by [metric_sums[metric] += v] *)
Definition decay_then_add (acc decay v : float) : float := acc * decay + v.

(** [metric_sums[metric] / metric_weights[metric]] *)
Definition mean (sum weight : float) : float := sum / weight.

(** The threshold of the bucket check at samples_per_epoch = 100 is exactly
    99, and a level of 99 does not pass the check. *)
Lemma bucket_check_at_threshold :
  0.99 * 100 = 99 /\ bucket_check 99 100 = false
  /\ bucket_check 150 100 = true /\ bucket_check 40 100 = false.
Proof. repeat split. Qed.

(** The sums, weights and mean of the decayed-mean example. *)
Lemma decayed_mean_values :
  decay_then_add (0 + 10) 0.5 10 = 15
  /\ decay_then_add (0 + 1) 0.5 1 = 1.5
  /\ mean 15 1.5 = 10.
Proof. repeat split. Qed.

(** An undecayed batch metric differs from its decayed value. *)
Lemma undecayed_differs : eqb 4 (4 * 0.5) = false /\ eqb 2 (2 * 0.5) = false.
Proof. repeat split. Qed.

End Binary64.
